(** * AI-Jumpshot-Trainer: shot detector, video recorder, metadata store
      and analysis workflow

    A shallow embedding of the Python sources

    - [src/video/video_recorder.py]   ([VideoRecorder])
    - [src/video/shot_detector.py]    ([ShotDetector])
    - [src/storage/metadata_manager.py], [src/storage/video_storage.py]
    - [src/ai/critique_generator.py], [src/session/shot_analyzer.py]
    - [src/gui/main_window.py]        (the two shot handlers)

    Python [float] is IEEE binary64, which is what Rocq's primitive
    [float] is, so float arithmetic and comparisons are embedded as the
    primitive operations; Python [int] is [Z].  Objects are records whose
    methods take the old object and return the new one together with
    what the call printed, called back or raised.  A method call is one
    step: the lock of the recorder and the threads of the analyzer are
    not modelled, a background task runs from start to end. *)

From Stdlib Require Import ZArith List Bool String Ascii Lia.
From Stdlib Require Import Floats.PrimFloat Floats.SpecFloat Floats.FloatOps
  Floats.FloatAxioms.
From stdpp Require Import base option list gmap strings pretty.

Local Open Scope Z_scope.
Set Warnings "-inexact-float".

(** ** Python values and exceptions *)

Module Py.

(** An exception object: its class name and [str(e)]. *)
Inductive exception : Type :=
| Exception (type_name : string) (message : string).

Definition str (e : exception) : string :=
  match e with Exception _ m => m end.

(** The result of evaluating something that may raise. *)
Inductive outcome (A : Type) : Type :=
| Return (a : A)
| Raise (e : exception).
Arguments Return {A} a.
Arguments Raise {A} e.

#[global] Instance outcome_ret : MRet outcome := fun A a => Return a.
#[global] Instance outcome_bind : MBind outcome := fun A B f m =>
  match m with
  | Return a => f a
  | Raise e => Raise e
  end.

Definition ZeroDivisionError : exception :=
  Exception "ZeroDivisionError" "division by zero".
Definition OverflowError (m : string) : exception :=
  Exception "OverflowError" m.
Definition ValueError (m : string) : exception :=
  Exception "ValueError" m.
Definition TypeError (m : string) : exception :=
  Exception "TypeError" m.

Definition is_inf (f : float) : bool :=
  match Prim2SF f with S754_infinity _ => true | _ => false end.

(** An int as an exact (unrounded) binary number [m * 2^0]. *)
Definition exact (n : Z) : spec_float :=
  match n with
  | Z0 => S754_zero false
  | Zpos p => S754_finite false p 0
  | Zneg p => S754_finite true p 0
  end.

(** [float(n)]: the binary64 nearest to [n], ties to even;
    OverflowError when [n] is beyond the largest finite float. *)
Definition float_of_int (n : Z) : outcome float :=
  let f := SF2Prim (binary_normalize prec emax n 0 false) in
  if is_inf f then Raise (OverflowError "int too large to convert to float")
  else Return f.

(** [int(f)]: truncation toward zero; ValueError on nan, OverflowError on
    an infinity. *)
Definition int (f : float) : outcome Z :=
  match Prim2SF f with
  | S754_zero _ => Return 0
  | S754_finite s m e =>
      let mag := if 0 <=? e then Z.shiftl (Zpos m) e
                 else Z.shiftr (Zpos m) (- e) in
      Return (if s then - mag else mag)
  | S754_infinity _ =>
      Raise (OverflowError "cannot convert float infinity to integer")
  | S754_nan => Raise (ValueError "cannot convert float NaN to integer")
  end.

(** [f * n] for a float [f] and an int [n]: the int is converted first. *)
Definition float_mul_int (f : float) (n : Z) : outcome float :=
  g ← float_of_int n; Return (PrimFloat.mul f g).

(** [a / b] for two ints: the correctly rounded quotient. *)
Definition truediv (a b : Z) : outcome float :=
  if b =? 0 then Raise ZeroDivisionError
  else
    let q := SF2Prim (SFdiv prec emax (exact a) (exact b)) in
    if is_inf q
    then Raise (OverflowError "integer division result too large for a float")
    else Return q.

(** [np.sqrt(n)] for a non-negative Python int: NumPy converts an int
    below [2^64] to a 64-bit integer and then to float64; a larger one
    becomes an object array, which has no [sqrt] loop. *)
Definition np_sqrt (n : Z) : outcome float :=
  if n <? 2 ^ 64
  then Return (PrimFloat.sqrt (SF2Prim (binary_normalize prec emax n 0 false)))
  else Raise (TypeError "loop of ufunc does not support argument 0 of type int").

(** [collections.deque(maxlen=n)]: [append] adds on the right and, when
    the deque has grown past [maxlen], drops the leftmost item. *)
Record deque (A : Type) : Type := Deque { maxlen : Z; items : list A }.
Arguments Deque {A} maxlen items.
Arguments maxlen {A} d.
Arguments items {A} d.

Definition deque_new {A : Type} (maxlen : Z) : deque A := Deque maxlen [].

Definition deque_len {A : Type} (d : deque A) : Z := Z.of_nat (length (items d)).

Definition deque_append {A : Type} (d : deque A) (x : A) : deque A :=
  let grown := items d ++ [x] in
  if maxlen d <? Z.of_nat (length grown)
  then Deque (maxlen d) (tail grown)
  else Deque (maxlen d) grown.

Definition deque_clear {A : Type} (d : deque A) : deque A := Deque (maxlen d) [].

End Py.

Import Py.

(** A video frame, [np.ndarray] of shape [(height, width, ...)]; the
    pixel data is kept flat.  [frame.copy()] is an array with the same
    value, so a copy is the value itself. *)
Record ndarray : Type := NdArray { nd_height : Z; nd_width : Z; nd_data : list Z }.

Definition copy (frame : ndarray) : ndarray := frame.

(** ** [src/video/video_recorder.py] *)

Module VideoRecorder.

Record t : Type := Build {
  buffer_seconds : float;
  fps : Z;
  buffer_size : Z;
  frame_buffer : deque ndarray;
  is_recording : bool;
  current_video_frames : list ndarray
}.

(** [VideoRecorder(buffer_seconds, fps)].  [deque(maxlen=n)] raises
    ValueError for a negative [n]. *)
Definition __init__ (buffer_seconds : float) (fps : Z) : outcome t :=
  product ← float_mul_int buffer_seconds fps;
  buffer_size ← Py.int product;
  if buffer_size <? 0
  then Raise (ValueError "maxlen must be non-negative")
  else Return (Build buffer_seconds fps buffer_size
                     (deque_new buffer_size) false []).

(** The defaults of the signature: [buffer_seconds = 3.0], [fps = 30]. *)
Definition default : outcome t := __init__ 3%float 30.

Definition add_frame (self : t) (frame : option ndarray) : t :=
  match frame with
  | Some frame =>
      Build (buffer_seconds self) (fps self) (buffer_size self)
            (deque_append (frame_buffer self) (copy frame))
            (is_recording self) (current_video_frames self)
  | None => self
  end.

Definition start_recording (self : t) : t :=
  Build (buffer_seconds self) (fps self) (buffer_size self)
        (frame_buffer self) true (items (frame_buffer self)).

Definition add_recording_frame (self : t) (frame : option ndarray) : t :=
  match is_recording self, frame with
  | true, Some frame =>
      Build (buffer_seconds self) (fps self) (buffer_size self)
            (frame_buffer self) (is_recording self)
            (current_video_frames self ++ [copy frame])
  | _, _ => self
  end.

(** Returns the new recorder and the returned list [frames]. *)
Definition stop_recording (self : t) : t * list ndarray :=
  let frames := current_video_frames self in
  (Build (buffer_seconds self) (fps self) (buffer_size self)
         (frame_buffer self) false [],
   frames).

(** A call of one of the four methods, and a run of calls in order. *)
Inductive call : Type :=
| AddFrame (frame : option ndarray)
| StartRecording
| AddRecordingFrame (frame : option ndarray)
| StopRecording.

Definition step (self : t) (c : call) : t :=
  match c with
  | AddFrame frame => add_frame self frame
  | StartRecording => start_recording self
  | AddRecordingFrame frame => add_recording_frame self frame
  | StopRecording => fst (stop_recording self)
  end.

Definition run (self : t) (calls : list call) : t := fold_left step calls self.

(** *** Vocabulary of the properties *)

(** The ring invariant: the deque was built with [maxlen = buffer_size],
    which is not negative, and holds at most that many frames. *)
Definition ring_ok (r : t) : Prop :=
  maxlen (frame_buffer r) = buffer_size r /\
  0 <= buffer_size r /\
  deque_len (frame_buffer r) <= buffer_size r.

(** The frames that a sequence of calls appends to an open recording. *)
Fixpoint appended (calls : list call) : list ndarray :=
  match calls with
  | [] => []
  | AddRecordingFrame (Some frame) :: rest => frame :: appended rest
  | _ :: rest => appended rest
  end.

(** Calls that neither open nor close a recording. *)
Definition feeds (c : call) : Prop :=
  match c with
  | AddFrame _ | AddRecordingFrame _ => True
  | StartRecording | StopRecording => False
  end.

(** The frames that a sequence of calls offers to the ring. *)
Fixpoint observed (calls : list call) : list ndarray :=
  match calls with
  | [] => []
  | AddFrame (Some frame) :: rest => frame :: observed rest
  | _ :: rest => observed rest
  end.

End VideoRecorder.

(** ** [src/video/video_file_manager.py] *)

Module VideoFileManager.

(** [cap] is [Some fps] for an opened capture whose
    [get(cv2.CAP_PROP_FPS)] answers [fps]. *)
Record t : Type := Build {
  cap : option float;
  is_connected : bool;
  is_playing : bool;
  playback_speed : float;
  frame_delay_ms : Z
}.

Definition __init__ : t := Build None false false 1%float 33.

(** The builtins [min(a, b)] and [max(a, b)] on floats: the first
    argument unless the second is strictly smaller, respectively
    larger. *)
Definition py_min (a b : float) : float := if PrimFloat.ltb b a then b else a.
Definition py_max (a b : float) : float := if PrimFloat.ltb a b then b else a.

(** [a / b] on floats. *)
Definition float_truediv (a b : float) : outcome float :=
  if PrimFloat.eqb b 0
  then Raise (Exception "ZeroDivisionError" "float division by zero")
  else Return (PrimFloat.div a b).

(** The manager after the call and the exception raised, if any: the
    speed is assigned before the delay is computed. *)
Definition set_playback_speed (self : t) (speed : float) : t * option exception :=
  let playback_speed := py_max 0.1 (py_min 5 speed) in
  let self := Build (cap self) (is_connected self) (is_playing self)
                    playback_speed (frame_delay_ms self) in
  match is_connected self, cap self with
  | true, Some fps =>
      if PrimFloat.ltb 0 fps
      then
        match q ← float_truediv 1000 (PrimFloat.mul fps playback_speed); Py.int q with
        | Return delay =>
            (Build (cap self) (is_connected self) (is_playing self)
                   playback_speed delay, None)
        | Raise e => (self, Some e)
        end
      else (self, None)
  | _, _ => (self, None)
  end.

End VideoFileManager.

(** ** [src/video/shot_detector.py] *)

Module ShotDetector.

(** MediaPipe pose landmark indices. *)
Definition LEFT_WRIST : Z := 15.
Definition RIGHT_WRIST : Z := 16.
Definition LEFT_ELBOW : Z := 13.
Definition RIGHT_ELBOW : Z := 14.
Definition LEFT_SHOULDER : Z := 11.
Definition RIGHT_SHOULDER : Z := 12.

(** One entry of the landmarks dictionary, as [PoseDetector.process_frame]
    builds it: [{'x': .., 'y': .., 'z': .., 'visibility': ..}].  Such a
    dictionary is never empty, so it is truthy. *)
Record landmark : Type := Landmark { x : float; y : float; visibility : float }.

(** ['left'] or ['right']. *)
Inductive arm : Type := left | right.

Definition position : Type := Z * Z.

(** Detection parameters: set once in [__init__] and never assigned
    again anywhere in the repository. *)
Definition wrist_upward_velocity_threshold : float := (-0.012)%float.
Definition min_wrist_height : float := 0.25%float.
Definition max_wrist_height : float := 0.85%float.
Definition elbow_extension_threshold : float := 0.08%float.
Definition min_confidence : float := 0.5%float.
Definition min_wrist_above_shoulder : float := 0.05%float.
Definition max_frames_after_release : Z := 90.

(** The mutable attributes.  [shot_callback] records whether a callable
    was supplied ([None] otherwise). *)
Record t : Type := Build {
  shot_callback : bool;
  wrist_positions : deque position;
  elbow_positions : deque position;
  shoulder_positions : deque position;
  arm_extension_history : deque float;
  is_shooting : bool;
  shot_detected : bool;
  frames_since_release : Z;
  shooting_arm : option arm
}.

Definition __init__ (shot_callback : bool) : t :=
  Build shot_callback (deque_new 20) (deque_new 20) (deque_new 20)
        (deque_new 20) false false 0 None.

(** What a call of [process_frame] does to the outside: the two [print]s
    and the invocation of [shot_callback]. *)
Inductive event : Type :=
| PrintShotDetected (arm_side : arm) (vertical_velocity : float)
                    (wrist_above_shoulder : bool)
| CallShotCallback
| PrintReleaseConfirmed.

Definition reset_state (self : t) : t :=
  Build (shot_callback self)
        (deque_clear (wrist_positions self))
        (deque_clear (elbow_positions self))
        (deque_clear (shoulder_positions self))
        (deque_clear (arm_extension_history self))
        false false 0 None.

(** The callable, [MainWindow.on_shot_detected] in the application, is
    taken to return normally. *)
Definition _trigger_shot (self : t) : list event :=
  if shot_callback self then [CallShotCallback] else [].

(** [(int(lm['x'] * width), int(lm['y'] * height))]. *)
Definition pixel (lm : landmark) (height width : Z) : outcome position :=
  fx ← float_mul_int (x lm) width;
  px ← Py.int fx;
  fy ← float_mul_int (y lm) height;
  py ← Py.int fy;
  Return (px, py).

(** [w and e and s and w.get('visibility', 0) > min_confidence and ...]. *)
Definition arm_visible (w e s : option landmark) : option (landmark * landmark * landmark) :=
  match w, e, s with
  | Some w, Some e, Some s =>
      if PrimFloat.ltb min_confidence (visibility w)
         && PrimFloat.ltb min_confidence (visibility e)
         && PrimFloat.ltb min_confidence (visibility s)
      then Some (w, e, s)
      else None
  | _, _, _ => None
  end.

Definition arm_positions (wes : landmark * landmark * landmark) (height width : Z)
  : outcome (position * position * position) :=
  let '(w, e, s) := wes in
  wrist_pos ← pixel w height width;
  elbow_pos ← pixel e height width;
  shoulder_pos ← pixel s height width;
  Return (wrist_pos, elbow_pos, shoulder_pos).

(** Returns [Some (wrist_pos, elbow_pos, shoulder_pos, arm_side)], or
    [None] for the tuple [(None, None, None, None)]. *)
Definition _get_shooting_arm_landmarks (landmarks : gmap Z landmark) (height width : Z)
  : outcome (option (position * position * position * arm)) :=
  match arm_visible (landmarks !! RIGHT_WRIST) (landmarks !! RIGHT_ELBOW)
                    (landmarks !! RIGHT_SHOULDER) with
  | Some wes =>
      p ← arm_positions wes height width; Return (Some (p, right))
  | None =>
      match arm_visible (landmarks !! LEFT_WRIST) (landmarks !! LEFT_ELBOW)
                        (landmarks !! LEFT_SHOULDER) with
      | Some wes =>
          p ← arm_positions wes height width; Return (Some (p, left))
      | None => Return None
      end
  end.

Definition _calculate_velocity (positions : deque position) : outcome (option (float * float)) :=
  if deque_len positions <? 5 then Return None
  else
    let pos_list := items positions in
    match head pos_list, last pos_list with
    | Some first, Some final =>
        let dx := fst final - fst first in
        let dy := snd final - snd first in
        let dt := Z.of_nat (length pos_list) - 1 in
        if dt =? 0 then Return None
        else
          vx ← truediv dx dt;
          vy ← truediv dy dt;
          Return (Some (vx, vy))
    | _, _ => Raise (Exception "IndexError" "list index out of range")
    end.

(** Lines 59-63 and 75-79: no usable pose on this frame. *)
Definition no_landmarks (self : t) : t :=
  if max_frames_after_release <? frames_since_release self
  then reset_state self
  else Build (shot_callback self) (wrist_positions self) (elbow_positions self)
             (shoulder_positions self) (arm_extension_history self)
             (is_shooting self) (shot_detected self)
             (frames_since_release self + 1) (shooting_arm self).

(** Lines 83-85: the three position [append]s. *)
Definition store (self : t) (wrist_pos elbow_pos shoulder_pos : position) : t :=
  Build (shot_callback self)
        (deque_append (wrist_positions self) wrist_pos)
        (deque_append (elbow_positions self) elbow_pos)
        (deque_append (shoulder_positions self) shoulder_pos)
        (arm_extension_history self)
        (is_shooting self) (shot_detected self)
        (frames_since_release self) (shooting_arm self).

(** Line 92. *)
Definition store_extension (self : t) (arm_extension : float) : t :=
  Build (shot_callback self) (wrist_positions self) (elbow_positions self)
        (shoulder_positions self)
        (deque_append (arm_extension_history self) arm_extension)
        (is_shooting self) (shot_detected self)
        (frames_since_release self) (shooting_arm self).

(** Lines 125-128. *)
Definition arm_now (self : t) (arm_side : arm) : t :=
  Build (shot_callback self) (wrist_positions self) (elbow_positions self)
        (shoulder_positions self) (arm_extension_history self)
        true false 0 (Some arm_side).

(** Line 140. *)
Definition set_shot_detected (self : t) : t :=
  Build (shot_callback self) (wrist_positions self) (elbow_positions self)
        (shoulder_positions self) (arm_extension_history self)
        (is_shooting self) true
        (frames_since_release self) (shooting_arm self).

(** The condition of the [if] at lines 112-115. *)
Definition release_condition (self : t) (vertical_velocity normalized_wrist_y : float)
  (wrist_above_shoulder : bool) : bool :=
  negb (is_shooting self)
  && PrimFloat.ltb vertical_velocity wrist_upward_velocity_threshold
  && (PrimFloat.ltb min_wrist_height normalized_wrist_y
      && PrimFloat.ltb normalized_wrist_y max_wrist_height)
  && wrist_above_shoulder.

(** The condition of the [elif] at lines 132-136. *)
Definition completion_condition (self : t) (vertical_velocity normalized_wrist_y : float)
  (wrist_above_shoulder : bool) : bool :=
  is_shooting self
  && (PrimFloat.ltb 0.005%float vertical_velocity
      || PrimFloat.ltb 0.95%float normalized_wrist_y
      || PrimFloat.ltb normalized_wrist_y 0.1%float
      || negb wrist_above_shoulder).

(** Lines 118-124: [Some] of whether the arm extended enough, [None]
    when the history is shorter than 5. *)
Definition extension_check (self : t) : option bool :=
  if 5 <=? deque_len (arm_extension_history self)
  then
    match last (items (arm_extension_history self)),
          head (items (arm_extension_history self)) with
    | Some recent_extension, Some earlier_extension =>
        let extension_increase := PrimFloat.sub recent_extension earlier_extension in
        Some (PrimFloat.ltb elbow_extension_threshold extension_increase)
    | _, _ => None
    end
  else None.

(** Lines 112-141: the [if]/[elif] on the motion of this frame. *)
Definition detect (self : t) (arm_side : arm)
  (vertical_velocity normalized_wrist_y : float) (wrist_above_shoulder : bool)
  : t * list event :=
  if release_condition self vertical_velocity normalized_wrist_y wrist_above_shoulder
  then
    match extension_check self with
    | Some true =>
        (arm_now self arm_side,
         [PrintShotDetected arm_side vertical_velocity wrist_above_shoulder])
    | _ => (self, [])
    end
  else if completion_condition self vertical_velocity normalized_wrist_y
                               wrist_above_shoulder
  then
    if negb (shot_detected self)
    then (set_shot_detected self, _trigger_shot self ++ [PrintReleaseConfirmed])
    else (self, [])
  else (self, []).

(** Lines 144-147. *)
Definition after_completion (self : t) : t :=
  if shot_detected self
  then
    let n := frames_since_release self + 1 in
    if max_frames_after_release <? n
    then reset_state self
    else Build (shot_callback self) (wrist_positions self) (elbow_positions self)
               (shoulder_positions self) (arm_extension_history self)
               (is_shooting self) (shot_detected self) n (shooting_arm self)
  else self.

(** The detector after the call, what the call printed and called back,
    and the exception it raised, if any. *)
Record result : Type := Result {
  after : t;
  events : list event;
  raised : option exception
}.

Definition process_frame (self : t) (frame : option ndarray)
  (player_landmarks : option (gmap Z landmark)) : result :=
  match frame, player_landmarks with
  | None, _ => Result self [] None
  | Some _, None => Result (no_landmarks self) [] None
  | Some frame, Some player_landmarks =>
    let height := nd_height frame in
    let width := nd_width frame in
    match _get_shooting_arm_landmarks player_landmarks height width with
    | Raise e => Result self [] (Some e)
    | Return None => Result (no_landmarks self) [] None
    | Return (Some (wrist_pos, elbow_pos, shoulder_pos, arm_side)) =>
      let self := store self wrist_pos elbow_pos shoulder_pos in
      match np_sqrt ((fst wrist_pos - fst elbow_pos) ^ 2
                     + (snd wrist_pos - snd elbow_pos) ^ 2) with
      | Raise e => Result self [] (Some e)
      | Return arm_extension =>
        let self := store_extension self arm_extension in
        match truediv (snd wrist_pos) height, truediv (snd shoulder_pos) height with
        | Raise e, _ | Return _, Raise e => Result self [] (Some e)
        | Return normalized_wrist_y, Return normalized_shoulder_y =>
          if 7 <=? deque_len (wrist_positions self)
          then
            match _calculate_velocity (wrist_positions self) with
            | Raise e => Result self [] (Some e)
            | Return None => Result self [] None
            | Return (Some wrist_velocity) =>
              let vertical_velocity := snd wrist_velocity in
              let wrist_above_shoulder :=
                PrimFloat.ltb min_wrist_above_shoulder
                  (PrimFloat.sub normalized_shoulder_y normalized_wrist_y) in
              let '(self, out) :=
                detect self arm_side vertical_velocity normalized_wrist_y
                       wrist_above_shoulder in
              Result (after_completion self) out None
            end
          else Result (after_completion self) [] None
        end
      end
    end
  end.

(** Feeding the detector one [(frame, landmarks)] pair after another, as
    the video thread does; an exception is caught and printed by the
    thread, which goes on with the next frame. *)
Fixpoint run (self : t) (inputs : list (option ndarray * option (gmap Z landmark)))
  : t * list event :=
  match inputs with
  | [] => (self, [])
  | (frame, player_landmarks) :: rest =>
      let r := process_frame self frame player_landmarks in
      let '(final, out) := run (after r) rest in
      (final, events r ++ out)
  end.

(** *** Vocabulary of the properties *)

(** The three states of the detector, read off its two flags. *)
Inductive phase : Type := Idle | Armed | Cooldown.

Definition phase_of (self : t) : phase :=
  if is_shooting self
  then if shot_detected self then Cooldown else Armed
  else Idle.

(** Invocations of [shot_callback], and arming prints, among events. *)
Fixpoint count_calls (out : list event) : nat :=
  match out with
  | [] => 0
  | CallShotCallback :: rest => S (count_calls rest)
  | _ :: rest => count_calls rest
  end.

Fixpoint count_arms (out : list event) : nat :=
  match out with
  | [] => 0
  | PrintShotDetected _ _ _ :: rest => S (count_arms rest)
  | _ :: rest => count_arms rest
  end.

(** The inputs stay within one episode: no call before the last one
    leaves the detector with [is_shooting] false. *)
Fixpoint episode (self : t) (inputs : list (option ndarray * option (gmap Z landmark)))
  : Prop :=
  match inputs with
  | [] => True
  | (frame, player_landmarks) :: rest =>
      match rest with
      | [] => True
      | _ :: _ =>
          is_shooting (after (process_frame self frame player_landmarks)) = true /\
          episode (after (process_frame self frame player_landmarks)) rest
      end
  end.

(** No joint of the pose has a visibility above [min_confidence]. *)
Definition low_confidence (landmarks : gmap Z landmark) : Prop :=
  forall (k : Z) (lm : landmark),
    landmarks !! k = Some lm ->
    PrimFloat.ltb min_confidence (visibility lm) = false.

Definition low_confidence_input (i : option ndarray * option (gmap Z landmark)) : Prop :=
  match snd i with
  | Some landmarks => low_confidence landmarks
  | None => True
  end.



(** The landmark indices of one arm. *)
Definition wrist_index (side : arm) : Z :=
  match side with right => RIGHT_WRIST | left => LEFT_WRIST end.
Definition elbow_index (side : arm) : Z :=
  match side with right => RIGHT_ELBOW | left => LEFT_ELBOW end.
Definition shoulder_index (side : arm) : Z :=
  match side with right => RIGHT_SHOULDER | left => LEFT_SHOULDER end.

(** The histories after the four [append]s of a frame. *)
Definition stored (self : t) (wrist_pos elbow_pos shoulder_pos : position)
  (arm_extension : float) : t :=
  store_extension (store self wrist_pos elbow_pos shoulder_pos) arm_extension.

(** One more call may be owed to an episode that is already open. *)
Definition armed_bonus (self : t) : nat :=
  match phase_of self with Armed => 1 | _ => 0 end.





(** *** Vocabulary of the further properties *)

(** The four histories as [__init__] and the [append]s leave them: each
    deque bounded by 20, the three position histories of one length, the
    extension history no longer than they are. *)
Definition histories_ok (self : t) : Prop :=
  maxlen (wrist_positions self) = 20 /\
  maxlen (elbow_positions self) = 20 /\
  maxlen (shoulder_positions self) = 20 /\
  maxlen (arm_extension_history self) = 20 /\
  deque_len (elbow_positions self) = deque_len (wrist_positions self) /\
  deque_len (shoulder_positions self) = deque_len (wrist_positions self) /\
  deque_len (wrist_positions self) <= 20 /\
  deque_len (arm_extension_history self) <= deque_len (wrist_positions self).

(** The flags, the arm and the counter agree. *)
Definition flags_ok (self : t) : Prop :=
  (shot_detected self = true -> is_shooting self = true) /\
  (is_shooting self = true <-> is_Some (shooting_arm self)) /\
  0 <= frames_since_release self <= 91.

(** The detector with [n] more frames counted since the release. *)
Definition waited (self : t) (n : Z) : t :=
  Build (shot_callback self) (wrist_positions self) (elbow_positions self)
        (shoulder_positions self) (arm_extension_history self)
        (is_shooting self) (shot_detected self)
        (frames_since_release self + n) (shooting_arm self).

(** An input with a frame but no usable pose: no landmarks at all, or
    none above the confidence threshold. *)
Definition poseless (i : option ndarray * option (gmap Z landmark)) : Prop :=
  is_Some (fst i) /\ low_confidence_input i.

(** Every input has a frame and no call raises. *)
Fixpoint clean (self : t) (inputs : list (option ndarray * option (gmap Z landmark)))
  : Prop :=
  match inputs with
  | [] => True
  | (frame, player_landmarks) :: rest =>
      is_Some frame /\
      raised (process_frame self frame player_landmarks) = None /\
      clean (after (process_frame self frame player_landmarks)) rest
  end.

(** On an integer displacement [dy] over [dt] frames, the two velocity
    tests of [process_frame] are tests of the sign of [dy]. *)
Definition sign_test_ok (dy dt : Z) : bool :=
  match truediv dy dt with
  | Return q =>
      Bool.eqb (PrimFloat.ltb q wrist_upward_velocity_threshold) (dy <? 0)
      && Bool.eqb (PrimFloat.ltb 0.005%float q) (0 <? dy)
  | Raise _ => false
  end.

Definition sign_test_table (bound : Z) : bool :=
  forallb (fun dt => forallb (fun dy => sign_test_ok dy dt)
                             (seqZ (- bound) (2 * bound + 1)))
          (seqZ 4 16).



(** All three joints of the arm [side] are in the pose, each with a
    visibility above [min_confidence]. *)
Definition fully_visible (landmarks : gmap Z landmark) (side : arm) : Prop :=
  exists lw le ls,
    landmarks !! wrist_index side = Some lw /\
    landmarks !! elbow_index side = Some le /\
    landmarks !! shoulder_index side = Some ls /\
    PrimFloat.ltb min_confidence (visibility lw) = true /\
    PrimFloat.ltb min_confidence (visibility le) = true /\
    PrimFloat.ltb min_confidence (visibility ls) = true.

End ShotDetector.

(** ** [src/storage/metadata_manager.py] *)

Module MetadataManager.

Record shot_data : Type := ShotData {
  shot_number : Z;
  timestamp : string;
  shot_made : bool;
  video_path : string;
  critique : string
}.

Record session_metadata : Type := Metadata {
  session_id : string;
  start_time : string;
  end_time : option string;
  total_shots : Z;
  shots_made : Z;
  shots_missed : Z;
  shots : list shot_data;
  summary : option string
}.

(** The directory [base_path]: the JSON file [session_<id>.json] of each
    session, keyed by the session id.  [now] stands for a reading of
    [datetime.now().isoformat()]. *)
Definition create_session_metadata (session_id now : string) : session_metadata :=
  Metadata session_id now None 0 0 0 [] None.

Definition save_session_metadata (files : gmap string session_metadata)
  (session_id : string) (metadata : session_metadata) : gmap string session_metadata :=
  <[session_id := metadata]> files.

Definition load_session_metadata (files : gmap string session_metadata)
  (session_id : string) : option session_metadata :=
  files !! session_id.

(** [sum(1 for s in shots if s['shot_made'])]. *)
Fixpoint count_made (shots : list shot_data) : Z :=
  match shots with
  | [] => 0
  | s :: rest => (if shot_made s then 1 else 0) + count_made rest
  end.

(** [now_created] is the clock reading used when the session file does
    not exist yet, [now] the one stamped on the shot. *)
Definition add_shot_metadata (files : gmap string session_metadata)
  (session_id : string) (shot_number : Z) (shot_made : bool)
  (video_path critique : string) (now_created now : string)
  : gmap string session_metadata :=
  let metadata :=
    match load_session_metadata files session_id with
    | None => create_session_metadata session_id now_created
    | Some metadata => metadata
    end in
  let shot_data := ShotData shot_number now shot_made video_path critique in
  let shots := shots metadata ++ [shot_data] in
  let total_shots := Z.of_nat (length shots) in
  let shots_made := count_made shots in
  let shots_missed := total_shots - shots_made in
  save_session_metadata files session_id
    (Metadata (MetadataManager.session_id metadata) (start_time metadata)
              (end_time metadata) total_shots shots_made shots_missed
              shots (summary metadata)).

(** The assignments [metadata['summary'] = summary] and
    [metadata['end_time'] = now]. *)
Definition set_summary (metadata : session_metadata) (summary : string)
  : session_metadata :=
  Metadata (MetadataManager.session_id metadata) (start_time metadata)
           (end_time metadata) (total_shots metadata) (shots_made metadata)
           (shots_missed metadata) (shots metadata) (Some summary).

Definition set_end_time (metadata : session_metadata) (now : string)
  : session_metadata :=
  Metadata (MetadataManager.session_id metadata) (start_time metadata)
           (Some now) (total_shots metadata) (shots_made metadata)
           (shots_missed metadata) (shots metadata) (summary metadata).

Definition update_session_summary (files : gmap string session_metadata)
  (session_id summary now : string) : gmap string session_metadata :=
  match load_session_metadata files session_id with
  | None => files
  | Some metadata =>
      save_session_metadata files session_id
        (set_end_time (set_summary metadata summary) now)
  end.

(** The arguments of one call of [add_shot_metadata] on a session, with
    the two clock readings it may take, and the calls made in order. *)
Record shot_call : Type := ShotCall {
  call_number : Z;
  call_made : bool;
  call_path : string;
  call_critique : string;
  call_created : string;
  call_now : string
}.

Definition add_shots (files : gmap string session_metadata) (session_id : string)
  (calls : list shot_call) : gmap string session_metadata :=
  fold_left (fun files c =>
               add_shot_metadata files session_id (call_number c) (call_made c)
                 (call_path c) (call_critique c) (call_created c) (call_now c))
            calls files.

(** The record a call appends. *)
Definition recorded (c : shot_call) : shot_data :=
  ShotData (call_number c) (call_now c) (call_made c) (call_path c) (call_critique c).

(** The session dictionary with the given shots appended and the three
    counters recomputed from the list. *)
Definition with_shots (metadata : session_metadata) (more : list shot_data)
  : session_metadata :=
  let shots := shots metadata ++ more in
  Metadata (MetadataManager.session_id metadata) (start_time metadata)
           (end_time metadata) (Z.of_nat (length shots)) (count_made shots)
           (Z.of_nat (length shots) - count_made shots) shots (summary metadata).

End MetadataManager.

(** ** [src/session/session_manager.py] *)

Module SessionManager.

(** The session files of the manager's [MetadataManager] are passed in
    and out; [uuid] is the value of [str(uuid.uuid4())] and the [now]
    arguments are readings of the clock. *)
Record t : Type := Build {
  current_session_id : option string;
  session_metadata : option MetadataManager.session_metadata;
  is_active : bool
}.

Definition __init__ : t := Build None None false.

Definition end_session (self : t)
  (files : gmap string MetadataManager.session_metadata) (now : string)
  : t * gmap string MetadataManager.session_metadata
    * option MetadataManager.session_metadata :=
  if negb (is_active self) then (self, files, None)
  else
    match current_session_id self with
    | None => (self, files, None)
    | Some session_id =>
        match session_metadata self with
        | Some metadata =>
            let metadata := MetadataManager.set_end_time metadata now in
            (Build (Some session_id) (Some metadata) false,
             MetadataManager.save_session_metadata files session_id metadata,
             Some metadata)
        | None => (Build (Some session_id) None false, files, None)
        end
    end.

Definition start_session (self : t)
  (files : gmap string MetadataManager.session_metadata)
  (now_end uuid now : string)
  : t * gmap string MetadataManager.session_metadata * string :=
  let '(self, files) :=
    if is_active self then fst (end_session self files now_end) else (self, files) in
  (Build (Some uuid) (Some (MetadataManager.create_session_metadata uuid now)) true,
   files, uuid).

Definition get_session_id (self : t) : option string := current_session_id self.

(** The dictionary of [get_stats], as [(total_shots, shots_made, shots_missed)]. *)
Definition get_stats (self : t) : Z * Z * Z :=
  match session_metadata self with
  | None => (0, 0, 0)
  | Some metadata =>
      (MetadataManager.total_shots metadata, MetadataManager.shots_made metadata,
       MetadataManager.shots_missed metadata)
  end.

Definition add_shot (self : t)
  (files : gmap string MetadataManager.session_metadata)
  (c : MetadataManager.shot_call)
  : t * gmap string MetadataManager.session_metadata :=
  if negb (is_active self) then (self, files)
  else
    match current_session_id self with
    | None => (self, files)
    | Some session_id =>
        let files :=
          MetadataManager.add_shot_metadata files session_id
            (MetadataManager.call_number c) (MetadataManager.call_made c)
            (MetadataManager.call_path c) (MetadataManager.call_critique c)
            (MetadataManager.call_created c) (MetadataManager.call_now c) in
        (match session_metadata self with
         | Some _ =>
             Build (Some session_id)
                   (MetadataManager.load_session_metadata files session_id) true
         | None => self
         end, files)
    end.

(** [add_shot] for each call, in order. *)
Definition add_all (self : t)
  (files : gmap string MetadataManager.session_metadata)
  (calls : list MetadataManager.shot_call)
  : t * gmap string MetadataManager.session_metadata :=
  fold_left (fun sf c => add_shot (fst sf) (snd sf) c) calls (self, files).

End SessionManager.

(** ** [src/gui/main_window.py]: the session copy kept by the window *)

Module SessionView.

(** Lines 779-781 of [MainWindow.on_shot_analyzed]: the in-memory copy
    of the session manager is replaced by what the session file holds,
    [None] when there is no file.  The window's [MetadataManager] reads
    the directory that the analyzer's one writes. *)
Definition on_shot_analyzed (session_manager : SessionManager.t)
  (files : gmap string MetadataManager.session_metadata) : SessionManager.t :=
  match SessionManager.get_session_id session_manager with
  | None => session_manager
  | Some EmptyString => session_manager
  | Some session_id =>
      SessionManager.Build (SessionManager.current_session_id session_manager)
        (MetadataManager.load_session_metadata files session_id)
        (SessionManager.is_active session_manager)
  end.

End SessionView.

(** ** [src/storage/video_storage.py] *)

Module VideoStorage.

(** [f"{n:03d}"]: decimal, zero-padded to width 3, the sign counted. *)
Definition pad (width : nat) (digits : string) : string :=
  String.concat "" (repeat "0"%string (width - String.length digits)) +:+ digits.

Definition format_03d (n : Z) : string :=
  if n <? 0 then "-" +:+ pad 2 (pretty (Z.abs n)) else pad 3 (pretty n).

(** [base_path / f"session_{session_id}" / f"shot_{n:03d}_{result}{suffix}.mp4"]
    as a string; the directory is created on the way. *)
Definition get_shot_video_path (base_path session_id : string) (shot_number : Z)
  (shot_made with_critique : bool) : string :=
  let session_dir := base_path +:+ "/" +:+ "session_" +:+ session_id in
  let result := if shot_made then "made" else "missed" in
  let suffix := if with_critique then "_with_critique" else "" in
  let filename := "shot_" +:+ format_03d shot_number +:+ "_" +:+ result
                  +:+ suffix +:+ ".mp4" in
  session_dir +:+ "/" +:+ filename.

(** [is_opened] is what [cv2.VideoWriter(...).isOpened()] answers for
    this path and frame size. *)
Definition save_video (is_opened : string -> Z -> Z -> bool)
  (video_path : string) (frames : list ndarray) (width height : Z) : bool :=
  match frames with
  | [] => false
  | _ :: _ => is_opened video_path width height
  end.

(** Vocabulary for statements on the file names: [free c s], the
    character [c] does not occur in [s]. *)
Fixpoint free (c : ascii) (s : string) : Prop :=
  match s with
  | EmptyString => True
  | String d rest => d <> c /\ free c rest
  end.

(** A decimal numeral without superfluous zero: ["0"], or a string that
    starts with another character. *)
Definition numeral (s : string) : Prop :=
  s = "0"%string \/
  match s with
  | String c _ => c <> "0"%char
  | EmptyString => False
  end.

End VideoStorage.

(** ** The background analysis task: its world and its effects *)

Module Task.

(** The two prompts sent to Gemini: the made-or-missed question of
    [determine_shot_result], and the critique request of
    [generate_shot_critique], whose text depends on [shot_made] only. *)
Inductive prompt : Type :=
| ShotResultPrompt
| ShotCritiquePrompt (shot_made : bool).

(** What a task does to the outside, in order.  The completion callback
    is taken to return normally. *)
Inductive event : Type :=
| Print (line : string)
| SaveVideo (video_path : string) (frames : list ndarray) (width height : Z)
| AnalyzeVideo (video_path : string) (p : prompt)
| Move (src dst : string)
| AddTextOverlay (input_path output_path text : string)
| AddShotMetadata (session_id : string) (shot_number : Z) (shot_made : bool)
                  (video_path critique : string)
| Callback (callback : string) (shot_number : Z) (shot_made : option bool)
           (critique : string) (video_path : option string).

(** The collaborators of [ShotAnalyzer], at the calls it makes:
    [video_storage.base_path]; whether [cv2.VideoWriter] opens for a
    path and size; [client.analyze_video(video_path, prompt)] of the
    Gemini client handed to [CritiqueGenerator]; [shutil.move];
    [video_overlay.add_text_overlay] (position ["bottom"]); and the
    successive readings of [datetime.now().isoformat()]. *)
Record services : Type := Services {
  base_path : string;
  is_opened : string -> Z -> Z -> bool;
  analyze_video : string -> prompt -> outcome string;
  move : string -> string -> outcome unit;
  add_text_overlay : string -> string -> string -> outcome bool;
  now : nat -> string
}.

(** The session files, what has happened so far, and the local variable
    [shot_made] of [_analyze_shot_sync], which its [except] clause reads. *)
Record state : Type := State {
  files : gmap string MetadataManager.session_metadata;
  trace : list event;
  shot_made : option bool
}.

Definition M (A : Type) : Type := state -> outcome A * state.

#[global] Instance M_ret : MRet M := fun A a s => (Return a, s).
#[global] Instance M_bind : MBind M := fun A B f m s =>
  match m s with
  | (Return a, s') => f a s'
  | (Raise e, s') => (Raise e, s')
  end.

Definition lift {A : Type} (o : outcome A) : M A := fun s => (o, s).

Definition emit (ev : event) : M unit :=
  fun s => (Return tt, State (files s) (trace s ++ [ev]) (shot_made s)).

Definition get_shot_made : M (option bool) := fun s => (Return (shot_made s), s).

Definition set_shot_made (b : bool) : M unit :=
  fun s => (Return tt, State (files s) (trace s) (Some b)).

Definition update_files
  (f : gmap string MetadataManager.session_metadata ->
       gmap string MetadataManager.session_metadata) : M unit :=
  fun s => (Return tt, State (f (files s)) (trace s) (shot_made s)).

(** [try: body except Exception as e: handler]. *)
Definition try_except {A : Type} (body : M A) (handler : exception -> M A) : M A :=
  fun s =>
    match body s with
    | (Return a, s') => (Return a, s')
    | (Raise e, s') => handler e s'
    end.

End Task.

Import Task.

(** ** [src/ai/gemini_client.py] *)

Module GeminiClient.

(** [analyze_video]: [attempt] is the outcome of the [try] block, lines
    66-133 (upload, wait for the file, generate, [response.text]); the
    [except Exception] clause turns a failure into a reply. *)
Definition analyze_video (attempt : outcome string) : outcome string :=
  match attempt with
  | Return text => Return text
  | Raise e => Return ("Error analyzing video: " +:+ str e)
  end.

End GeminiClient.

(** ** [src/ai/critique_generator.py] *)

Module CritiqueGenerator.

(** Text is modelled on the ASCII range, where a Python [str] is the
    string of its characters and [str.isspace], [str.strip],
    [str.upper], [str.split] and [len] act as defined here.  Python's
    methods treat other characters by the Unicode tables, which are not
    modelled: a statement that depends on how these methods read a text
    assumes [ascii_text] of it. *)
Definition is_ascii (c : ascii) : bool := Nat.ltb (nat_of_ascii c) 128.

Fixpoint ascii_text (s : string) : bool :=
  match s with
  | EmptyString => true
  | String c rest => is_ascii c && ascii_text rest
  end.

(** [str.strip] and [str.upper] on ASCII text, and [sub in s]. *)
Definition isspace (c : ascii) : bool :=
  let n := nat_of_ascii c in
  (Nat.leb 9 n && Nat.leb n 13) || (Nat.leb 28 n && Nat.leb n 32).

Fixpoint lstrip (s : string) : string :=
  match s with
  | EmptyString => EmptyString
  | String c rest => if isspace c then lstrip rest else s
  end.

Definition strip (s : string) : string :=
  String.rev (lstrip (String.rev (lstrip s))).

Definition upper_char (c : ascii) : ascii :=
  let n := nat_of_ascii c in
  if Nat.leb 97 n && Nat.leb n 122 then ascii_of_nat (n - 32) else c.

Fixpoint upper (s : string) : string :=
  match s with
  | EmptyString => EmptyString
  | String c rest => String (upper_char c) (upper rest)
  end.

Fixpoint contains (sub s : string) : bool :=
  String.prefix sub s ||
  match s with
  | EmptyString => false
  | String _ rest => contains sub rest
  end.

Definition determine_shot_result (env : services) (video_path : string) : M bool :=
  _ ← emit (AnalyzeVideo video_path ShotResultPrompt);
  match analyze_video env video_path ShotResultPrompt with
  | Return response =>
      let response_upper := upper (strip response) in
      if contains "MADE" response_upper && negb (contains "MISSED" response_upper)
      then mret true
      else if contains "MISSED" response_upper
      then mret false
      else
        _ ← emit (Print ("[CritiqueGenerator] Unclear shot result from Gemini: "
                         +:+ response +:+ ", defaulting to MISSED"));
        mret false
  | Raise e =>
      _ ← emit (Print ("[CritiqueGenerator] Error determining shot result: "
                       +:+ str e +:+ ", defaulting to MISSED"));
      mret false
  end.

Definition generate_shot_critique (env : services) (video_path : string)
  (shot_made : bool) : M string :=
  _ ← emit (AnalyzeVideo video_path (ShotCritiquePrompt shot_made));
  lift (analyze_video env video_path (ShotCritiquePrompt shot_made)).

End CritiqueGenerator.

(** ** [src/utils/video_overlay.py] *)

Module VideoOverlay.

(** [text.split()] on ASCII text: the maximal runs of characters that
    are not white space; [word] is the run being read. *)
Fixpoint split_go (word s : string) : list string :=
  match s with
  | EmptyString =>
      match word with
      | EmptyString => []
      | _ => [word]
      end
  | String c rest =>
      if CritiqueGenerator.isspace c
      then match word with
           | EmptyString => split_go "" rest
           | _ => word :: split_go "" rest
           end
      else split_go (word +:+ String c "") rest
  end.

Definition split (s : string) : list string := split_go "" s.

(** [len(word)] on ASCII text, where characters and bytes coincide, and
    [' '.join(words)]. *)
Definition len (s : string) : Z := Z.of_nat (String.length s).

Definition join (words : list string) : string := String.concat " " words.

(** The truth value of a list. *)
Definition truthy {A : Type} (l : list A) : bool :=
  match l with
  | [] => false
  | _ :: _ => true
  end.

(** The three variables of the loop of [_split_text_into_lines]. *)
Record wrap : Type := Wrap {
  lines : list string;
  current_line : list string;
  current_length : Z
}.

Definition wrap_word (max_chars : Z) (st : wrap) (word : string) : wrap :=
  let word_length := len word + 1 in
  if (max_chars <? current_length st + word_length) && truthy (current_line st)
  then Wrap (lines st ++ [join (current_line st)]) [word] (len word)
  else Wrap (lines st) (current_line st ++ [word]) (current_length st + word_length).

Definition _split_text_into_lines (text : string) (max_chars : Z) : list string :=
  let words := split text in
  let st := fold_left (wrap_word max_chars) words (Wrap [] [] 0) in
  let lines :=
    if truthy (current_line st) then lines st ++ [join (current_line st)]
    else lines st in
  if truthy lines then lines else [text].

(** [s.replace(old, new)] for a one-character [old]. *)
Fixpoint replace (old : ascii) (new s : string) : string :=
  match s with
  | EmptyString => EmptyString
  | String c rest =>
      if Ascii.eqb c old then new +:+ replace old new rest
      else String c (replace old new rest)
  end.

(** Line 50: the three replacements applied to a line before it is
    handed to FFmpeg: a backslash is put before each apostrophe, then
    before each colon, then each backslash is doubled. *)
Definition backslash : ascii := "092"%char.

Definition escaped_line (line : string) : string :=
  replace backslash (String backslash (String backslash EmptyString))
    (replace ":" (String backslash ":")
       (replace "'" (String backslash "'") line)).

(** What one character of a line comes out as. *)
Definition escaped_char (c : ascii) : string :=
  if Ascii.eqb c "'" then String backslash (String backslash "'")
  else if Ascii.eqb c ":" then String backslash (String backslash ":")
  else if Ascii.eqb c backslash then String backslash (String backslash EmptyString)
  else String c EmptyString.

Fixpoint each (f : ascii -> string) (s : string) : string :=
  match s with
  | EmptyString => EmptyString
  | String c rest => f c +:+ each f rest
  end.

(** The invariant of the loop of [_split_text_into_lines] after the
    words [seen]: [groups] are the words of the finished lines. *)
Definition fits (max_chars : Z) (seen : list string) (line : string) : Prop :=
  len line <= max_chars \/ In line seen.

Definition wrapped (max_chars : Z) (seen : list string) (st : wrap)
  (groups : list (list string)) : Prop :=
  lines st = map join groups /\
  Forall (fun g => g <> []) groups /\
  List.concat groups ++ current_line st = seen /\
  Forall (fits max_chars seen) (lines st) /\
  0 <= current_length st /\
  (current_line st = [] -> seen = []) /\
  (current_line st <> [] ->
   len (join (current_line st)) <= current_length st /\
   (current_length st <= max_chars \/ exists w, current_line st = [w])).

End VideoOverlay.

(** ** [src/session/shot_analyzer.py] *)

Module ShotAnalyzer.

(** The one mutable attribute: the callback of the latest [analyze_shot],
    a callable named by a string, or [None]. *)
Record t : Type := Build { analysis_callback : option string }.

Definition __init__ : t := Build None.

(** The arguments handed to the background thread. *)
Record thread_args : Type := Args {
  session_id : string;
  shot_number : Z;
  frames : list ndarray;
  width : Z;
  height : Z;
  arg_shot_made : option bool
}.

(** [analyze_shot] stores the callback on the analyzer and starts a
    thread on [_analyze_shot_sync] with the remaining arguments. *)
Definition analyze_shot (self : t) (session_id : string) (shot_number : Z)
  (frames : list ndarray) (width height : Z) (shot_made : option bool)
  (callback : option string) : t * thread_args :=
  (Build callback, Args session_id shot_number frames width height shot_made).

(** Lines 95-126: critique, overlay, metadata, callback. *)
Definition finish (self : t) (env : services) (session_id : string)
  (shot_number : Z) (shot_made : bool) (initial_video_path : string) : M unit :=
  critique ← CritiqueGenerator.generate_shot_critique env initial_video_path shot_made;
  let final_video_path :=
    VideoStorage.get_shot_video_path (base_path env) session_id shot_number
                                     shot_made true in
  _ ← emit (AddTextOverlay initial_video_path final_video_path critique);
  overlaid ← lift (add_text_overlay env initial_video_path final_video_path critique);
  let final_video_path :=
    if overlaid : bool then final_video_path else initial_video_path in
  _ ← emit (AddShotMetadata session_id shot_number shot_made final_video_path critique);
  _ ← update_files (fun files =>
         MetadataManager.add_shot_metadata files session_id shot_number shot_made
           final_video_path critique (now env 0) (now env 1));
  match analysis_callback self with
  | Some callback =>
      emit (Callback callback shot_number (Some shot_made) critique
                     (Some final_video_path))
  | None => mret tt
  end.

(** Lines 68-126: the body of the [try]. *)
Definition body (self : t) (env : services) (a : thread_args) : M unit :=
  let temp_shot_made := default false (arg_shot_made a) in
  let initial_video_path :=
    VideoStorage.get_shot_video_path (base_path env) (session_id a) (shot_number a)
                                     temp_shot_made false in
  _ ← emit (SaveVideo initial_video_path (frames a) (width a) (height a));
  if negb (VideoStorage.save_video (is_opened env) initial_video_path (frames a)
                                   (width a) (height a))
  then
    emit (Print ("Failed to save initial video for shot " +:+ pretty (shot_number a)))
  else
    match arg_shot_made a with
    | Some shot_made =>
        finish self env (session_id a) (shot_number a) shot_made initial_video_path
    | None =>
        _ ← emit (Print ("[ShotAnalyzer] Determining shot result for shot "
                         +:+ pretty (shot_number a) +:+ " using Gemini..."));
        shot_made ← CritiqueGenerator.determine_shot_result env initial_video_path;
        _ ← set_shot_made shot_made;
        _ ← emit (Print ("[ShotAnalyzer] Shot " +:+ pretty (shot_number a)
                         +:+ " result: "
                         +:+ (if shot_made : bool then "MADE" else "MISSED")));
        if negb (Bool.eqb shot_made temp_shot_made)
        then
          let correct_video_path :=
            VideoStorage.get_shot_video_path (base_path env) (session_id a)
                                             (shot_number a) shot_made false in
          _ ← emit (Move initial_video_path correct_video_path);
          _ ← lift (move env initial_video_path correct_video_path);
          finish self env (session_id a) (shot_number a) shot_made correct_video_path
        else
          finish self env (session_id a) (shot_number a) shot_made initial_video_path
    end.

(** Lines 128-131: the [except] clause. *)
Definition handler (self : t) (a : thread_args) (e : exception) : M unit :=
  _ ← emit (Print ("Error analyzing shot " +:+ pretty (shot_number a) +:+ ": "
                   +:+ str e));
  shot_made ← get_shot_made;
  match analysis_callback self with
  | Some callback =>
      emit (Callback callback (shot_number a) shot_made ("Error: " +:+ str e) None)
  | None => mret tt
  end.

Definition _analyze_shot_sync (self : t) (env : services) (a : thread_args) : M unit :=
  try_except (body self env a) (handler self a).

(** Running the thread of one task on the session files [files]: the
    files and the trace it leaves. *)
Definition run_thread (self : t) (env : services) (a : thread_args)
  (files : gmap string MetadataManager.session_metadata) : state :=
  snd (_analyze_shot_sync self env a (State files [] (arg_shot_made a))).

(** The invocations of the completion callback in a trace. *)
Fixpoint callbacks (tr : list event) : list event :=
  match tr with
  | [] => []
  | Callback c n m q v :: rest => Callback c n m q v :: callbacks rest
  | _ :: rest => callbacks rest
  end.

(** The result of a computation that started with the callbacks [base]:
    it returned after exactly one more, or raised with no more. *)
Definition one_more_callback (base : list event) (r : outcome unit * state) : Prop :=
  match r with
  | (Return _, s') => length (callbacks (trace s')) = S (length base)
  | (Raise _, s') => callbacks (trace s') = base
  end.

(** What a task reports with: one invocation of the callback stored on
    the analyzer, or nothing when there is none. *)
Definition reports (self : t) (shot_number : Z) (shot_made : option bool)
  (critique : string) (video_path : option string) : list event :=
  match analysis_callback self with
  | Some callback => [Callback callback shot_number shot_made critique video_path]
  | None => []
  end.

(** The clip of the task under an outcome, raw or annotated. *)
Definition clip_path (env : services) (a : thread_args) (shot_made with_critique : bool)
  : string :=
  VideoStorage.get_shot_video_path (base_path env) (session_id a) (shot_number a)
                                   shot_made with_critique.

Definition saved (env : services) (a : thread_args) : bool :=
  VideoStorage.save_video (is_opened env)
    (clip_path env a (default false (arg_shot_made a)) false)
    (frames a) (width a) (height a).

(** The three ways a task on the session files [files] can end in the
    state [st]: the clip was not saved; an exception reached the
    [except] clause; or the shot record was written. *)
Inductive ending (self : t) (env : services) (a : thread_args)
  (files : gmap string MetadataManager.session_metadata) (st : state) : Prop :=
| not_saved :
    saved env a = false ->
    callbacks (trace st) = [] ->
    Task.files st = files ->
    ending self env a files st
| failed (e : exception) (shot_made : option bool) :
    saved env a = true ->
    callbacks (trace st)
    = reports self (shot_number a) shot_made ("Error: " +:+ str e) None ->
    Task.files st = files ->
    (forall b, arg_shot_made a = Some b -> shot_made = Some b) ->
    ending self env a files st
| completed (shot_made : bool) (critique : string) (with_critique : bool) :
    saved env a = true ->
    callbacks (trace st)
    = reports self (shot_number a) (Some shot_made) critique
        (Some (clip_path env a shot_made with_critique)) ->
    Task.files st
    = MetadataManager.add_shot_metadata files (session_id a) (shot_number a)
        shot_made (clip_path env a shot_made with_critique) critique
        (now env 0) (now env 1) ->
    (forall b, arg_shot_made a = Some b -> shot_made = b) ->
    analyze_video env (clip_path env a shot_made false) (ShotCritiquePrompt shot_made)
    = Return critique ->
    ending self env a files st.

(** What each effect of a task may be: the files it names carry the
    outcome they are processed under, the made-or-missed question and
    the rename occur only when no outcome was supplied. *)
Definition labelled (env : services) (a : thread_args) (ev : event) : Prop :=
  match ev with
  | Print _ => True
  | SaveVideo video_path fr w h =>
      video_path = clip_path env a (default false (arg_shot_made a)) false /\
      fr = frames a /\ w = width a /\ h = height a
  | AnalyzeVideo video_path ShotResultPrompt =>
      arg_shot_made a = None /\ video_path = clip_path env a false false
  | AnalyzeVideo video_path (ShotCritiquePrompt shot_made) =>
      video_path = clip_path env a shot_made false
  | Move src dst =>
      arg_shot_made a = None /\
      src = clip_path env a false false /\ dst = clip_path env a true false
  | AddTextOverlay input_path output_path _ =>
      exists shot_made,
        input_path = clip_path env a shot_made false /\
        output_path = clip_path env a shot_made true
  | AddShotMetadata sid n shot_made video_path _ =>
      sid = session_id a /\ n = shot_number a /\
      exists with_critique, video_path = clip_path env a shot_made with_critique
  | Callback _ n _ _ _ => n = shot_number a
  end.

End ShotAnalyzer.

(** ** [src/gui/main_window.py]: the two shot handlers of [MainWindow] *)

Module MainWindow.

Record t : Type := Build {
  session_is_active : bool;
  session_id : option string;
  current_shot_number : Z;
  video_recorder : VideoRecorder.t;
  shot_analyzer : ShotAnalyzer.t;
  timers : list Z;
  threads : list ShotAnalyzer.thread_args
}.

(** [on_shot_detected], the [shot_callback] given to the detector;
    [QTimer.singleShot(3000, self.process_shot)] is a pending timer. *)
Definition on_shot_detected (self : t) : t :=
  if negb (session_is_active self) then self
  else
    Build (session_is_active self) (session_id self)
          (current_shot_number self + 1)
          (VideoRecorder.start_recording (video_recorder self))
          (shot_analyzer self)
          (timers self ++ [3000])
          (threads self).

Definition process_shot (self : t) : t :=
  let '(recorder, frames) := VideoRecorder.stop_recording (video_recorder self) in
  match frames with
  | [] =>
      Build (session_is_active self) (session_id self) (current_shot_number self)
            recorder (shot_analyzer self) (timers self) (threads self)
  | first :: _ =>
      let height := nd_height first in
      let width := nd_width first in
      let '(analyzer, thread) :=
        ShotAnalyzer.analyze_shot (shot_analyzer self)
          (default "None"%string (session_id self))
          (current_shot_number self) frames width height None
          (Some "on_shot_analyzed"%string) in
      Build (session_is_active self) (session_id self) (current_shot_number self)
            recorder analyzer (timers self) (threads self ++ [thread])
  end.

(** The detector calls [shot_callback] synchronously from
    [process_frame]: each invocation runs [on_shot_detected]. *)
Definition deliver (self : t) (out : list ShotDetector.event) : t :=
  fold_left (fun w ev =>
               match ev with
               | ShotDetector.CallShotCallback => on_shot_detected w
               | _ => w
               end) out self.

End MainWindow.

(** ** [src/gui/main_window.py]: one pass of the loop of [VideoThread.run] *)

Module VideoThread.

(** The thread works on the recorder of the main window and on the
    detector whose [shot_callback] is [MainWindow.on_shot_detected]. *)
Record t : Type := Build {
  window : MainWindow.t;
  shot_detector : ShotDetector.t
}.

Definition with_recorder (w : MainWindow.t) (recorder : VideoRecorder.t) : MainWindow.t :=
  MainWindow.Build (MainWindow.session_is_active w) (MainWindow.session_id w)
    (MainWindow.current_shot_number w) recorder (MainWindow.shot_analyzer w)
    (MainWindow.timers w) (MainWindow.threads w).

(** Lines 70-135, for a frame that the source delivered.  [landmarks]
    is what the pose detector found on a copy of the frame ([None] when
    it found nothing or failed); [drawn] is the frame once the pose and
    the SHOOTING label have been drawn on it.  An exception of
    [process_frame] is caught and printed: what the detector had done
    before stays done. *)
Definition iteration (self : t) (frame : ndarray)
  (landmarks : option (gmap Z ShotDetector.landmark)) (drawn : ndarray) : t :=
  if (nd_height frame =? 0) || (nd_width frame =? 0) then self
  else
    let w :=
      with_recorder (window self)
        (VideoRecorder.add_frame (MainWindow.video_recorder (window self)) (Some frame)) in
    let r := ShotDetector.process_frame (shot_detector self) (Some frame) landmarks in
    let w := MainWindow.deliver w (ShotDetector.events r) in
    let w :=
      if VideoRecorder.is_recording (MainWindow.video_recorder w)
      then with_recorder w
             (VideoRecorder.add_recording_frame (MainWindow.video_recorder w) (Some drawn))
      else w in
    Build w (ShotDetector.after r).

(** What calls of the thread on the recorder do to the window. *)
Definition feed (w : MainWindow.t) (calls : list VideoRecorder.call) : MainWindow.t :=
  with_recorder w (VideoRecorder.run (MainWindow.video_recorder w) calls).

End VideoThread.

(** ** Concrete frames and poses, for the examples *)

Module Scenario.

Import ShotDetector.

(** A 100 x 100 frame, and a frame with the given payload. *)
Definition frame100 : ndarray := NdArray 100 100 [].
Definition numbered (k : nat) : ndarray := NdArray 2 2 [Z.of_nat k].

(** A right arm at [x = 0.5], all three joints with visibility 0.9. *)
Definition pose (wrist_y elbow_y shoulder_y : float) : gmap Z landmark :=
  <[RIGHT_WRIST := Landmark 0.5 wrist_y 0.9]>
    (<[RIGHT_ELBOW := Landmark 0.5 elbow_y 0.9]>
       (<[RIGHT_SHOULDER := Landmark 0.5 shoulder_y 0.9]> ∅)).

(** The same arm, hardly visible. *)
Definition faint_pose (wrist_y elbow_y shoulder_y : float) : gmap Z landmark :=
  <[RIGHT_WRIST := Landmark 0.5 wrist_y 0.3]>
    (<[RIGHT_ELBOW := Landmark 0.5 elbow_y 0.3]>
       (<[RIGHT_SHOULDER := Landmark 0.5 shoulder_y 0.3]> ∅)).

Definition input (wrist_y : float) : option ndarray * option (gmap Z landmark) :=
  (Some frame100, Some (pose wrist_y 0.6 0.7)).

(** Six frames of a wrist rising from 0.56 to 0.51 of the frame height,
    elbow at 0.6 and shoulder at 0.7; the seventh frame, wrist at 0.5,
    arms the detector. *)
Definition rise6 : list (option ndarray * option (gmap Z landmark)) :=
  map input [0.56; 0.55; 0.54; 0.53; 0.52; 0.51]%float.

Definition idle6 : t := fst (run (__init__ true) rise6).
Definition armed7 : t := after (process_frame idle6 (Some frame100) (Some (pose 0.5 0.6 0.7))).

(** The detector right after the release was confirmed, one frame
    counted. *)
Definition cooled8 : t :=
  after (process_frame armed7 (Some frame100) (Some (pose 0.6 0.6 0.7))).

(** A faint right arm and a well visible left arm. *)
Definition left_pose : gmap Z landmark :=
  <[LEFT_WRIST := Landmark 0.25 0.5 0.9]>
    (<[LEFT_ELBOW := Landmark 0.25 0.6 0.9]>
       (<[LEFT_SHOULDER := Landmark 0.25 0.7 0.9]> (faint_pose 0.5 0.6 0.7))).



(** A main window with an active session and two frames in the ring. *)
Definition window0 : MainWindow.t :=
  MainWindow.Build true (Some "s"%string) 0
    (VideoRecorder.Build 3%float 30 90 (Deque 90 [numbered 1; numbered 2]) false [])
    ShotAnalyzer.__init__ [] [].



(** Collaborators whose client answers the made-or-missed question and
    the critique request with the same sentence. *)
Definition client_up : services :=
  Services "data/videos"
    (fun _ _ _ => true)
    (fun _ _ => Return "  The shot was made. "%string)
    (fun _ _ => Return tt)
    (fun _ _ _ => Return true)
    (fun _ => "2024-05-01T10:00:00"%string).

(** Collaborators whose Gemini calls go through [GeminiClient] while the
    API times out. *)
Definition api_down : services :=
  Services "data/videos"
    (fun _ _ _ => true)
    (fun _ _ =>
       GeminiClient.analyze_video
         (Raise (Exception "DeadlineExceeded" "request made no progress")))
    (fun _ _ => Return tt)
    (fun _ _ _ => Return true)
    (fun _ => "2024-05-01T10:00:00"%string).



End Scenario.

(** * Properties *)

(** ** Float comparison *)



(** ** The video recorder *)

Section RecorderFacts.

Import VideoRecorder.

Lemma deque_append_maxlen {A : Type} (d : deque A) (a : A) :
  maxlen (deque_append d a) = maxlen d.
Proof. unfold deque_append. now destruct (_ <? _). Qed.

Lemma deque_append_len {A : Type} (d : deque A) (a : A) :
  0 <= maxlen d -> deque_len d <= maxlen d ->
  deque_len (deque_append d a) <= maxlen d.
Proof.
  unfold deque_append, deque_len. intros Hn Hlen.
  destruct (maxlen d <? _) eqn:E; cbn [items].
  - destruct (items d) as [|b l]; cbn in *; [lia|].
    rewrite length_app in *. cbn in *. lia.
  - apply Z.ltb_ge in E. lia.
Qed.

Lemma deque_append_full {A : Type} (d : deque A) (oldest a : A) (rest : list A) :
  items d = oldest :: rest -> deque_len d = maxlen d ->
  items (deque_append d a) = rest ++ [a].
Proof.
  unfold deque_append, deque_len. intros Hi Hlen. rewrite Hi in *.
  destruct (maxlen d <? _) eqn:E; [reflexivity|].
  apply Z.ltb_ge in E. cbn in *. rewrite length_app in E. cbn in E. lia.
Qed.

Lemma deque_append_room {A : Type} (d : deque A) (a : A) :
  deque_len d < maxlen d -> items (deque_append d a) = items d ++ [a].
Proof.
  unfold deque_append, deque_len. intros Hlen.
  destruct (maxlen d <? _) eqn:E; [|reflexivity].
  apply Z.ltb_lt in E. rewrite length_app in E. cbn in E. lia.
Qed.

Lemma init_ring_ok bs n r : __init__ bs n = Return r -> ring_ok r.
Proof.
  unfold __init__. intros H.
  destruct (float_mul_int bs n) as [p|]; cbn in H; [|discriminate].
  destruct (Py.int p) as [k|]; cbn in H; [|discriminate].
  destruct (k <? 0) eqn:E; [discriminate|].
  apply Z.ltb_ge in E. injection H as <-. unfold ring_ok, deque_len. cbn. lia.
Qed.

Lemma init_buffer_size bs n r :
  __init__ bs n = Return r ->
  exists product,
    float_mul_int bs n = Return product /\ Py.int product = Return (buffer_size r).
Proof.
  unfold __init__. intros H.
  destruct (float_mul_int bs n) as [p|]; cbn in H; [|discriminate].
  destruct (Py.int p) as [k|] eqn:Ek; cbn in H; [|discriminate].
  destruct (k <? 0); [discriminate|]. injection H as <-.
  exists p. now split.
Qed.

Lemma step_ring_ok r c : ring_ok r -> ring_ok (step r c).
Proof.
  intros (Hm & Hn & Hl).
  destruct c as [[f|]| |[f|]|]; cbn; try (now repeat split).
  - unfold ring_ok, add_frame; cbn.
    rewrite deque_append_maxlen. repeat split; [assumption..|].
    rewrite <- Hm. apply deque_append_len; lia.
  - unfold add_recording_frame. destruct (is_recording r); now repeat split.
  - unfold add_recording_frame. destruct (is_recording r); now repeat split.
Qed.

Lemma step_buffer_size r c : buffer_size (step r c) = buffer_size r.
Proof.
  destruct c as [[f|]| |[f|]|]; cbn; unfold add_recording_frame;
    try destruct (is_recording r); reflexivity.
Qed.

Lemma run_ring_ok calls : forall r, ring_ok r -> ring_ok (run r calls).
Proof.
  unfold run. induction calls as [|c calls IH]; intros r H; cbn; [assumption|].
  apply IH, step_ring_ok, H.
Qed.

Lemma run_buffer_size calls : forall r, buffer_size (run r calls) = buffer_size r.
Proof.
  unfold run. induction calls as [|c calls IH]; intros r; cbn; [reflexivity|].
  now rewrite IH, step_buffer_size.
Qed.

Lemma run_recording calls : forall r,
  Forall feeds calls -> is_recording r = true ->
  current_video_frames (run r calls) = current_video_frames r ++ appended calls.
Proof.
  unfold run. induction calls as [|c calls IH]; intros r Hf Hrec; cbn.
  - now rewrite app_nil_r.
  - inversion Hf as [|? ? Hc Hcs]; subst.
    destruct c as [[f|]| |[f|]|]; cbn in Hc; try contradiction; cbn.
    + now rewrite IH.
    + now rewrite IH.
    + unfold add_recording_frame. rewrite Hrec.
      rewrite IH; [cbn; now rewrite <- app_assoc|assumption|reflexivity].
    + unfold add_recording_frame. rewrite Hrec. now rewrite IH.
Qed.

Lemma appended_all (post : list ndarray) :
  appended (map (fun f => AddRecordingFrame (Some f)) post) = post.
Proof. induction post as [|f post IH]; cbn; [reflexivity|now rewrite IH]. Qed.

Lemma feeds_all_recording (post : list ndarray) :
  Forall feeds (map (fun f => AddRecordingFrame (Some f)) post).
Proof. induction post; cbn; constructor; cbn; auto. Qed.

Lemma run_observe (pre : list ndarray) : forall r,
  deque_len (frame_buffer r) + Z.of_nat (length pre) <= maxlen (frame_buffer r) ->
  items (frame_buffer (run r (map (fun f => AddFrame (Some f)) pre)))
  = items (frame_buffer r) ++ pre.
Proof.
  unfold run. induction pre as [|f pre IH]; intros r Hlen; cbn.
  - now rewrite app_nil_r.
  - cbn in Hlen. rewrite IH; cbn.
    + rewrite deque_append_room by lia. now rewrite <- app_assoc.
    + rewrite deque_append_maxlen. unfold deque_len in *.
      rewrite deque_append_room by (unfold deque_len; lia).
      rewrite length_app. cbn. lia.
Qed.

End RecorderFacts.

(** C5.  Whatever calls are made on a recorder built by [__init__], the
    pre-roll ring keeps its capacity [buffer_size = int(buffer_seconds *
    fps)] and never holds more frames than that; and when the ring is at
    capacity, [add_frame] drops exactly its oldest frame and puts the new
    one last. *)
Theorem C5_ring_never_exceeds_capacity :
  forall (bs : float) (n : Z) (r : VideoRecorder.t) (calls : list VideoRecorder.call),
    VideoRecorder.__init__ bs n = Return r ->
    let r' := VideoRecorder.run r calls in
    (exists product,
        float_mul_int bs n = Return product /\
        Py.int product = Return (VideoRecorder.buffer_size r')) /\
    maxlen (VideoRecorder.frame_buffer r') = VideoRecorder.buffer_size r' /\
    deque_len (VideoRecorder.frame_buffer r') <= VideoRecorder.buffer_size r' /\
    (forall oldest rest frame,
        items (VideoRecorder.frame_buffer r') = oldest :: rest ->
        deque_len (VideoRecorder.frame_buffer r') = VideoRecorder.buffer_size r' ->
        items (VideoRecorder.frame_buffer (VideoRecorder.add_frame r' (Some frame)))
        = rest ++ [frame]).
Proof.
  intros bs n r calls Hinit r'.
  pose proof (run_ring_ok calls r (init_ring_ok _ _ _ Hinit)) as (Hm & Hn & Hl).
  fold r' in Hm, Hn, Hl.
  repeat split; try assumption.
  - unfold r'. rewrite run_buffer_size. now apply init_buffer_size.
  - intros oldest rest frame Hi Hfull. cbn.
    apply deque_append_full with (oldest := oldest); [assumption|].
    now rewrite Hm.
Qed.

(** A ring of capacity 3 ([0.1 * 30] is 3.0000000000000004): the fourth
    frame evicts the first. *)
Lemma C5_witness :
  VideoRecorder.__init__ 0.1%float 30
  = Return (VideoRecorder.Build 0.1%float 30 3 (Deque 3 []) false []) /\
  items (VideoRecorder.frame_buffer
           (VideoRecorder.run
              (VideoRecorder.Build 0.1%float 30 3 (Deque 3 []) false [])
              (map (fun k => VideoRecorder.AddFrame (Some (Scenario.numbered k)))
                   [1; 2; 3; 4]%nat)))
  = [Scenario.numbered 2; Scenario.numbered 3; Scenario.numbered 4] /\
  deque_len (VideoRecorder.frame_buffer
               (VideoRecorder.run
                  (VideoRecorder.Build 0.1%float 30 3 (Deque 3 []) false [])
                  (map (fun k => VideoRecorder.AddFrame (Some (Scenario.numbered k)))
                       [1; 2; 3; 4; 5]%nat))) <= 3.
Proof.
  assert (Hinit : VideoRecorder.__init__ 0.1%float 30
                  = Return (VideoRecorder.Build 0.1%float 30 3 (Deque 3 []) false []))
    by (vm_compute; reflexivity).
  split; [exact Hinit|]. split.
  - exact (proj2 (proj2 (proj2
             (C5_ring_never_exceeds_capacity 0.1%float 30 _
                (map (fun k => VideoRecorder.AddFrame (Some (Scenario.numbered k)))
                     [1; 2; 3]%nat) Hinit)))
             (Scenario.numbered 1) [Scenario.numbered 2; Scenario.numbered 3]
             (Scenario.numbered 4) eq_refl eq_refl).
  - exact (proj1 (proj2 (proj2
             (C5_ring_never_exceeds_capacity 0.1%float 30 _
                (map (fun k => VideoRecorder.AddFrame (Some (Scenario.numbered k)))
                     [1; 2; 3; 4; 5]%nat) Hinit)))).
Defined.

(** C4.  After [start_recording], calls of [add_frame] and
    [add_recording_frame] followed by [stop_recording] return the ring
    snapshot taken at [start_recording] followed by the frames given to
    [add_recording_frame], in order; with no such frame, the snapshot
    itself; and for the default recorder (3.0 s at 30 fps, capacity 90)
    after 90 observed frames and 30 appended ones, 120 frames whose first
    90 are the ring in its order. *)
Theorem C4_stop_returns_snapshot_then_appended :
  (forall (r : VideoRecorder.t) (calls : list VideoRecorder.call),
      Forall VideoRecorder.feeds calls ->
      snd (VideoRecorder.stop_recording
             (VideoRecorder.run (VideoRecorder.start_recording r) calls))
      = items (VideoRecorder.frame_buffer r) ++ VideoRecorder.appended calls) /\
  (forall (r : VideoRecorder.t) (post : list ndarray),
      snd (VideoRecorder.stop_recording
             (VideoRecorder.run (VideoRecorder.start_recording r)
                (map (fun f => VideoRecorder.AddRecordingFrame (Some f)) post)))
      = items (VideoRecorder.frame_buffer r) ++ post) /\
  (forall r : VideoRecorder.t,
      snd (VideoRecorder.stop_recording (VideoRecorder.start_recording r))
      = items (VideoRecorder.frame_buffer r)) /\
  (forall (r0 : VideoRecorder.t) (pre post : list ndarray),
      VideoRecorder.default = Return r0 ->
      length pre = 90%nat -> length post = 30%nat ->
      let r := VideoRecorder.run r0 (map (fun f => VideoRecorder.AddFrame (Some f)) pre) in
      let returned :=
        snd (VideoRecorder.stop_recording
               (VideoRecorder.run (VideoRecorder.start_recording r)
                  (map (fun f => VideoRecorder.AddRecordingFrame (Some f)) post))) in
      VideoRecorder.buffer_size r = 90 /\
      items (VideoRecorder.frame_buffer r) = pre /\
      length returned = 120%nat /\
      take 90 returned = items (VideoRecorder.frame_buffer r) /\
      returned = pre ++ post).
Proof.
  assert (General : forall r calls,
      Forall VideoRecorder.feeds calls ->
      snd (VideoRecorder.stop_recording
             (VideoRecorder.run (VideoRecorder.start_recording r) calls))
      = items (VideoRecorder.frame_buffer r) ++ VideoRecorder.appended calls).
  { intros r calls Hf. cbn. now rewrite run_recording. }
  assert (Plain : forall r post,
      snd (VideoRecorder.stop_recording
             (VideoRecorder.run (VideoRecorder.start_recording r)
                (map (fun f => VideoRecorder.AddRecordingFrame (Some f)) post)))
      = items (VideoRecorder.frame_buffer r) ++ post).
  { intros r post. rewrite General by apply feeds_all_recording.
    now rewrite appended_all. }
  split; [exact General|]. split; [exact Plain|]. split.
  - intros r. cbn. reflexivity.
  - intros r0 pre post Hd Hpre Hpost r returned.
    assert (Hr0 : r0 = VideoRecorder.Build 3%float 30 90 (Deque 90 []) false []).
    { vm_compute in Hd. now injection Hd as <-. }
    assert (Hitems : items (VideoRecorder.frame_buffer r) = pre).
    { unfold r. rewrite run_observe; subst r0; cbn; [reflexivity|].
      unfold deque_len. cbn. lia. }
    assert (Hret : returned = pre ++ post).
    { unfold returned. now rewrite Plain, Hitems. }
    repeat split.
    + unfold r. rewrite run_buffer_size. now subst r0.
    + exact Hitems.
    + rewrite Hret, length_app. lia.
    + rewrite Hret, Hitems, <- Hpre. apply take_app_length.
    + exact Hret.
Qed.

(** The scenario on numbered frames 0..89 and 90..119. *)
Lemma C4_witness :
  VideoRecorder.default
  = Return (VideoRecorder.Build 3%float 30 90 (Deque 90 []) false []) /\
  length (map Scenario.numbered (seq 0 90)) = 90%nat /\
  length (map Scenario.numbered (seq 90 30)) = 30%nat /\
  snd (VideoRecorder.stop_recording
         (VideoRecorder.run
            (VideoRecorder.start_recording
               (VideoRecorder.run
                  (VideoRecorder.Build 3%float 30 90 (Deque 90 []) false [])
                  (map (fun f => VideoRecorder.AddFrame (Some f))
                       (map Scenario.numbered (seq 0 90)))))
            (map (fun f => VideoRecorder.AddRecordingFrame (Some f))
                 (map Scenario.numbered (seq 90 30)))))
  = map Scenario.numbered (seq 0 90) ++ map Scenario.numbered (seq 90 30).
Proof.
  assert (Hd : VideoRecorder.default
               = Return (VideoRecorder.Build 3%float 30 90 (Deque 90 []) false []))
    by (vm_compute; reflexivity).
  assert (Hpre : length (map Scenario.numbered (seq 0 90)) = 90%nat) by reflexivity.
  assert (Hpost : length (map Scenario.numbered (seq 90 30)) = 30%nat) by reflexivity.
  split; [exact Hd|]. split; [exact Hpre|]. split; [exact Hpost|].
  exact (proj2 (proj2 (proj2 (proj2
           (proj2 (proj2 (proj2 C4_stop_returns_snapshot_then_appended))
              _ _ _ Hd Hpre Hpost))))).
Defined.

(** C10.  [add_recording_frame] with no recording open, or with [None]
    for a frame, returns the recorder as it was: neither the recording
    list nor the ring changes. *)
Theorem C10_add_recording_frame_ignored :
  forall (r : VideoRecorder.t) (frame : option ndarray),
    VideoRecorder.is_recording r = false \/ frame = None ->
    VideoRecorder.add_recording_frame r frame = r /\
    VideoRecorder.current_video_frames (VideoRecorder.add_recording_frame r frame)
    = VideoRecorder.current_video_frames r /\
    VideoRecorder.frame_buffer (VideoRecorder.add_recording_frame r frame)
    = VideoRecorder.frame_buffer r.
Proof.
  intros r frame H.
  assert (E : VideoRecorder.add_recording_frame r frame = r).
  { unfold VideoRecorder.add_recording_frame.
    destruct H as [H | H]; [rewrite H|subst frame].
    - reflexivity.
    - now destruct (VideoRecorder.is_recording r). }
  now rewrite E.
Qed.

(** A frame offered with no recording open, and [None] offered to an
    open recording. *)
Lemma C10_witness :
  VideoRecorder.is_recording
    (VideoRecorder.Build 3%float 30 90 (Deque 90 [Scenario.numbered 1]) false []) = false /\
  VideoRecorder.add_recording_frame
    (VideoRecorder.Build 3%float 30 90 (Deque 90 [Scenario.numbered 1]) false [])
    (Some (Scenario.numbered 2))
  = VideoRecorder.Build 3%float 30 90 (Deque 90 [Scenario.numbered 1]) false [] /\
  VideoRecorder.add_recording_frame
    (VideoRecorder.Build 3%float 30 90 (Deque 90 []) true [Scenario.numbered 1]) None
  = VideoRecorder.Build 3%float 30 90 (Deque 90 []) true [Scenario.numbered 1].
Proof.
  split; [reflexivity|]. split.
  - exact (proj1 (C10_add_recording_frame_ignored
                    (VideoRecorder.Build 3%float 30 90 (Deque 90 [Scenario.numbered 1])
                       false [])
                    (Some (Scenario.numbered 2)) (or_introl eq_refl))).
  - exact (proj1 (C10_add_recording_frame_ignored
                    (VideoRecorder.Build 3%float 30 90 (Deque 90 []) true
                       [Scenario.numbered 1]) None (or_intror eq_refl))).
Defined.

(** ** The shot detector *)

Section DetectorFacts.

Import ShotDetector.

Lemma detect_cases self side vv nwy above :
  (detect self side vv nwy above = (self, [])) \/
  (release_condition self vv nwy above = true /\
   extension_check self = Some true /\
   detect self side vv nwy above
   = (arm_now self side, [PrintShotDetected side vv above])) \/
  (release_condition self vv nwy above = false /\
   completion_condition self vv nwy above = true /\
   shot_detected self = false /\
   detect self side vv nwy above
   = (set_shot_detected self, _trigger_shot self ++ [PrintReleaseConfirmed])).
Proof.
  unfold detect.
  destruct (release_condition self vv nwy above).
  - destruct (extension_check self) as [[|]|]; auto.
  - destruct (completion_condition self vv nwy above); auto.
    destruct (shot_detected self); cbn; auto.
    right. right. auto.
Qed.

(** The outcome of a frame on which an arm was resolved and the three
    measurements went through. *)
Lemma process_frame_tracked self fr g wp ep sp side ext nwy nsy :
  _get_shooting_arm_landmarks g (nd_height fr) (nd_width fr)
  = Return (Some (wp, ep, sp, side)) ->
  np_sqrt ((fst wp - fst ep) ^ 2 + (snd wp - snd ep) ^ 2) = Return ext ->
  truediv (snd wp) (nd_height fr) = Return nwy ->
  truediv (snd sp) (nd_height fr) = Return nsy ->
  process_frame self (Some fr) (Some g) =
  let hist := stored self wp ep sp ext in
  if 7 <=? deque_len (wrist_positions hist)
  then
    match _calculate_velocity (wrist_positions hist) with
    | Raise e => Result hist [] (Some e)
    | Return None => Result hist [] None
    | Return (Some v) =>
        let '(s, out) :=
          detect hist side (snd v) nwy
                 (PrimFloat.ltb min_wrist_above_shoulder (PrimFloat.sub nsy nwy)) in
        Result (after_completion s) out None
    end
  else Result (after_completion hist) [] None.
Proof.
  intros Hg Hs Hw Hsh. unfold process_frame, stored.
  rewrite Hg, Hs, Hw, Hsh. reflexivity.
Qed.

(** Every call either leaves no event and keeps or clears both flags, or
    went through [detect] on a resolved arm with at least 7 positions. *)
Lemma process_frame_inv self frame lms :
  (events (process_frame self frame lms) = [] /\
   ((is_shooting (after (process_frame self frame lms)) = is_shooting self /\
     shot_detected (after (process_frame self frame lms)) = shot_detected self) \/
    (is_shooting (after (process_frame self frame lms)) = false /\
     shot_detected (after (process_frame self frame lms)) = false))) \/
  (exists fr g wp ep sp side ext nwy nsy v,
      frame = Some fr /\ lms = Some g /\
      _get_shooting_arm_landmarks g (nd_height fr) (nd_width fr)
      = Return (Some (wp, ep, sp, side)) /\
      np_sqrt ((fst wp - fst ep) ^ 2 + (snd wp - snd ep) ^ 2) = Return ext /\
      truediv (snd wp) (nd_height fr) = Return nwy /\
      truediv (snd sp) (nd_height fr) = Return nsy /\
      7 <= deque_len (wrist_positions (stored self wp ep sp ext)) /\
      _calculate_velocity (wrist_positions (stored self wp ep sp ext))
      = Return (Some v) /\
      process_frame self frame lms =
      let '(s, out) :=
        detect (stored self wp ep sp ext) side (snd v) nwy
               (PrimFloat.ltb min_wrist_above_shoulder (PrimFloat.sub nsy nwy)) in
      Result (after_completion s) out None).
Proof.
  destruct frame as [fr|]; [|left; cbn; auto].
  destruct lms as [g|].
  { destruct (_get_shooting_arm_landmarks g (nd_height fr) (nd_width fr))
      as [[[[[wp ep] sp] side]|]|e] eqn:Hg.
    - destruct (np_sqrt ((fst wp - fst ep) ^ 2 + (snd wp - snd ep) ^ 2))
        as [ext|e] eqn:Hs.
      + destruct (truediv (snd wp) (nd_height fr)) as [nwy|e] eqn:Hw.
        * destruct (truediv (snd sp) (nd_height fr)) as [nsy|e] eqn:Hsh.
          -- rewrite (process_frame_tracked _ _ _ _ _ _ _ _ _ _ Hg Hs Hw Hsh).
             cbv zeta.
             destruct (7 <=? deque_len (wrist_positions (stored self wp ep sp ext)))
               eqn:Hlen.
             ++ destruct (_calculate_velocity (wrist_positions (stored self wp ep sp ext)))
                  as [[v|]|e] eqn:Hv.
                ** right. exists fr, g, wp, ep, sp, side, ext, nwy, nsy, v.
                   apply Z.leb_le in Hlen. repeat split; auto.
                ** left. cbn. auto.
                ** left. cbn. auto.
             ++ left. cbn [events after]. split; [reflexivity|].
                unfold after_completion. cbn.
                destruct (shot_detected self) eqn:Hd; cbn; [|auto].
                destruct (max_frames_after_release <? _); cbn; auto.
          -- left. unfold process_frame. rewrite Hg, Hs, Hw, Hsh. cbn. auto.
        * left. unfold process_frame. rewrite Hg, Hs, Hw. cbn. auto.
      + left. unfold process_frame. rewrite Hg, Hs. cbn. auto.
    - left. unfold process_frame. rewrite Hg. cbn [events after]. split; [reflexivity|].
      unfold no_landmarks. destruct (max_frames_after_release <? _); cbn; auto.
    - left. unfold process_frame. rewrite Hg. cbn. auto. }
  left. cbn [process_frame events after]. split; [reflexivity|].
  unfold no_landmarks. destruct (max_frames_after_release <? _); cbn; auto.
Qed.

End DetectorFacts.

Section DetectorSteps.

Import ShotDetector.

Lemma count_calls_app out1 out2 :
  count_calls (out1 ++ out2) = (count_calls out1 + count_calls out2)%nat.
Proof.
  induction out1 as [|[| |] out1 IH]; cbn; [reflexivity|assumption|lia|assumption].
Qed.

Lemma count_arms_app out1 out2 :
  count_arms (out1 ++ out2) = (count_arms out1 + count_arms out2)%nat.
Proof.
  induction out1 as [|[| |] out1 IH]; cbn; [reflexivity|lia|assumption|assumption].
Qed.

Lemma trigger_shot_counts self :
  (count_calls (_trigger_shot self ++ [PrintReleaseConfirmed]) <= 1)%nat /\
  count_arms (_trigger_shot self ++ [PrintReleaseConfirmed]) = 0%nat.
Proof. unfold _trigger_shot. destruct (shot_callback self); cbn; lia. Qed.

Lemma after_completion_flags s :
  (is_shooting (after_completion s) = is_shooting s /\
   shot_detected (after_completion s) = shot_detected s) \/
  (shot_detected s = true /\
   is_shooting (after_completion s) = false /\
   shot_detected (after_completion s) = false).
Proof.
  unfold after_completion. destruct (shot_detected s) eqn:Hd; [|auto].
  destruct (max_frames_after_release <? _); cbn; auto.
Qed.

Lemma release_condition_idle s vv nwy above :
  release_condition s vv nwy above = true -> is_shooting s = false.
Proof.
  unfold release_condition. destruct (is_shooting s); [discriminate|reflexivity].
Qed.

Lemma completion_condition_shooting s vv nwy above :
  completion_condition s vv nwy above = true -> is_shooting s = true.
Proof.
  unfold completion_condition. destruct (is_shooting s); [reflexivity|discriminate].
Qed.

(** What one call can do to the flags and to the outside: nothing is
    emitted and the flags stay or are cleared; or the detector arms and
    prints; or it confirms the release, calls back and prints. *)
Lemma step_summary self frame lms :
  let r := process_frame self frame lms in
  (events r = [] /\
   ((is_shooting (after r) = is_shooting self /\
     shot_detected (after r) = shot_detected self) \/
    (is_shooting (after r) = false /\ shot_detected (after r) = false))) \/
  (is_shooting self = false /\
   (exists side vv above, events r = [PrintShotDetected side vv above]) /\
   is_shooting (after r) = true /\ shot_detected (after r) = false) \/
  (is_shooting self = true /\ shot_detected self = false /\
   events r = _trigger_shot self ++ [PrintReleaseConfirmed] /\
   ((is_shooting (after r) = true /\ shot_detected (after r) = true) \/
    (is_shooting (after r) = false /\ shot_detected (after r) = false))).
Proof.
  intros r. subst r.
  destruct (process_frame_inv self frame lms) as
    [Hq | (fr & g & wp & ep & sp & side & ext & nwy & nsy & v & _ & _ & _ & _ & _ & _ & _ & _ & Hr)];
    [left; exact Hq|].
  rewrite Hr. clear Hr.
  set (hist := stored self wp ep sp ext).
  set (above := PrimFloat.ltb _ _).
  assert (Hs : is_shooting hist = is_shooting self) by reflexivity.
  assert (Hd : shot_detected hist = shot_detected self) by reflexivity.
  destruct (detect_cases hist side (snd v) nwy above)
    as [E | [(Hrel & _ & E) | (_ & Hc & Hnd & E)]]; rewrite E; cbn [events after].
  - left. split; [reflexivity|].
    destruct (after_completion_flags hist) as [(-> & ->) | (_ & -> & ->)]; auto.
  - right. left. apply release_condition_idle in Hrel. cbn. rewrite <- Hs.
    repeat split; eauto.
  - right. right. apply completion_condition_shooting in Hc.
    rewrite <- Hs, <- Hd. repeat split; auto.
    destruct (after_completion_flags (set_shot_detected hist))
      as [(-> & ->) | (_ & -> & ->)]; cbn; auto.
Qed.

Lemma calls_bounded_by_arms inputs : forall self,
  (count_calls (snd (run self inputs))
   <= count_arms (snd (run self inputs)) + armed_bonus self)%nat.
Proof.
  induction inputs as [|[frame lms] rest IH]; intros self; cbn [run]; [cbn; lia|].
  specialize (IH (after (process_frame self frame lms))).
  destruct (run (after (process_frame self frame lms)) rest) as [final out].
  cbn [snd] in *. rewrite count_calls_app, count_arms_app.
  unfold armed_bonus, phase_of in *.
  destruct (step_summary self frame lms)
    as [(E & [(Hs & Hd) | (Hs & Hd)])
       | [(Hi & (side & vv & above & E) & Hs & Hd)
         | (Hi & Hnd & E & [(Hs & Hd) | (Hs & Hd)])]];
    cbv zeta in *; rewrite E.
  - rewrite Hs, Hd in *. cbn. lia.
  - rewrite Hs in *. cbn.
    destruct (is_shooting self); [destruct (shot_detected self)|]; lia.
  - rewrite Hs, Hd, Hi in *. cbn. lia.
  - destruct (trigger_shot_counts self) as [Hc Ha].
    rewrite Ha, Hs, Hd, Hi, Hnd in *. lia.
  - destruct (trigger_shot_counts self) as [Hc Ha].
    rewrite Ha, Hs, Hi, Hnd in *. lia.
Qed.

Lemma no_arm_within_episode inputs : forall self,
  is_shooting self = true -> episode self inputs ->
  count_arms (snd (run self inputs)) = 0%nat.
Proof.
  induction inputs as [|[frame lms] rest IH]; intros self Hs Hep; cbn [run]; [reflexivity|].
  assert (Hrest : count_arms (snd (run (after (process_frame self frame lms)) rest)) = 0%nat).
  { destruct rest as [|i rest']; [reflexivity|].
    cbn [episode] in Hep. destruct Hep as [Hs' Hep']. now apply IH. }
  destruct (run (after (process_frame self frame lms)) rest) as [final out].
  cbn [snd] in *. rewrite count_arms_app, Hrest.
  destruct (step_summary self frame lms)
    as [(E & _) | [(Hi & _) | (_ & _ & E & _)]]; cbv zeta in *.
  - now rewrite E.
  - congruence.
  - rewrite E. now destruct (trigger_shot_counts self) as [_ ->].
Qed.


Lemma low_confidence_unresolved g h w :
  low_confidence g -> _get_shooting_arm_landmarks g h w = Return None.
Proof.
  intros Hlow.
  assert (Vis : forall k b c, arm_visible (g !! k) b c = None).
  { intros k b c. unfold arm_visible.
    destruct (g !! k) as [lw|] eqn:E; [|reflexivity].
    destruct b; [|reflexivity]. destruct c; [|reflexivity].
    now rewrite (Hlow k lw E). }
  unfold _get_shooting_arm_landmarks. now rewrite !Vis.
Qed.



End DetectorSteps.

Section DetectorClaims.

Import ShotDetector.




End DetectorClaims.





(** C6.  Along any run, [shot_callback] is invoked at most once per
    arming (plus once for an episode already open at the start).  Within
    one episode, from an Armed detector up to and including the call
    that resets it, there is at most one invocation; and once
    [shot_detected] is set there is none, whatever the frames show. *)
Theorem C6_event_end_at_most_once :
  (forall self inputs,
      (ShotDetector.count_calls (snd (ShotDetector.run self inputs))
       <= ShotDetector.count_arms (snd (ShotDetector.run self inputs))
          + ShotDetector.armed_bonus self)%nat) /\
  (forall self inputs,
      ShotDetector.phase_of self = ShotDetector.Armed ->
      ShotDetector.episode self inputs ->
      (ShotDetector.count_calls (snd (ShotDetector.run self inputs)) <= 1)%nat) /\
  (forall self inputs,
      ShotDetector.phase_of self = ShotDetector.Cooldown ->
      ShotDetector.episode self inputs ->
      ShotDetector.count_calls (snd (ShotDetector.run self inputs)) = 0%nat) /\
  (forall self frame lms,
      ShotDetector.shot_detected self = true ->
      ShotDetector.count_calls
        (ShotDetector.events (ShotDetector.process_frame self frame lms)) = 0%nat).
Proof.
  assert (Shooting : forall self,
             ShotDetector.phase_of self <> ShotDetector.Idle ->
             ShotDetector.is_shooting self = true).
  { intros self. unfold ShotDetector.phase_of.
    destruct (ShotDetector.is_shooting self); congruence. }
  split; [exact (fun self inputs => calls_bounded_by_arms inputs self)|].
  split; [|split].
  - intros self inputs Hp Hep.
    pose proof (calls_bounded_by_arms inputs self) as Hb.
    rewrite no_arm_within_episode in Hb; [|apply Shooting; congruence|assumption].
    unfold ShotDetector.armed_bonus in Hb. rewrite Hp in Hb. exact Hb.
  - intros self inputs Hp Hep.
    pose proof (calls_bounded_by_arms inputs self) as Hb.
    rewrite no_arm_within_episode in Hb; [|apply Shooting; congruence|assumption].
    unfold ShotDetector.armed_bonus in Hb. rewrite Hp in Hb. lia.
  - intros self frame lms Hd.
    destruct (step_summary self frame lms)
      as [(E & _) | [(_ & (side & vv & above & E) & _) | (_ & Hnd & _)]];
      cbv zeta in *; [now rewrite E|now rewrite E|congruence].
Qed.

(** Three frames of a falling wrist after arming: one invocation. *)
Lemma C6_witness :
  ShotDetector.phase_of Scenario.armed7 = ShotDetector.Armed /\
  ShotDetector.episode Scenario.armed7
    [Scenario.input 0.6; Scenario.input 0.62; Scenario.input 0.64] /\
  (ShotDetector.count_calls
     (snd (ShotDetector.run Scenario.armed7
             [Scenario.input 0.6; Scenario.input 0.62; Scenario.input 0.64]))
   <= 1)%nat.
Proof.
  assert (Hp : ShotDetector.phase_of Scenario.armed7 = ShotDetector.Armed)
    by (vm_compute; reflexivity).
  assert (Hep : ShotDetector.episode Scenario.armed7
                  [Scenario.input 0.6; Scenario.input 0.62; Scenario.input 0.64])
    by (vm_compute; repeat split).
  split; [exact Hp|]. split; [exact Hep|].
  exact (proj1 (proj2 C6_event_end_at_most_once) Scenario.armed7 _ Hp Hep).
Defined.




(** C1, as the code has it.  An idle detector never invokes
    [shot_callback], in particular not on the frame that arms it; the
    callback is invoked only by an Armed detector, on the call that
    confirms the release, and then once when a callback was supplied.
    With a session active, [on_shot_detected] opens the recording with
    the frames of the ring at that moment. *)
Theorem C1_callback_at_release_confirmation :
  (forall self frame lms,
      ShotDetector.phase_of self = ShotDetector.Idle ->
      ShotDetector.count_calls
        (ShotDetector.events (ShotDetector.process_frame self frame lms)) = 0%nat) /\
  (forall self frame lms,
      ShotDetector.count_calls
        (ShotDetector.events (ShotDetector.process_frame self frame lms)) <> 0%nat ->
      ShotDetector.phase_of self = ShotDetector.Armed /\
      ShotDetector.events (ShotDetector.process_frame self frame lms)
      = [ShotDetector.CallShotCallback; ShotDetector.PrintReleaseConfirmed]) /\
  (forall self frame lms,
      ShotDetector.shot_callback self = true ->
      In ShotDetector.PrintReleaseConfirmed
         (ShotDetector.events (ShotDetector.process_frame self frame lms)) ->
      ShotDetector.count_calls
        (ShotDetector.events (ShotDetector.process_frame self frame lms)) = 1%nat) /\
  (forall w,
      MainWindow.session_is_active w = true ->
      let recorder := MainWindow.video_recorder (MainWindow.on_shot_detected w) in
      VideoRecorder.is_recording recorder = true /\
      VideoRecorder.current_video_frames recorder
      = items (VideoRecorder.frame_buffer (MainWindow.video_recorder w))).
Proof.
  split; [|split; [|split]].
  - intros self frame lms Hp. unfold ShotDetector.phase_of in Hp.
    destruct (ShotDetector.is_shooting self) eqn:Hs;
      [destruct (ShotDetector.shot_detected self); discriminate|].
    destruct (step_summary self frame lms)
      as [(E & _) | [(_ & (side & vv & above & E) & _) | (Hs' & _)]];
      cbv zeta in *; [now rewrite E|now rewrite E|congruence].
  - intros self frame lms Hc.
    destruct (step_summary self frame lms)
      as [(E & _) | [(_ & (side & vv & above & E) & _) | (Hs & Hd & E & _)]];
      cbv zeta in *; [now rewrite E in Hc|now rewrite E in Hc|].
    unfold ShotDetector.phase_of. rewrite Hs, Hd. split; [reflexivity|].
    rewrite E in *. unfold ShotDetector._trigger_shot in *.
    destruct (ShotDetector.shot_callback self); [reflexivity|].
    now cbn in Hc.
  - intros self frame lms Hcb Hin.
    destruct (step_summary self frame lms)
      as [(E & _) | [(_ & (side & vv & above & E) & _) | (_ & _ & E & _)]];
      cbv zeta in *; rewrite E in *.
    + destruct Hin.
    + destruct Hin as [Hin|[]]. discriminate.
    + unfold ShotDetector._trigger_shot. now rewrite Hcb.
  - intros w Ha. unfold MainWindow.on_shot_detected. rewrite Ha. cbn. now split.
Qed.

(** The sentence of the specification on event-start does not hold as
    written (C1): on the frame that takes the detector from Idle
    to Armed it only prints; [shot_callback] is not invoked, and the
    recorder of a window with an active session is not recording after
    the events of that frame are delivered. *)
Lemma C1_counterexample :
  ShotDetector.phase_of Scenario.idle6 = ShotDetector.Idle /\
  ShotDetector.phase_of Scenario.armed7 = ShotDetector.Armed /\
  ShotDetector.events
    (ShotDetector.process_frame Scenario.idle6 (Some Scenario.frame100)
       (Some (Scenario.pose 0.5 0.6 0.7)))
  = [ShotDetector.PrintShotDetected ShotDetector.right (-1)%float true] /\
  VideoRecorder.is_recording
    (MainWindow.video_recorder
       (MainWindow.deliver Scenario.window0
          (ShotDetector.events
             (ShotDetector.process_frame Scenario.idle6 (Some Scenario.frame100)
                (Some (Scenario.pose 0.5 0.6 0.7)))))) = false.
Proof. repeat split; vm_compute; reflexivity. Qed.

(** The arming frame, and a window whose ring holds two frames. *)
Lemma C1_witness :
  ShotDetector.phase_of Scenario.idle6 = ShotDetector.Idle /\
  ShotDetector.count_calls
    (ShotDetector.events
       (ShotDetector.process_frame Scenario.idle6 (Some Scenario.frame100)
          (Some (Scenario.pose 0.5 0.6 0.7)))) = 0%nat /\
  MainWindow.session_is_active Scenario.window0 = true /\
  VideoRecorder.current_video_frames
    (MainWindow.video_recorder (MainWindow.on_shot_detected Scenario.window0))
  = [Scenario.numbered 1; Scenario.numbered 2].
Proof.
  assert (Hp : ShotDetector.phase_of Scenario.idle6 = ShotDetector.Idle)
    by (vm_compute; reflexivity).
  assert (Ha : MainWindow.session_is_active Scenario.window0 = true)
    by reflexivity.
  split; [exact Hp|]. split.
  - exact (proj1 C1_callback_at_release_confirmation Scenario.idle6 _ _ Hp).
  - split; [exact Ha|].
    exact (proj2 (proj2 (proj2 (proj2 C1_callback_at_release_confirmation))
                    Scenario.window0 Ha)).
Defined.

(** ** The metadata store *)

Lemma count_made_filter (shots : list MetadataManager.shot_data) :
  MetadataManager.count_made shots
  = Z.of_nat (length (List.filter MetadataManager.shot_made shots)).
Proof.
  induction shots as [|s shots IH]; [reflexivity|].
  cbn [MetadataManager.count_made List.filter]. rewrite IH.
  destruct (MetadataManager.shot_made s); cbn [length]; lia.
Qed.

Lemma add_shot_metadata_stored
  (files : gmap string MetadataManager.session_metadata)
  (session_id : string) (shot_number : Z) (shot_made : bool)
  (video_path critique now_created now : string) :
  exists m,
    MetadataManager.load_session_metadata
      (MetadataManager.add_shot_metadata files session_id shot_number shot_made
         video_path critique now_created now) session_id = Some m /\
    MetadataManager.shots m
    = match MetadataManager.load_session_metadata files session_id with
      | Some old => MetadataManager.shots old
      | None => []
      end ++ [MetadataManager.ShotData shot_number now shot_made video_path critique] /\
    MetadataManager.total_shots m = Z.of_nat (length (MetadataManager.shots m)) /\
    MetadataManager.shots_made m = MetadataManager.count_made (MetadataManager.shots m) /\
    MetadataManager.shots_missed m
    = MetadataManager.total_shots m - MetadataManager.shots_made m.
Proof.
  unfold MetadataManager.add_shot_metadata,
    MetadataManager.save_session_metadata, MetadataManager.load_session_metadata.
  rewrite lookup_insert_eq. eexists. split; [reflexivity|].
  cbn [MetadataManager.shots MetadataManager.total_shots
       MetadataManager.shots_made MetadataManager.shots_missed].
  repeat split.
  destruct (files !! session_id); reflexivity.
Qed.

(** C9.  After [add_shot_metadata] the file of the session holds the
    previous shots followed by the new one, [total_shots] is the length
    of that list, [shots_made] the number of its shots whose [shot_made]
    is true, and [shots_made + shots_missed = total_shots]. *)
Theorem C9_counters_consistent :
  forall (files : gmap string MetadataManager.session_metadata)
         (session_id : string) (shot_number : Z) (shot_made : bool)
         (video_path critique now_created now : string),
  exists m,
    MetadataManager.load_session_metadata
      (MetadataManager.add_shot_metadata files session_id shot_number shot_made
         video_path critique now_created now) session_id = Some m /\
    MetadataManager.shots m
    = match MetadataManager.load_session_metadata files session_id with
      | Some old => MetadataManager.shots old
      | None => []
      end ++ [MetadataManager.ShotData shot_number now shot_made video_path critique] /\
    MetadataManager.total_shots m = Z.of_nat (length (MetadataManager.shots m)) /\
    MetadataManager.shots_made m
    = Z.of_nat (length (List.filter MetadataManager.shot_made (MetadataManager.shots m))) /\
    MetadataManager.shots_made m + MetadataManager.shots_missed m
    = MetadataManager.total_shots m.
Proof.
  intros files session_id shot_number shot_made video_path critique now_created now.
  destruct (add_shot_metadata_stored files session_id shot_number shot_made
              video_path critique now_created now)
    as (m & Hm & Hshots & Htotal & Hmade & Hmissed).
  exists m. repeat split; try assumption.
  - rewrite Hmade. apply count_made_filter.
  - lia.
Qed.

(** ** The analysis task *)

(** C2 fails when the raw clip cannot be saved: with no frames,
    [save_video] answers [False], the task prints and returns, and the
    completion callback is never invoked; no shot record is written. *)
Theorem C2_no_callback_when_save_fails :
  forall (self : ShotAnalyzer.t) (env : services) (session_id : string)
         (shot_number width height : Z) (shot_made : option bool)
         (files : gmap string MetadataManager.session_metadata),
    let st :=
      ShotAnalyzer.run_thread self env
        (ShotAnalyzer.Args session_id shot_number [] width height shot_made) files in
    ShotAnalyzer.callbacks (Task.trace st) = [] /\
    Task.trace st
    = [SaveVideo (VideoStorage.get_shot_video_path (base_path env) session_id
                    shot_number (default false shot_made) false) [] width height;
       Print ("Failed to save initial video for shot " +:+ pretty shot_number)] /\
    Task.files st = files.
Proof.
  intros self env session_id shot_number width height shot_made files st. subst st.
  cbv [ShotAnalyzer.run_thread ShotAnalyzer._analyze_shot_sync try_except
       ShotAnalyzer.body mbind M_bind emit VideoStorage.save_video negb snd
       ShotAnalyzer.frames ShotAnalyzer.session_id ShotAnalyzer.shot_number
       ShotAnalyzer.width ShotAnalyzer.height ShotAnalyzer.arg_shot_made
       Task.trace Task.files Task.shot_made app].
  repeat split.
Qed.




Section CallbackCount.

Variables (self : ShotAnalyzer.t) (env : services) (callback : string).
Hypothesis Hcb : ShotAnalyzer.analysis_callback self = Some callback.

Lemma callbacks_snoc tr ev :
  ShotAnalyzer.callbacks (tr ++ [ev])
  = ShotAnalyzer.callbacks tr ++ ShotAnalyzer.callbacks [ev].
Proof.
  induction tr as [|[] tr IH]; cbn; try assumption; [reflexivity|].
  now rewrite IH.
Qed.

Lemma once_emit base ev (k : M unit) s :
  ShotAnalyzer.callbacks [ev] = [] ->
  (forall s', ShotAnalyzer.callbacks (Task.trace s') = base ->
              ShotAnalyzer.one_more_callback base (k s')) ->
  ShotAnalyzer.callbacks (Task.trace s) = base ->
  ShotAnalyzer.one_more_callback base ((_ ← emit ev; k) s).
Proof.
  intros Hev Hk Hs. cbv [mbind M_bind emit].
  apply Hk. cbn. now rewrite callbacks_snoc, Hev, app_nil_r.
Qed.

Lemma once_finish base session_id shot_number made path s :
  ShotAnalyzer.callbacks (Task.trace s) = base ->
  ShotAnalyzer.one_more_callback base
    (ShotAnalyzer.finish self env session_id shot_number made path s).
Proof.
  intros <-.
  unfold ShotAnalyzer.finish, CritiqueGenerator.generate_shot_critique,
    ShotAnalyzer.one_more_callback.
  rewrite Hcb.
  cbv [mbind M_bind mret M_ret emit lift update_files Task.trace Task.files
       Task.shot_made].
  destruct (analyze_video env path (ShotCritiquePrompt made)) as [critique|e].
  - destruct (add_text_overlay env path _ critique) as [overlaid|e].
    + rewrite !callbacks_snoc. cbn. rewrite !app_nil_r, length_app. cbn. lia.
    + rewrite !callbacks_snoc. cbn. now rewrite !app_nil_r.
  - rewrite !callbacks_snoc. cbn. now rewrite !app_nil_r.
Qed.

Lemma once_determine base path (k : bool -> M unit) s :
  (forall made s', ShotAnalyzer.callbacks (Task.trace s') = base ->
                   ShotAnalyzer.one_more_callback base (k made s')) ->
  ShotAnalyzer.callbacks (Task.trace s) = base ->
  ShotAnalyzer.one_more_callback base
    ((made ← CritiqueGenerator.determine_shot_result env path; k made) s).
Proof.
  intros Hk Hs. unfold CritiqueGenerator.determine_shot_result.
  cbv [mbind M_bind mret M_ret emit Task.trace Task.files Task.shot_made].
  destruct (analyze_video env path ShotResultPrompt) as [response|e].
  - destruct (_ && _); [|destruct (CritiqueGenerator.contains _ _)];
      apply Hk; cbn; rewrite ?callbacks_snoc; cbn; rewrite ?app_nil_r; exact Hs.
  - apply Hk. cbn. rewrite !callbacks_snoc. cbn. rewrite !app_nil_r. exact Hs.
Qed.

Lemma body_outcome a s :
  VideoStorage.save_video (is_opened env)
    (VideoStorage.get_shot_video_path (base_path env) (ShotAnalyzer.session_id a)
       (ShotAnalyzer.shot_number a) (default false (ShotAnalyzer.arg_shot_made a)) false)
    (ShotAnalyzer.frames a) (ShotAnalyzer.width a) (ShotAnalyzer.height a) = true ->
  ShotAnalyzer.one_more_callback (ShotAnalyzer.callbacks (Task.trace s))
    (ShotAnalyzer.body self env a s).
Proof.
  intros Hsave. unfold ShotAnalyzer.body. rewrite Hsave. cbn [negb].
  apply once_emit; [reflexivity| |reflexivity]. intros s1 E1.
  destruct (ShotAnalyzer.arg_shot_made a) as [made|]; [now apply once_finish|].
  apply once_emit; [reflexivity| |exact E1]. intros s2 E2.
  apply once_determine; [|exact E2]. intros made s3 E3.
  change ((_ ← set_shot_made made; ?k) s3)
    with (k (State (Task.files s3) (Task.trace s3) (Some made))).
  apply once_emit; [reflexivity| |exact E3]. intros s4 E4.
  destruct (negb _).
  - apply once_emit; [reflexivity| |exact E4]. intros s5 E5.
    cbv [mbind M_bind lift].
    destruct (move env _ _) as [[]|e]; [now apply once_finish|exact E5].
  - now apply once_finish.
Qed.

(** Whatever the collaborators do, a task whose clip was saved invokes a
    supplied callback exactly once: after the shot record is written,
    or from the [except] clause. *)
Lemma callback_once_when_saved a files :
  VideoStorage.save_video (is_opened env)
    (VideoStorage.get_shot_video_path (base_path env) (ShotAnalyzer.session_id a)
       (ShotAnalyzer.shot_number a) (default false (ShotAnalyzer.arg_shot_made a)) false)
    (ShotAnalyzer.frames a) (ShotAnalyzer.width a) (ShotAnalyzer.height a) = true ->
  length (ShotAnalyzer.callbacks
            (Task.trace (ShotAnalyzer.run_thread self env a files))) = 1%nat.
Proof.
  intros Hsave.
  unfold ShotAnalyzer.run_thread, ShotAnalyzer._analyze_shot_sync, try_except.
  pose proof (body_outcome a (State files [] (ShotAnalyzer.arg_shot_made a)) Hsave) as H.
  unfold ShotAnalyzer.one_more_callback in H.
  destruct (ShotAnalyzer.body self env a _) as [[u|e] s']; cbn [snd]; [exact H|].
  unfold ShotAnalyzer.handler. rewrite Hcb.
  cbv [mbind M_bind emit get_shot_made snd]. cbn [Task.trace] in *.
  rewrite !callbacks_snoc, H. reflexivity.
Qed.

End CallbackCount.

(** * Further properties *)

(** ** The video recorder *)

Section RecorderWindow.

Import VideoRecorder.

Lemma window_full (cap : nat) (ring : list ndarray) (f : ndarray) (later : list ndarray) :
  length ring = cap ->
  drop (length (tail (ring ++ [f]) ++ later) - cap) (tail (ring ++ [f]) ++ later)
  = drop (length (ring ++ f :: later) - cap) (ring ++ f :: later).
Proof.
  intros Hfull. destruct ring as [|a ring0]; cbn [app tail length] in *.
  - subst cap. rewrite !Nat.sub_0_r. cbn. reflexivity.
  - rewrite !length_app. cbn [length].
    replace (length ring0 + 1 + length later - cap)%nat with (length later) by lia.
    replace (S (length ring0 + S (length later)) - cap)%nat
      with (S (length later)) by lia.
    rewrite <- app_assoc. reflexivity.
Qed.

Lemma run_window calls : forall r,
  ring_ok r ->
  items (frame_buffer (run r calls))
  = drop (length (items (frame_buffer r) ++ observed calls) - Z.to_nat (buffer_size r))
         (items (frame_buffer r) ++ observed calls).
Proof.
  unfold run. induction calls as [|c calls IH]; intros r Hok.
  - cbn. rewrite app_nil_r. destruct Hok as (_ & Hn & Hl). unfold deque_len in Hl.
    replace (length (items (frame_buffer r)) - Z.to_nat (buffer_size r))%nat with 0%nat
      by lia.
    reflexivity.
  - cbn [fold_left]. rewrite (IH _ (step_ring_ok r c Hok)), step_buffer_size.
    destruct c as [[f|]| |[f|]|]; cbn [observed]; try reflexivity.
    + destruct Hok as (Hm & Hn & Hl). unfold deque_len in Hl.
      cbn [step add_frame frame_buffer]. unfold deque_append, copy. rewrite Hm.
      destruct (buffer_size r <? _) eqn:E; cbn [items].
      * apply Z.ltb_lt in E. rewrite length_app in E. cbn [length] in E.
        apply window_full. lia.
      * now rewrite <- app_assoc.
    + cbn [step]. unfold add_recording_frame.
      destruct (is_recording r); reflexivity.
    + cbn [step]. unfold add_recording_frame.
      destruct (is_recording r); reflexivity.
Qed.

Lemma run_closed calls : forall r,
  Forall feeds calls -> is_recording r = false ->
  is_recording (run r calls) = false /\
  current_video_frames (run r calls) = current_video_frames r.
Proof.
  unfold run. induction calls as [|c calls IH]; intros r Hf Hrec; [now split|].
  inversion Hf as [|? ? Hc Hcs]; subst.
  assert (Hstep : is_recording (step r c) = false /\
                  current_video_frames (step r c) = current_video_frames r).
  { destruct c as [[f|]| |[f|]|]; cbn in Hc; try contradiction; cbn [step];
      unfold add_recording_frame; rewrite ?Hrec; now split. }
  destruct Hstep as [Hrec' Hcur'].
  cbn [fold_left]. destruct (IH (step r c) Hcs Hrec') as [-> ->].
  now split.
Qed.

End RecorderWindow.

(** X1.  Whatever calls are made on a recorder built by [__init__], its
    ring holds exactly the last [buffer_size] frames given to [add_frame]
    ([None] not counted), oldest first; starting, feeding and stopping a
    recording never touch it. *)
Theorem X1_ring_is_last_frames :
  forall (bs : float) (n : Z) (r : VideoRecorder.t) (calls : list VideoRecorder.call),
    VideoRecorder.__init__ bs n = Return r ->
    items (VideoRecorder.frame_buffer (VideoRecorder.run r calls))
    = drop (length (VideoRecorder.observed calls) - Z.to_nat (VideoRecorder.buffer_size r))
           (VideoRecorder.observed calls).
Proof.
  intros bs n r calls Hinit.
  rewrite (run_window calls r (init_ring_ok _ _ _ Hinit)).
  assert (E : items (VideoRecorder.frame_buffer r) = []).
  { unfold VideoRecorder.__init__ in Hinit.
    destruct (float_mul_int bs n) as [p|]; cbn in Hinit; [|discriminate].
    destruct (Py.int p) as [k|]; cbn in Hinit; [|discriminate].
    destruct (k <? 0); [discriminate|]. now injection Hinit as <-. }
  now rewrite E.
Qed.

(** Capacity 3; five frames observed with a recording opened and fed in
    between: the ring is frames 3, 4, 5. *)
Lemma X1_witness :
  VideoRecorder.__init__ 0.1%float 30
  = Return (VideoRecorder.Build 0.1%float 30 3 (Deque 3 []) false []) /\
  items (VideoRecorder.frame_buffer
           (VideoRecorder.run
              (VideoRecorder.Build 0.1%float 30 3 (Deque 3 []) false [])
              [VideoRecorder.AddFrame (Some (Scenario.numbered 1));
               VideoRecorder.AddFrame (Some (Scenario.numbered 2));
               VideoRecorder.StartRecording;
               VideoRecorder.AddFrame None;
               VideoRecorder.AddFrame (Some (Scenario.numbered 3));
               VideoRecorder.AddRecordingFrame (Some (Scenario.numbered 3));
               VideoRecorder.AddFrame (Some (Scenario.numbered 4));
               VideoRecorder.StopRecording;
               VideoRecorder.AddFrame (Some (Scenario.numbered 5))]))
  = [Scenario.numbered 3; Scenario.numbered 4; Scenario.numbered 5].
Proof.
  assert (Hinit : VideoRecorder.__init__ 0.1%float 30
                  = Return (VideoRecorder.Build 0.1%float 30 3 (Deque 3 []) false []))
    by (vm_compute; reflexivity).
  split; [exact Hinit|].
  exact (X1_ring_is_last_frames 0.1%float 30 _
           [VideoRecorder.AddFrame (Some (Scenario.numbered 1));
            VideoRecorder.AddFrame (Some (Scenario.numbered 2));
            VideoRecorder.StartRecording;
            VideoRecorder.AddFrame None;
            VideoRecorder.AddFrame (Some (Scenario.numbered 3));
            VideoRecorder.AddRecordingFrame (Some (Scenario.numbered 3));
            VideoRecorder.AddFrame (Some (Scenario.numbered 4));
            VideoRecorder.StopRecording;
            VideoRecorder.AddFrame (Some (Scenario.numbered 5))] Hinit).
Defined.

(** X2.  Once [stop_recording] has been called, frames given to
    [add_frame] or [add_recording_frame] join no recording: until the next
    [start_recording] the recorder stays closed and the next
    [stop_recording] returns the empty list. *)
Theorem X2_nothing_recorded_after_stop :
  forall (r : VideoRecorder.t) (calls : list VideoRecorder.call),
    Forall VideoRecorder.feeds calls ->
    let r' := VideoRecorder.run (fst (VideoRecorder.stop_recording r)) calls in
    VideoRecorder.is_recording r' = false /\
    snd (VideoRecorder.stop_recording r') = [].
Proof.
  intros r calls Hf r'. subst r'.
  destruct (run_closed calls (fst (VideoRecorder.stop_recording r)) Hf eq_refl)
    as [Hrec Hcur].
  split; [exact Hrec|]. cbn [VideoRecorder.stop_recording snd]. now rewrite Hcur.
Qed.

Lemma X2_witness :
  Forall VideoRecorder.feeds
    [VideoRecorder.AddFrame (Some (Scenario.numbered 3));
     VideoRecorder.AddRecordingFrame (Some (Scenario.numbered 3))] /\
  snd (VideoRecorder.stop_recording
         (VideoRecorder.run
            (fst (VideoRecorder.stop_recording
                    (VideoRecorder.Build 3%float 30 90
                       (Deque 90 [Scenario.numbered 1]) true
                       [Scenario.numbered 1; Scenario.numbered 2])))
            [VideoRecorder.AddFrame (Some (Scenario.numbered 3));
             VideoRecorder.AddRecordingFrame (Some (Scenario.numbered 3))]))
  = [].
Proof.
  assert (Hf : Forall VideoRecorder.feeds
                 [VideoRecorder.AddFrame (Some (Scenario.numbered 3));
                  VideoRecorder.AddRecordingFrame (Some (Scenario.numbered 3))])
    by (repeat constructor).
  split; [exact Hf|].
  exact (proj2 (X2_nothing_recorded_after_stop
                  (VideoRecorder.Build 3%float 30 90
                     (Deque 90 [Scenario.numbered 1]) true
                     [Scenario.numbered 1; Scenario.numbered 2]) _ Hf)).
Defined.

(** ** The shot detector *)

Section DetectorInvariants.

Import ShotDetector.

Variable P : ShotDetector.t -> Prop.
Hypothesis P_no_landmarks : forall s, P s -> P (no_landmarks s).
Hypothesis P_store : forall s a b c, P s -> P (store s a b c).
Hypothesis P_stored : forall s a b c e, P s -> P (stored s a b c e).
Hypothesis P_arm : forall s side, P s -> is_shooting s = false -> P (arm_now s side).
Hypothesis P_confirm : forall s, P s -> is_shooting s = true -> P (set_shot_detected s).
Hypothesis P_after : forall s, P s -> P (after_completion s).

Lemma detect_preserves s side vv nwy above :
  P s -> P (fst (detect s side vv nwy above)).
Proof.
  intros Hs.
  destruct (detect_cases s side vv nwy above)
    as [E | [(Hrel & _ & E) | (_ & Hc & _ & E)]]; rewrite E; cbn [fst].
  - exact Hs.
  - apply P_arm; [exact Hs|]. eapply release_condition_idle, Hrel.
  - apply P_confirm; [exact Hs|]. eapply completion_condition_shooting, Hc.
Qed.

Lemma process_frame_preserves self frame lms :
  P self -> P (after (process_frame self frame lms)).
Proof.
  intros Hs. unfold process_frame.
  destruct frame as [fr|]; [|exact Hs].
  destruct lms as [g|]; [|now apply P_no_landmarks].
  destruct (_get_shooting_arm_landmarks g (nd_height fr) (nd_width fr))
    as [[[[[wp ep] sp] side]|]|e]; [|now apply P_no_landmarks|exact Hs].
  destruct (np_sqrt _) as [ext|e]; [|now apply P_store].
  pose proof (P_stored self wp ep sp ext Hs) as Hh. unfold stored in Hh.
  destruct (truediv (snd wp) (nd_height fr)) as [nwy|e]; [|exact Hh].
  destruct (truediv (snd sp) (nd_height fr)) as [nsy|e]; [|exact Hh].
  destruct (7 <=? _); [|now apply P_after].
  destruct (_calculate_velocity _) as [[v|]|e]; [|exact Hh|exact Hh].
  pose proof (detect_preserves _ side (snd v) nwy
                (PrimFloat.ltb min_wrist_above_shoulder (PrimFloat.sub nsy nwy)) Hh) as Hd.
  destruct (detect _ _ _ _ _) as [s out]. cbn [after fst] in *.
  now apply P_after.
Qed.

Lemma run_preserves inputs : forall self,
  P self -> P (fst (run self inputs)).
Proof.
  induction inputs as [|[frame lms] rest IH]; intros self Hs; cbn [run]; [exact Hs|].
  specialize (IH _ (process_frame_preserves self frame lms Hs)).
  destruct (run (after (process_frame self frame lms)) rest) as [final out].
  exact IH.
Qed.

End DetectorInvariants.

Section DetectorShape.

Import ShotDetector.

Lemma deque_append_len_min {A : Type} (d : deque A) (a : A) :
  deque_len d <= maxlen d ->
  deque_len (deque_append d a) = Z.min (maxlen d) (deque_len d + 1).
Proof.
  unfold deque_append, deque_len. intros Hlen.
  destruct (maxlen d <? _) eqn:E; cbn [items].
  - apply Z.ltb_lt in E. rewrite length_app in *. cbn [length] in *.
    destruct (items d) as [|b l]; cbn [app tail length] in *; [lia|].
    rewrite length_app. cbn [length]. lia.
  - apply Z.ltb_ge in E. rewrite length_app in *. cbn [length] in *. lia.
Qed.

Lemma histories_ok_store s a b c : histories_ok s -> histories_ok (store s a b c).
Proof.
  intros (Hw & He & Hs & Hx & Le & Ls & Lw & Lx).
  unfold histories_ok, store. cbn.
  rewrite !deque_append_maxlen, !deque_append_len_min by lia.
  rewrite Hw, He, Hs, Le, Ls. repeat split; try assumption; lia.
Qed.

Lemma histories_ok_stored s a b c e : histories_ok s -> histories_ok (stored s a b c e).
Proof.
  intros (Hw & He & Hs & Hx & Le & Ls & Lw & Lx).
  unfold histories_ok, stored, store_extension, store. cbn.
  rewrite !deque_append_maxlen, !deque_append_len_min by lia.
  rewrite Hw, He, Hs, Hx, Le, Ls. repeat split; try assumption; lia.
Qed.

Lemma histories_ok_reset s : histories_ok s -> histories_ok (reset_state s).
Proof.
  intros (Hw & He & Hs & Hx & _).
  unfold histories_ok, reset_state, deque_len. cbn. repeat split; try assumption; lia.
Qed.

Lemma flags_ok_reset s : flags_ok (reset_state s).
Proof.
  unfold flags_ok, reset_state. cbn. repeat split; try discriminate; try lia.
  intros [x Hx]. discriminate.
Qed.

End DetectorShape.

(** X3.  In every state the detector reaches from [__init__], each of
    the four histories holds at most 20 entries, the wrist, elbow and
    shoulder histories have the same length, and the extension history
    is never longer than they are. *)
Theorem X3_histories_bounded_and_aligned :
  forall (shot_callback : bool)
         (inputs : list (option ndarray * option (gmap Z ShotDetector.landmark))),
    ShotDetector.histories_ok
      (fst (ShotDetector.run (ShotDetector.__init__ shot_callback) inputs)).
Proof.
  intros cb inputs. apply run_preserves.
  - intros s Hs. unfold ShotDetector.no_landmarks.
    destruct (_ <? _); [now apply histories_ok_reset|exact Hs].
  - apply histories_ok_store.
  - apply histories_ok_stored.
  - intros s side Hs _. exact Hs.
  - intros s Hs _. exact Hs.
  - intros s Hs. unfold ShotDetector.after_completion.
    destruct (ShotDetector.shot_detected s); [|exact Hs].
    cbv zeta. destruct (_ <? _); [now apply histories_ok_reset|exact Hs].
  - unfold ShotDetector.histories_ok, ShotDetector.__init__, deque_len. cbn.
    repeat split; lia.
Qed.

(** X4.  In every state the detector reaches from [__init__],
    [shot_detected] implies [is_shooting], [shooting_arm] is set exactly
    while [is_shooting], and [frames_since_release] stays between 0 and
    91. *)
Theorem X4_flags_arm_and_counter_agree :
  forall (shot_callback : bool)
         (inputs : list (option ndarray * option (gmap Z ShotDetector.landmark))),
    ShotDetector.flags_ok
      (fst (ShotDetector.run (ShotDetector.__init__ shot_callback) inputs)).
Proof.
  intros cb inputs. apply run_preserves.
  - intros s (Hd & Ha & Hf). unfold ShotDetector.no_landmarks.
    destruct (_ <? _) eqn:E; [apply flags_ok_reset|].
    apply Z.ltb_ge in E. unfold ShotDetector.max_frames_after_release in E.
    unfold ShotDetector.flags_ok. cbn. repeat split; try tauto; lia.
  - intros s a b c Hs. exact Hs.
  - intros s a b c e Hs. exact Hs.
  - intros s side _ _. unfold ShotDetector.flags_ok, ShotDetector.arm_now. cbn.
    repeat split; try discriminate; try lia; eauto.
  - intros s (Hd & Ha & Hf) Hs. unfold ShotDetector.flags_ok. cbn.
    repeat split; try tauto; lia.
  - intros s Hs. pose proof Hs as (Hd & Ha & Hf).
    unfold ShotDetector.after_completion.
    destruct (ShotDetector.shot_detected s) eqn:Es; [|exact Hs].
    cbv zeta. destruct (_ <? _) eqn:E; [apply flags_ok_reset|].
    apply Z.ltb_ge in E. unfold ShotDetector.max_frames_after_release in E.
    unfold ShotDetector.flags_ok. cbn. repeat split; try tauto; lia.
  - unfold ShotDetector.flags_ok, ShotDetector.__init__. cbn.
    repeat split; try discriminate; try lia.
    intros [x Hx]. discriminate.
Qed.

Section DetectorTimeouts.

Import ShotDetector.

Lemma waited_0 s : waited s 0 = s.
Proof. destruct s. unfold waited. cbn. now rewrite Z.add_0_r. Qed.

Lemma waited_waited s n m : waited (waited s n) m = waited s (n + m).
Proof. unfold waited. cbn. now rewrite Z.add_assoc. Qed.

Lemma poseless_step self i :
  poseless i ->
  process_frame self (fst i) (snd i) = Result (no_landmarks self) [] None.
Proof.
  destruct i as [frame lms]. intros [[fr Hfr] Hlow]. cbn [fst snd] in *. subst frame.
  unfold low_confidence_input in Hlow. cbn [snd] in Hlow.
  destruct lms as [g|]; [|reflexivity].
  unfold process_frame. now rewrite low_confidence_unresolved.
Qed.

Lemma run_cons self i rest :
  run self (i :: rest)
  = (fst (run (after (process_frame self (fst i) (snd i))) rest),
     events (process_frame self (fst i) (snd i))
     ++ snd (run (after (process_frame self (fst i) (snd i))) rest)).
Proof.
  destruct i as [frame lms]. cbn [run fst snd].
  now destruct (run (after (process_frame self frame lms)) rest).
Qed.

Lemma poseless_wait inputs : forall self,
  Forall poseless inputs ->
  frames_since_release self + Z.of_nat (length inputs) <= 91 ->
  run self inputs = (waited self (Z.of_nat (length inputs)), []).
Proof.
  induction inputs as [|i rest IH]; intros self Hp Hlen.
  - cbn. now rewrite waited_0.
  - inversion Hp as [|? ? Hi Hrest]; subst.
    rewrite run_cons, (poseless_step self i Hi). cbn [after events app].
    cbn [length] in Hlen.
    assert (E : no_landmarks self = waited self 1).
    { unfold no_landmarks, max_frames_after_release.
      destruct (90 <? frames_since_release self) eqn:E; [|reflexivity].
      apply Z.ltb_lt in E. lia. }
    rewrite E, IH; [|assumption|cbn; lia].
    cbn [fst snd]. rewrite waited_waited. do 2 f_equal. cbn [length]. lia.
Qed.

Lemma poseless_reset inputs : forall self,
  Forall poseless inputs ->
  frames_since_release self <= 91 ->
  Z.of_nat (length inputs) = 92 - frames_since_release self ->
  run self inputs = (reset_state self, []).
Proof.
  induction inputs as [|i rest IH]; intros self Hp Hle Hlen; [cbn in Hlen; lia|].
  inversion Hp as [|? ? Hi Hrest]; subst.
  rewrite run_cons, (poseless_step self i Hi). cbn [after events app].
  cbn [length] in Hlen.
  unfold no_landmarks, max_frames_after_release.
  destruct (90 <? frames_since_release self) eqn:E.
  - apply Z.ltb_lt in E. destruct rest; [reflexivity|cbn [length] in Hlen; lia].
  - apply Z.ltb_ge in E. fold (waited self 1).
    rewrite IH; [reflexivity|assumption|cbn; lia|cbn; lia].
Qed.

(** At least 5 positions: the velocity is never [None]. *)
Lemma velocity_not_none positions :
  5 <= deque_len positions -> _calculate_velocity positions <> Return None.
Proof.
  unfold _calculate_velocity, deque_len. intros Hlen.
  destruct (_ <? 5) eqn:E; [apply Z.ltb_lt in E; lia|].
  destruct (head (items positions)) as [first|]; [|discriminate].
  destruct (last (items positions)) as [final|]; [|discriminate].
  destruct (_ =? 0) eqn:E0; [apply Z.eqb_eq in E0; lia|].
  destruct (truediv (fst final - fst first) _); cbn; [|discriminate].
  destruct (truediv (snd final - snd first) _); cbn; discriminate.
Qed.

(** In Cooldown a call with a frame that raises nothing counts one more
    frame or resets the detector. *)
Lemma cooldown_tick self fr lms :
  is_shooting self = true -> shot_detected self = true ->
  raised (process_frame self (Some fr) lms) = None ->
  is_shooting (after (process_frame self (Some fr) lms)) = false \/
  (is_shooting (after (process_frame self (Some fr) lms)) = true /\
   shot_detected (after (process_frame self (Some fr) lms)) = true /\
   frames_since_release (after (process_frame self (Some fr) lms))
   = frames_since_release self + 1 /\
   frames_since_release self + 1 <= 91).
Proof.
  intros Hs Hd.
  assert (Hno : is_shooting (no_landmarks self) = false \/
                (is_shooting (no_landmarks self) = true /\
                 shot_detected (no_landmarks self) = true /\
                 frames_since_release (no_landmarks self)
                 = frames_since_release self + 1 /\
                 frames_since_release self + 1 <= 91)).
  { unfold no_landmarks, max_frames_after_release.
    destruct (_ <? _) eqn:E; cbn; auto.
    apply Z.ltb_ge in E. right. repeat split; auto; lia. }
  assert (Hafter : forall a b c e,
             is_shooting (after_completion (stored self a b c e)) = false \/
             (is_shooting (after_completion (stored self a b c e)) = true /\
              shot_detected (after_completion (stored self a b c e)) = true /\
              frames_since_release (after_completion (stored self a b c e))
              = frames_since_release self + 1 /\
              frames_since_release self + 1 <= 91)).
  { intros. unfold after_completion, max_frames_after_release. cbn. rewrite Hd.
    destruct (_ <? _) eqn:E; cbn; auto.
    apply Z.ltb_ge in E. right. repeat split; auto; lia. }
  unfold process_frame.
  destruct lms as [g|]; [|intros _; exact Hno].
  destruct (_get_shooting_arm_landmarks g (nd_height fr) (nd_width fr))
    as [[[[[wp ep] sp] side]|]|e]; [|intros _; exact Hno|discriminate].
  destruct (np_sqrt _) as [ext|e]; [|discriminate].
  destruct (truediv (snd wp) (nd_height fr)) as [nwy|e]; [|discriminate].
  destruct (truediv (snd sp) (nd_height fr)) as [nsy|e]; [|discriminate].
  fold (stored self wp ep sp ext).
  destruct (7 <=? _) eqn:E7; [|intros _; apply Hafter].
  apply Z.leb_le in E7.
  pose proof (velocity_not_none (wrist_positions (stored self wp ep sp ext))
                ltac:(lia)) as Hv.
  destruct (_calculate_velocity _) as [[v|]|e]; [|congruence|discriminate].
  intros _. unfold detect, release_condition, completion_condition.
  change (is_shooting (stored self wp ep sp ext)) with (is_shooting self).
  change (shot_detected (stored self wp ep sp ext)) with (shot_detected self).
  rewrite Hs, Hd. cbn [negb andb].
  destruct (_ || _); cbn [after]; apply Hafter.
Qed.

Lemma cooldown_ends inputs : forall self,
  is_shooting self = true -> shot_detected self = true ->
  frames_since_release self <= 91 ->
  clean self inputs ->
  92 - frames_since_release self <= Z.of_nat (length inputs) ->
  exists k, (k <= length inputs)%nat /\
            is_shooting (fst (run self (take k inputs))) = false.
Proof.
  induction inputs as [|[frame lms] rest IH]; intros self Hs Hd Hle Hc Hlen;
    [cbn in Hlen; lia|].
  cbn [clean] in Hc. destruct Hc as ([fr ->] & Hr & Hc).
  cbn [length] in Hlen.
  destruct (cooldown_tick self fr lms Hs Hd Hr) as [Hidle | (Hs' & Hd' & Hf' & Hb)].
  - exists 1%nat. split; [cbn; lia|].
    cbn [take]. rewrite take_0, run_cons. exact Hidle.
  - destruct (IH _ Hs' Hd' ltac:(lia) Hc ltac:(lia)) as (k & Hk & Hidle).
    exists (S k). split; [cbn; lia|].
    cbn [take]. rewrite run_cons. exact Hidle.
Qed.

End DetectorTimeouts.

(** X5.  Frames without a usable pose only count: while
    [frames_since_release] stays at most 91 the detector keeps its flags
    and histories and emits nothing, and the call made with the counter
    at 91 resets it.  So an Armed detector that loses the pose is reset
    by exactly the 92nd such frame after arming. *)
Theorem X5_pose_loss_resets_after_grace :
  forall (self : ShotDetector.t)
         (inputs : list (option ndarray * option (gmap Z ShotDetector.landmark))),
    Forall ShotDetector.poseless inputs ->
    (ShotDetector.frames_since_release self + Z.of_nat (length inputs) <= 91 ->
     ShotDetector.run self inputs
     = (ShotDetector.waited self (Z.of_nat (length inputs)), [])) /\
    (ShotDetector.frames_since_release self <= 91 ->
     Z.of_nat (length inputs) = 92 - ShotDetector.frames_since_release self ->
     ShotDetector.run self inputs = (ShotDetector.reset_state self, [])).
Proof.
  intros self inputs Hp. split.
  - now apply poseless_wait.
  - now apply poseless_reset.
Qed.

(** X6.  Cooldown always ends: from a Cooldown state, on inputs that
    all carry a frame and raise nothing, the detector is back to
    [is_shooting = False] after at most [92 - frames_since_release]
    calls, whatever the poses show. *)
Theorem X6_cooldown_ends :
  forall (self : ShotDetector.t)
         (inputs : list (option ndarray * option (gmap Z ShotDetector.landmark))),
    ShotDetector.phase_of self = ShotDetector.Cooldown ->
    ShotDetector.frames_since_release self <= 91 ->
    ShotDetector.clean self inputs ->
    92 - ShotDetector.frames_since_release self <= Z.of_nat (length inputs) ->
    exists k, (k <= length inputs)%nat /\
              ShotDetector.phase_of (fst (ShotDetector.run self (take k inputs)))
              = ShotDetector.Idle.
Proof.
  intros self inputs Hp Hle Hc Hlen.
  unfold ShotDetector.phase_of in Hp.
  destruct (ShotDetector.is_shooting self) eqn:Hs; [|discriminate].
  destruct (ShotDetector.shot_detected self) eqn:Hd; [|discriminate].
  destruct (cooldown_ends inputs self Hs Hd Hle Hc Hlen) as (k & Hk & Hidle).
  exists k. split; [exact Hk|]. unfold ShotDetector.phase_of. now rewrite Hidle.
Qed.

(** An Armed detector with the counter at 0: 92 frames with no pose. *)
Lemma X5_witness :
  Forall ShotDetector.poseless (replicate 92 (Some Scenario.frame100, None)) /\
  ShotDetector.frames_since_release Scenario.armed7 <= 91 /\
  ShotDetector.run Scenario.armed7 (replicate 92 (Some Scenario.frame100, None))
  = (ShotDetector.reset_state Scenario.armed7, []).
Proof.
  assert (Hp : Forall ShotDetector.poseless (replicate 92 (Some Scenario.frame100, None))).
  { apply Forall_replicate. split; [eexists; reflexivity|exact I]. }
  assert (Hle : ShotDetector.frames_since_release Scenario.armed7 <= 91)
    by (vm_compute; discriminate).
  split; [exact Hp|]. split; [exact Hle|].
  apply (proj2 (X5_pose_loss_resets_after_grace Scenario.armed7 _ Hp) Hle).
  vm_compute. reflexivity.
Defined.

(** One frame after the release, 91 more frames of the same pose. *)
Lemma X6_witness :
  ShotDetector.phase_of Scenario.cooled8 = ShotDetector.Cooldown /\
  ShotDetector.clean Scenario.cooled8 (replicate 91 (Scenario.input 0.6)) /\
  exists k, (k <= length (replicate 91 (Scenario.input 0.6)))%nat /\
            ShotDetector.phase_of
              (fst (ShotDetector.run Scenario.cooled8
                      (take k (replicate 91 (Scenario.input 0.6)))))
            = ShotDetector.Idle.
Proof.
  assert (Hp : ShotDetector.phase_of Scenario.cooled8 = ShotDetector.Cooldown)
    by (vm_compute; reflexivity).
  assert (Hle : ShotDetector.frames_since_release Scenario.cooled8 <= 91)
    by (vm_compute; discriminate).
  assert (Hc : ShotDetector.clean Scenario.cooled8 (replicate 91 (Scenario.input 0.6))).
  { vm_compute. repeat (split; [eexists; reflexivity|split; [reflexivity|]]). exact I. }
  split; [exact Hp|]. split; [exact Hc|].
  apply (X6_cooldown_ends Scenario.cooled8 _ Hp Hle Hc).
  vm_compute. discriminate.
Defined.

Section DetectorArms.

Import ShotDetector.

Lemma arm_visible_spec g side :
  (exists wes, arm_visible (g !! wrist_index side) (g !! elbow_index side)
                           (g !! shoulder_index side) = Some wes)
  <-> fully_visible g side.
Proof.
  unfold fully_visible, arm_visible. split.
  - intros [wes H].
    destruct (g !! wrist_index side) as [lw|]; [|discriminate].
    destruct (g !! elbow_index side) as [le|]; [|discriminate].
    destruct (g !! shoulder_index side) as [ls|]; [|discriminate].
    destruct (PrimFloat.ltb min_confidence (visibility lw)) eqn:Ew; [|discriminate].
    destruct (PrimFloat.ltb min_confidence (visibility le)) eqn:Ee; [|discriminate].
    destruct (PrimFloat.ltb min_confidence (visibility ls)) eqn:Es; [|discriminate].
    exists lw, le, ls. auto 10.
  - intros (lw & le & ls & -> & -> & -> & -> & -> & ->). cbn. eauto.
Qed.

Lemma arm_visible_none g side :
  arm_visible (g !! wrist_index side) (g !! elbow_index side)
              (g !! shoulder_index side) = None
  <-> ~ fully_visible g side.
Proof.
  rewrite <- arm_visible_spec.
  destruct (arm_visible _ _ _) as [wes|]; split; try discriminate; eauto.
  - intros H. exfalso. apply H. eauto.
  - intros _ [wes H]. discriminate.
Qed.

End DetectorArms.

(** X8.  [_get_shooting_arm_landmarks] prefers the right arm: it answers
    with the left arm only when the right one is not fully visible, with
    the all-[None] tuple exactly when neither arm is fully visible, and
    when the right arm is fully visible it answers with the right arm
    (or raises on a coordinate that [int] rejects). *)
Theorem X8_right_arm_first :
  forall (g : gmap Z ShotDetector.landmark) (h w : Z),
    (forall wp ep sp,
        ShotDetector._get_shooting_arm_landmarks g h w
        = Return (Some (wp, ep, sp, ShotDetector.left)) ->
        ~ ShotDetector.fully_visible g ShotDetector.right /\
        ShotDetector.fully_visible g ShotDetector.left) /\
    (ShotDetector._get_shooting_arm_landmarks g h w = Return None <->
     ~ ShotDetector.fully_visible g ShotDetector.right /\
     ~ ShotDetector.fully_visible g ShotDetector.left) /\
    (ShotDetector.fully_visible g ShotDetector.right ->
     (exists e, ShotDetector._get_shooting_arm_landmarks g h w = Raise e) \/
     (exists wp ep sp,
         ShotDetector._get_shooting_arm_landmarks g h w
         = Return (Some (wp, ep, sp, ShotDetector.right)))).
Proof.
  intros g h w.
  pose proof (arm_visible_none g ShotDetector.right) as NR.
  pose proof (arm_visible_none g ShotDetector.left) as NL.
  pose proof (arm_visible_spec g ShotDetector.right) as SR.
  pose proof (arm_visible_spec g ShotDetector.left) as SL.
  cbn [ShotDetector.wrist_index ShotDetector.elbow_index ShotDetector.shoulder_index]
    in NR, NL, SR, SL.
  unfold ShotDetector._get_shooting_arm_landmarks.
  destruct (ShotDetector.arm_visible (g !! ShotDetector.RIGHT_WRIST) _ _) as [wr|].
  - destruct (ShotDetector.arm_positions wr h w) as [[[wp ep] sp]|e]; cbn.
    + split; [intros ? ? ? [=]|]. split.
      * split; [discriminate|]. intros [H _]. exfalso. apply H, SR. eauto.
      * intros _. right. eauto.
    + split; [intros ? ? ? [=]|]. split.
      * split; [discriminate|]. intros [H _]. exfalso. apply H, SR. eauto.
      * intros _. left. eauto.
  - assert (HnR : ~ ShotDetector.fully_visible g ShotDetector.right)
      by (now apply NR).
    destruct (ShotDetector.arm_visible (g !! ShotDetector.LEFT_WRIST) _ _) as [wl|].
    + assert (HL : ShotDetector.fully_visible g ShotDetector.left)
        by (apply SL; eauto).
      destruct (ShotDetector.arm_positions wl h w) as [[[wp ep] sp]|e]; cbn.
      * split; [intros ? ? ? _; now split|]. split; [|tauto].
        split; [discriminate|tauto].
      * split; [intros ? ? ? [=]|]. split; [|tauto].
        split; [discriminate|tauto].
    + split; [intros ? ? ? [=]|]. split; [|tauto].
      split; [intros _|reflexivity]. split; [exact HnR|now apply NL].
Qed.

(** A pose whose right arm is faint and whose left arm is clear. *)
Lemma X8_witness :
  ShotDetector._get_shooting_arm_landmarks Scenario.left_pose 100 100
  = Return (Some ((25, 50), (25, 60), (25, 70), ShotDetector.left)) /\
  ~ ShotDetector.fully_visible Scenario.left_pose ShotDetector.right.
Proof.
  assert (H : ShotDetector._get_shooting_arm_landmarks Scenario.left_pose 100 100
              = Return (Some ((25, 50), (25, 60), (25, 70), ShotDetector.left)))
    by (vm_compute; reflexivity).
  split; [exact H|].
  exact (proj1 (proj1 (X8_right_arm_first Scenario.left_pose 100 100) _ _ _ H)).
Defined.

Section VelocitySign.

Import ShotDetector.

Lemma sign_test_table_sound (bound dy dt : Z) :
  sign_test_table bound = true ->
  - bound <= dy <= bound -> 4 <= dt <= 19 -> sign_test_ok dy dt = true.
Proof.
  intros T Hdy Hdt.
  unfold sign_test_table in T. rewrite forallb_forall in T.
  assert (Idt : In dt (seqZ 4 16)).
  { apply list_elem_of_In, elem_of_seqZ. lia. }
  specialize (T dt Idt). rewrite forallb_forall in T.
  apply T, list_elem_of_In, elem_of_seqZ. lia.
Qed.

Lemma sign_test_table_1080 : sign_test_table 1080 = true.
Proof. vm_compute. reflexivity. Qed.

Lemma sign_test_1080 dy dt :
  -1080 <= dy <= 1080 -> 4 <= dt <= 19 -> sign_test_ok dy dt = true.
Proof. exact (sign_test_table_sound 1080 dy dt sign_test_table_1080). Qed.

End VelocitySign.

(** X7.  The velocity is measured in pixels per frame, so on a history
    of at most 20 positions whose oldest and newest wrist rows differ by
    at most 1080 pixels the two velocity tests of [process_frame] are
    sign tests: the vertical velocity is below
    [wrist_upward_velocity_threshold] exactly when the newest row is
    above the oldest (smaller), and above 0.005 exactly when it is
    below the oldest (larger). *)
Theorem X7_velocity_tests_are_sign_tests :
  forall (positions : deque ShotDetector.position)
         (first final : ShotDetector.position) (vx vy : float),
    head (items positions) = Some first ->
    last (items positions) = Some final ->
    deque_len positions <= 20 ->
    -1080 <= snd final - snd first <= 1080 ->
    ShotDetector._calculate_velocity positions = Return (Some (vx, vy)) ->
    (PrimFloat.ltb vy ShotDetector.wrist_upward_velocity_threshold = true
     <-> snd final < snd first) /\
    (PrimFloat.ltb 0.005%float vy = true <-> snd first < snd final).
Proof.
  intros positions first final vx vy Hhead Hlast Hlen Hdy.
  unfold ShotDetector._calculate_velocity.
  destruct (deque_len positions <? 5) eqn:E5; [discriminate|].
  apply Z.ltb_ge in E5. rewrite Hhead, Hlast. fold (deque_len positions).
  destruct (deque_len positions - 1 =? 0); [discriminate|].
  destruct (truediv (fst final - fst first) (deque_len positions - 1)) as [qx|];
    cbn; [|discriminate].
  pose proof (sign_test_1080 (snd final - snd first) (deque_len positions - 1)
                Hdy ltac:(lia)) as T.
  unfold ShotDetector.sign_test_ok in T.
  destruct (truediv (snd final - snd first) (deque_len positions - 1)) as [qy|];
    cbn; [|discriminate].
  intros [= <- <-].
  apply andb_prop in T as [T1 T2].
  apply Bool.eqb_prop in T1, T2. rewrite T1, T2.
  rewrite Z.ltb_lt, Z.ltb_lt. split; split; lia.
Qed.

(** The wrist history of the armed detector of the examples: rows 56 down
    to 50 over 7 positions. *)
Lemma X7_witness :
  ShotDetector._calculate_velocity (ShotDetector.wrist_positions Scenario.armed7)
  = Return (Some ((0 / 6)%float, (-6 / 6)%float)) /\
  (PrimFloat.ltb (-6 / 6)%float ShotDetector.wrist_upward_velocity_threshold = true
   <-> 50 < 56).
Proof.
  assert (H : ShotDetector._calculate_velocity
                (ShotDetector.wrist_positions Scenario.armed7)
              = Return (Some ((0 / 6)%float, (-6 / 6)%float)))
    by (vm_compute; reflexivity).
  split; [exact H|].
  refine (proj1 (X7_velocity_tests_are_sign_tests
                   (ShotDetector.wrist_positions Scenario.armed7)
                   (50, 56) (50, 50) _ _ eq_refl eq_refl _ _ H)).
  - vm_compute. discriminate.
  - vm_compute. split; discriminate.
Defined.

(** ** The session files and the session manager *)

Section MetadataFacts.

Import MetadataManager.

Lemma add_shot_metadata_eq files sid (c : shot_call) :
  add_shot_metadata files sid (call_number c) (call_made c) (call_path c)
    (call_critique c) (call_created c) (call_now c)
  = <[sid := with_shots
               (default (create_session_metadata sid (call_created c))
                        (load_session_metadata files sid))
               [recorded c]]> files.
Proof. reflexivity. Qed.

Lemma with_shots_app m a b : with_shots (with_shots m a) b = with_shots m (a ++ b).
Proof. unfold with_shots. cbn. now rewrite <- !app_assoc. Qed.

Lemma add_shots_load files sid c calls :
  load_session_metadata (add_shots files sid (c :: calls)) sid
  = Some (with_shots
            (default (create_session_metadata sid (call_created c))
                     (load_session_metadata files sid))
            (map recorded (c :: calls))).
Proof.
  revert files c. induction calls as [|c' calls IH]; intros files c.
  - cbn [add_shots fold_left]. rewrite add_shot_metadata_eq.
    unfold load_session_metadata. now rewrite lookup_insert_eq.
  - change (add_shots files sid (c :: c' :: calls))
      with (add_shots (add_shot_metadata files sid (call_number c) (call_made c)
                         (call_path c) (call_critique c) (call_created c) (call_now c))
                      sid (c' :: calls)).
    rewrite IH, add_shot_metadata_eq. unfold load_session_metadata at 1.
    rewrite lookup_insert_eq. cbn [from_option id]. now rewrite with_shots_app.
Qed.

Lemma add_shots_other files sid calls other :
  other <> sid ->
  load_session_metadata (add_shots files sid calls) other
  = load_session_metadata files other.
Proof.
  intros Hne. revert files. induction calls as [|c calls IH]; intros files;
    [reflexivity|].
  cbn [add_shots fold_left]. fold (add_shots
    (add_shot_metadata files sid (call_number c) (call_made c) (call_path c)
       (call_critique c) (call_created c) (call_now c)) sid calls).
  rewrite IH, add_shot_metadata_eq. unfold load_session_metadata.
  now rewrite lookup_insert_ne.
Qed.

End MetadataFacts.

(** X9.  After any non-empty sequence of [add_shot_metadata] calls on one
    session, the session file holds the dictionary it held before (or a
    fresh one stamped with the first call's clock reading when there was
    no file) with the records of the calls appended in call order and
    the three counters recomputed from the whole list; the file of every
    other session is as it was. *)
Theorem X9_shots_accumulate_in_call_order :
  forall (files : gmap string MetadataManager.session_metadata)
         (session_id : string) (c : MetadataManager.shot_call)
         (calls : list MetadataManager.shot_call),
    MetadataManager.load_session_metadata
      (MetadataManager.add_shots files session_id (c :: calls)) session_id
    = Some (MetadataManager.with_shots
              (default (MetadataManager.create_session_metadata session_id
                          (MetadataManager.call_created c))
                       (MetadataManager.load_session_metadata files session_id))
              (map MetadataManager.recorded (c :: calls))) /\
    (forall other : string,
        other <> session_id ->
        MetadataManager.load_session_metadata
          (MetadataManager.add_shots files session_id (c :: calls)) other
        = MetadataManager.load_session_metadata files other).
Proof.
  intros files session_id c calls. split.
  - apply add_shots_load.
  - intros other Hne. now apply add_shots_other.
Qed.

(** X10.  [update_session_summary] creates no file: a session without a
    file stays without one.  On a session with a file it sets the
    summary and the end time and keeps the identifier, the start time,
    the shots and the three counters; the files of the other sessions
    are untouched. *)
Theorem X10_summary_keeps_shots :
  forall (files : gmap string MetadataManager.session_metadata)
         (session_id summary now id : string),
    let files' := MetadataManager.update_session_summary files session_id summary now in
    match MetadataManager.load_session_metadata files id with
    | None => MetadataManager.load_session_metadata files' id = None
    | Some m =>
        exists m',
          MetadataManager.load_session_metadata files' id = Some m' /\
          MetadataManager.session_id m' = MetadataManager.session_id m /\
          MetadataManager.start_time m' = MetadataManager.start_time m /\
          MetadataManager.shots m' = MetadataManager.shots m /\
          MetadataManager.total_shots m' = MetadataManager.total_shots m /\
          MetadataManager.shots_made m' = MetadataManager.shots_made m /\
          MetadataManager.shots_missed m' = MetadataManager.shots_missed m /\
          (if decide (id = session_id)
           then MetadataManager.summary m' = Some summary /\
                MetadataManager.end_time m' = Some now
           else m' = m)
    end.
Proof.
  intros files session_id summary now id files'. subst files'.
  unfold MetadataManager.update_session_summary,
    MetadataManager.load_session_metadata, MetadataManager.save_session_metadata.
  destruct (decide (id = session_id)) as [->|Hne].
  - destruct (files !! session_id) as [m|] eqn:E.
    + rewrite lookup_insert_eq. eexists. split; [reflexivity|].
      cbn. repeat split.
    + exact E.
  - destruct (files !! session_id) as [m0|] eqn:E0.
    + rewrite lookup_insert_ne by congruence.
      destruct (files !! id) as [m|]; [|reflexivity].
      exists m. repeat split.
    + destruct (files !! id) as [m|]; [|reflexivity].
      exists m. repeat split.
Qed.

Section SessionFacts.

Import SessionManager.

Lemma add_all_cons self files c calls :
  add_all self files (c :: calls)
  = add_all (fst (add_shot self files c)) (snd (add_shot self files c)) calls.
Proof.
  unfold add_all. cbn [fold_left fst snd].
  now destruct (add_shot self files c).
Qed.

Lemma add_all_active uuid calls : forall m files,
  add_all (Build (Some uuid) (Some m) true) files calls
  = (Build (Some uuid)
           (match calls with
            | [] => Some m
            | _ :: _ =>
                MetadataManager.load_session_metadata
                  (MetadataManager.add_shots files uuid calls) uuid
            end) true,
     MetadataManager.add_shots files uuid calls).
Proof.
  induction calls as [|c calls IH]; intros m files; [reflexivity|].
  rewrite add_all_cons. unfold add_shot.
  cbn [fst snd is_active negb current_session_id session_metadata].
  rewrite (add_shots_load files uuid c []) at 1.
  rewrite IH. f_equal. destruct calls as [|c' calls]; [|reflexivity].
  cbn [map]. now rewrite (add_shots_load files uuid c []).
Qed.

Lemma start_session_state self files now_end uuid now :
  fst (fst (start_session self files now_end uuid now))
  = Build (Some uuid) (Some (MetadataManager.create_session_metadata uuid now)) true.
Proof.
  unfold start_session.
  destruct (is_active self); [destruct (end_session self files now_end) as [[s f] r]|];
    reflexivity.
Qed.

End SessionFacts.

(** X11.  A session started under an identifier that has no file yet,
    followed by any number of [add_shot] calls: [get_stats] reports the
    number of calls, the number of them with [shot_made] true, and their
    difference; [end_session] then deactivates the manager, stamps the
    end time, writes the session file and returns what it wrote, whose
    shots are the records of the calls in call order.  The start time
    written is the clock reading of the first [add_shot] when there was
    one ([start_session] itself writes no file), else the one of
    [start_session]. *)
Theorem X11_session_lifecycle :
  forall (self : SessionManager.t)
         (files : gmap string MetadataManager.session_metadata)
         (now_end uuid now now' : string)
         (calls : list MetadataManager.shot_call),
    let started := SessionManager.start_session self files now_end uuid now in
    MetadataManager.load_session_metadata (snd (fst started)) uuid = None ->
    let shot := SessionManager.add_all (fst (fst started)) (snd (fst started)) calls in
    let records := map MetadataManager.recorded calls in
    let final :=
      MetadataManager.set_end_time
        (MetadataManager.with_shots
           (MetadataManager.create_session_metadata uuid
              (match calls with
               | [] => now
               | c :: _ => MetadataManager.call_created c
               end))
           records) now' in
    snd started = uuid /\
    SessionManager.get_stats (fst shot)
    = (Z.of_nat (length calls), MetadataManager.count_made records,
       Z.of_nat (length calls) - MetadataManager.count_made records) /\
    SessionManager.end_session (fst shot) (snd shot) now'
    = (SessionManager.Build (Some uuid) (Some final) false,
       MetadataManager.save_session_metadata (snd shot) uuid final,
       Some final).
Proof.
  intros self files now_end uuid now now' calls started Hfresh shot records final.
  assert (Hid : snd started = uuid).
  { subst started. unfold SessionManager.start_session.
    destruct (SessionManager.is_active self);
      [destruct (SessionManager.end_session self files now_end) as [[s f] r]|];
      reflexivity. }
  split; [exact Hid|].
  subst shot started. rewrite (start_session_state self files now_end uuid now).
  rewrite add_all_active. cbn [fst snd].
  destruct calls as [|c calls].
  - subst final records. split; reflexivity.
  - rewrite add_shots_load, Hfresh. cbn [from_option id].
    subst final records. split.
    + cbn [SessionManager.get_stats SessionManager.session_metadata
           MetadataManager.with_shots MetadataManager.total_shots
           MetadataManager.shots_made MetadataManager.shots_missed
           MetadataManager.create_session_metadata MetadataManager.shots app].
      now rewrite length_map.
    + reflexivity.
Qed.

Lemma X11_witness :
  let c1 := MetadataManager.ShotCall 1 true "a.mp4" "Good." "t1" "t2" in
  let c2 := MetadataManager.ShotCall 2 false "b.mp4" "Short." "t3" "t4" in
  let started := SessionManager.start_session SessionManager.__init__ ∅ "" "u" "t0" in
  let shot := SessionManager.add_all (fst (fst started)) (snd (fst started)) [c1; c2] in
  MetadataManager.load_session_metadata (snd (fst started)) "u" = None /\
  SessionManager.get_stats (fst shot) = (2, 1, 1) /\
  snd (SessionManager.end_session (fst shot) (snd shot) "t5")
  = Some (MetadataManager.Metadata "u" "t1" (Some "t5"%string) 2 1 1
            [MetadataManager.ShotData 1 "t2" true "a.mp4" "Good.";
             MetadataManager.ShotData 2 "t4" false "b.mp4" "Short."] None).
Proof.
  intros c1 c2 started shot.
  pose proof (X11_session_lifecycle SessionManager.__init__ ∅ "" "u" "t0" "t5"
                [c1; c2] eq_refl) as (_ & Hstats & Hend).
  split; [reflexivity|]. split.
  - exact Hstats.
  - subst shot started. rewrite Hend. reflexivity.
Defined.

(** X12.  Once [end_session] has run, whatever the manager was before,
    the manager is inert: a further [end_session] returns [None] and an
    [add_shot] is dropped, and neither changes the manager or any file. *)
Theorem X12_ended_session_is_inert :
  forall (self : SessionManager.t)
         (files : gmap string MetadataManager.session_metadata) (now now' : string)
         (c : MetadataManager.shot_call),
    let ended := SessionManager.end_session self files now in
    SessionManager.end_session (fst (fst ended)) (snd (fst ended)) now'
    = (fst (fst ended), snd (fst ended), None) /\
    SessionManager.add_shot (fst (fst ended)) (snd (fst ended)) c
    = (fst (fst ended), snd (fst ended)).
Proof.
  intros [[sid|] [m|] []] files now now' c ended; subst ended;
    split; reflexivity.
Qed.

(** ** The clip files *)

Section PathFacts.

Import VideoStorage.

Lemma pretty_N_go_leads (x : N) : forall s,
  (0 < x)%N \/ match s with String c _ => c <> "0"%char | EmptyString => False end ->
  match pretty_N_go x s with String c _ => c <> "0"%char | EmptyString => False end.
Proof.
  induction (N.lt_wf_0 x) as [x _ IH]. intros s Hs.
  assert (x = 0 \/ 0 < x < 10 \/ 10 <= x)%N as [->|[[Hpos Hlt]|Hge]] by lia.
  - rewrite pretty_N_go_0. destruct Hs as [Hs|Hs]; [lia|exact Hs].
  - rewrite pretty_N_go_step by exact Hpos. apply IH.
    + now apply N.div_lt.
    + right. rewrite N.mod_small by exact Hlt.
      assert (x = 1 \/ x = 2 \/ x = 3 \/ x = 4 \/ x = 5 \/ x = 6
              \/ x = 7 \/ x = 8 \/ x = 9)%N as Hx by lia.
      destruct Hx as [->|[->|[->|[->|[->|[->|[->|[->| ->]]]]]]]]; discriminate.
  - rewrite pretty_N_go_step by lia. apply IH.
    + apply N.div_lt; lia.
    + left. apply N.div_str_pos. lia.
Qed.

Lemma pretty_N_go_free (x : N) : forall s,
  free "_" s -> free "_" (pretty_N_go x s).
Proof.
  induction (N.lt_wf_0 x) as [x _ IH]. intros s Hs.
  assert (x = 0 \/ 0 < x)%N as [->|Hpos] by lia.
  - now rewrite pretty_N_go_0.
  - rewrite pretty_N_go_step by exact Hpos. apply IH.
    + now apply N.div_lt.
    + split; [|exact Hs]. unfold pretty_N_char.
      repeat case_match; discriminate.
Qed.

Lemma pretty_nonneg (n : Z) :
  0 <= n -> numeral (pretty n) /\ free "_" (pretty n).
Proof.
  intros Hn. destruct n as [|p|p]; [| |lia].
  - split; [now left|]. cbn. split; [discriminate|exact I].
  - change (pretty (Z.pos p)) with (pretty_N_go (N.pos p) "").
    split.
    + right. apply pretty_N_go_leads. left. lia.
    + apply pretty_N_go_free. exact I.
Qed.

Lemma free_app c a b : free c a -> free c b -> free c (a +:+ b).
Proof. induction a as [|d a IH]; cbn; [tauto|]. intros [? ?] ?. split; auto. Qed.

Lemma pad_free digits : free "_" digits -> free "_" (pad 3 digits).
Proof.
  intros H. unfold pad. apply free_app; [|exact H].
  destruct (3 - String.length digits)%nat as [|[|[|[|k]]]] eqn:E; cbn;
    try (repeat split; discriminate).
  lia.
Qed.

Lemma pad_numeral_inj d d' :
  numeral d -> numeral d' -> pad 3 d = pad 3 d' -> d = d'.
Proof.
  unfold pad.
  destruct d as [|a [|b [|c r]]], d' as [|a' [|b' [|c' r']]]; cbn;
    intros [H|H] [H'|H'] E; try discriminate; try tauto;
    try (injection E; intros; subst; congruence).
Qed.

(** The text up to the first occurrence of a character splits a string
    in one way only. *)
Lemma split_at_first c a b x y :
  free c a -> free c b ->
  a +:+ String c x = b +:+ String c y -> a = b /\ x = y.
Proof.
  revert b. induction a as [|d a IH]; intros [|e b]; cbn.
  - intros _ _ [= ->]. now split.
  - intros _ [He _] [= <- _]. congruence.
  - intros [Hd _] _ [= -> _]. congruence.
  - intros [_ Ha] [_ Hb] [= -> E]. destruct (IH b Ha Hb E) as [-> ->]. now split.
Qed.

Lemma format_03d_inj n n' :
  0 <= n -> 0 <= n' -> format_03d n = format_03d n' -> n = n'.
Proof.
  intros Hn Hn'. unfold format_03d.
  destruct (Z.ltb_spec n 0); [lia|]. destruct (Z.ltb_spec n' 0); [lia|].
  intros E. apply (inj pretty).
  apply pad_numeral_inj; [apply pretty_nonneg; lia..|exact E].
Qed.

Lemma shot_path_inj base sid n n' m m' c c' :
  0 <= n -> 0 <= n' ->
  get_shot_video_path base sid n m c = get_shot_video_path base sid n' m' c' ->
  n = n' /\ m = m' /\ c = c'.
Proof.
  intros Hn Hn'. unfold get_shot_video_path. intros E.
  repeat match type of E with
         | ?p +:+ _ = ?p +:+ _ => apply (inj (String.append p)) in E
         end.
  change ("_" +:+ ?x) with (String "_" x) in E.
  apply split_at_first in E.
  - destruct E as [En Et]. split; [now apply format_03d_inj|].
    destruct m, m', c, c'; try discriminate; now split.
  - unfold format_03d. destruct (Z.ltb_spec n 0); [lia|].
    apply pad_free, pretty_nonneg; lia.
  - unfold format_03d. destruct (Z.ltb_spec n' 0); [lia|].
    apply pad_free, pretty_nonneg; lia.
Qed.

End PathFacts.

(** X13.  Within a session directory the file name determines the shot:
    for shot numbers from 0 on, two paths built by [get_shot_video_path]
    coincide only when the shot number, the made-or-missed label and the
    critique suffix all coincide.  So the raw and the annotated clip of a
    shot, and the clips of different shots, never share a file. *)
Theorem X13_paths_identify_the_shot :
  forall (base_path session_id : string) (n n' : Z) (made made' critique critique' : bool),
    0 <= n -> 0 <= n' ->
    VideoStorage.get_shot_video_path base_path session_id n made critique
    = VideoStorage.get_shot_video_path base_path session_id n' made' critique' ->
    n = n' /\ made = made' /\ critique = critique'.
Proof.
  intros base_path session_id n n' made made' critique critique'.
  apply shot_path_inj.
Qed.

Lemma X13_witness :
  VideoStorage.get_shot_video_path "data/videos" "s" 7 true false
  = "data/videos/session_s/shot_007_made.mp4"%string /\
  VideoStorage.get_shot_video_path "data/videos" "s" 7 true false
  = VideoStorage.get_shot_video_path "data/videos" "s" 7 true false /\
  7 = 7 /\ true = true /\ false = false.
Proof.
  split; [reflexivity|]. split; [reflexivity|].
  apply (X13_paths_identify_the_shot "data/videos" "s" 7 7 true true false false);
    [lia|lia|reflexivity].
Defined.

(** ** The made-or-missed classification *)

Section TextFacts.

Import CritiqueGenerator.

Lemma string_app_cons (x : ascii) (a b : string) :
  String x a +:+ b = String x (a +:+ b).
Proof. reflexivity. Qed.

Lemma string_app_assoc (a b c : string) : (a +:+ b) +:+ c = a +:+ (b +:+ c).
Proof.
  induction a as [|x a IH]; [reflexivity|].
  now rewrite !string_app_cons, IH.
Qed.

Lemma string_app_nil_r (a : string) : a +:+ "" = a.
Proof.
  induction a as [|x a IH]; [reflexivity|].
  now rewrite string_app_cons, IH.
Qed.

Lemma rev_app_spec (s t : string) : String.rev_app s t = String.rev s +:+ t.
Proof.
  unfold String.rev. revert t.
  induction s as [|x s IH]; intros t; cbn [String.rev_app]; [reflexivity|].
  rewrite (IH (String x t)), (IH (String x "")), string_app_assoc. reflexivity.
Qed.

Lemma rev_cons (x : ascii) (s : string) :
  String.rev (String x s) = String.rev s +:+ String x "".
Proof. unfold String.rev at 1. cbn. apply rev_app_spec. Qed.

Lemma rev_app_distr (a b : string) :
  String.rev (a +:+ b) = String.rev b +:+ String.rev a.
Proof.
  induction a as [|x a IH].
  - change ("" +:+ b) with b. now rewrite string_app_nil_r.
  - now rewrite string_app_cons, !rev_cons, IH, string_app_assoc.
Qed.

Lemma rev_involutive (s : string) : String.rev (String.rev s) = s.
Proof.
  induction s as [|x s IH]; [reflexivity|].
  now rewrite rev_cons, rev_app_distr, IH.
Qed.

Lemma prefix_spec (w s : string) :
  String.prefix w s = true <-> exists b, s = w +:+ b.
Proof.
  revert s. induction w as [|x w IH]; intros s.
  - destruct s; cbn; split; eauto.
  - destruct s as [|y s]; cbn.
    + split; [discriminate|]. intros [b Hb]. discriminate.
    + destruct (ascii_dec x y) as [->|Hne].
      * rewrite IH. split; intros [b Hb]; exists b;
          rewrite string_app_cons in *; congruence.
      * split; [discriminate|]. intros [b Hb].
        rewrite string_app_cons in Hb. congruence.
Qed.

Lemma contains_spec (w s : string) :
  contains w s = true <-> exists a b, s = a +:+ w +:+ b.
Proof.
  induction s as [|y s IH].
  - cbn [contains]. rewrite orb_false_r, prefix_spec. split.
    + intros [b Hb]. exists ""%string, b. exact Hb.
    + intros ([|x a] & b & Hab); [now exists b|discriminate].
  - cbn [contains]. rewrite orb_true_iff, prefix_spec, IH. split.
    + intros [[b Hb]|(a & b & Hab)].
      * exists ""%string, b. exact Hb.
      * exists (String y a), b. now rewrite string_app_cons, Hab.
    + intros ([|x a] & b & Hab).
      * left. now exists b.
      * right. exists a, b. rewrite string_app_cons in Hab. congruence.
Qed.

Lemma contains_rev (w s : string) :
  contains (String.rev w) (String.rev s) = contains w s.
Proof.
  apply eq_true_iff_eq. rewrite !contains_spec. split.
  - intros (a & b & Hab). exists (String.rev b), (String.rev a).
    rewrite <- (rev_involutive s), Hab, !rev_app_distr, rev_involutive.
    now rewrite string_app_assoc.
  - intros (a & b & ->). exists (String.rev b), (String.rev a).
    now rewrite !rev_app_distr, string_app_assoc.
Qed.

Lemma contains_lstrip (c : ascii) (w s : string) :
  isspace c = false ->
  contains (String c w) (lstrip s) = contains (String c w) s.
Proof.
  intros Hc. induction s as [|y s IH]; [reflexivity|].
  cbn [lstrip]. destruct (isspace y) eqn:Ey; [|reflexivity].
  rewrite IH. cbn [contains String.prefix].
  destruct (ascii_dec c y) as [->|_]; [congruence|reflexivity].
Qed.

(** A word that neither starts nor ends with white space occurs in the
    stripped text exactly when it occurs in the text. *)
Lemma contains_strip (c d : ascii) (w v s : string) :
  isspace c = false -> isspace d = false ->
  String.rev (String c w) = String d v ->
  contains (String c w) (strip s) = contains (String c w) s.
Proof.
  intros Hc Hd Hrev. unfold strip.
  rewrite <- contains_rev, rev_involutive, Hrev, (contains_lstrip d) by exact Hd.
  rewrite <- Hrev, contains_rev. now apply contains_lstrip.
Qed.

Lemma isspace_upper_char (c : ascii) : isspace (upper_char c) = isspace c.
Proof. destruct c as [[] [] [] [] [] [] [] []]; reflexivity. Qed.

Lemma upper_lstrip (s : string) : upper (lstrip s) = lstrip (upper s).
Proof.
  induction s as [|x s IH]; [reflexivity|].
  cbn [lstrip upper]. rewrite isspace_upper_char.
  destruct (isspace x); [exact IH|reflexivity].
Qed.

Lemma upper_app (a b : string) : upper (a +:+ b) = upper a +:+ upper b.
Proof.
  induction a as [|x a IH]; [reflexivity|].
  rewrite string_app_cons. cbn [upper]. now rewrite string_app_cons, IH.
Qed.

Lemma upper_rev (s : string) : upper (String.rev s) = String.rev (upper s).
Proof.
  induction s as [|x s IH]; [reflexivity|].
  cbn [upper]. now rewrite !rev_cons, upper_app, IH.
Qed.

Lemma upper_strip (s : string) : upper (strip s) = strip (upper s).
Proof. unfold strip. now rewrite upper_rev, upper_lstrip, upper_rev, upper_lstrip. Qed.

Lemma verdict_unstripped (response : string) :
  contains "MADE" (upper (strip response)) = contains "MADE" (upper response) /\
  contains "MISSED" (upper (strip response)) = contains "MISSED" (upper response).
Proof.
  rewrite upper_strip. split.
  - now apply (contains_strip "M" "E" "ADE" "DAM").
  - now apply (contains_strip "M" "D" "ISSED" "ESSIM").
Qed.

End TextFacts.

(** X14.  For a client whose reply, if it gives one, is ASCII text,
    [determine_shot_result] never raises and leaves the session files
    alone.  It answers [True] exactly when the client replied and the
    reply, put in upper case, contains MADE and does not contain MISSED;
    white space around the reply plays no role.  Every other reply, and
    every failure of the call, gives [False]. *)
Theorem X14_verdict_is_made_without_missed :
  forall (env : services) (video_path : string) (s : state),
    (forall response,
        analyze_video env video_path ShotResultPrompt = Return response ->
        CritiqueGenerator.ascii_text response = true) ->
    let r := CritiqueGenerator.determine_shot_result env video_path s in
    exists made : bool,
      fst r = Return made /\
      Task.files (snd r) = Task.files s /\
      (made = true <->
       exists response,
         analyze_video env video_path ShotResultPrompt = Return response /\
         CritiqueGenerator.contains "MADE" (CritiqueGenerator.upper response) = true /\
         CritiqueGenerator.contains "MISSED" (CritiqueGenerator.upper response) = false).
Proof.
  intros env video_path s _ r. subst r.
  unfold CritiqueGenerator.determine_shot_result.
  cbv [mbind M_bind mret M_ret emit].
  destruct (analyze_video env video_path ShotResultPrompt) as [response|e] eqn:E.
  - destruct (verdict_unstripped response) as [-> ->].
    destruct (CritiqueGenerator.contains "MADE" (CritiqueGenerator.upper response)) eqn:Emade;
      destruct (CritiqueGenerator.contains "MISSED" (CritiqueGenerator.upper response)) eqn:Emiss;
      cbn [andb negb fst snd Task.files].
    + exists false. repeat split; [discriminate|].
      intros (r' & [= <-] & _ & H). congruence.
    + exists true. repeat split. intros _. now exists response.
    + exists false. repeat split; [discriminate|].
      intros (r' & [= <-] & H & _). congruence.
    + exists false. repeat split; [discriminate|].
      intros (r' & [= <-] & H & _). congruence.
  - exists false. cbn. repeat split; [discriminate|].
    intros (r' & H & _). discriminate.
Qed.

(** A reply with white space around it and "made" in lower case. *)
Lemma X14_witness :
  CritiqueGenerator.ascii_text "  The shot was made. " = true /\
  fst (CritiqueGenerator.determine_shot_result Scenario.client_up "clip.mp4"
         (State ∅ [] None))
  = Return true.
Proof.
  split; [reflexivity|].
  destruct (X14_verdict_is_made_without_missed Scenario.client_up "clip.mp4"
              (State ∅ [] None))
    as (made & Hret & _ & Hmade).
  - intros response [= <-]. reflexivity.
  - rewrite Hret. f_equal. apply Hmade.
    exists "  The shot was made. "%string. repeat split; reflexivity.
Defined.

(** ** How an analysis task ends *)

Section TaskEndings.

(** Runs a task symbolically: every answer of a collaborator is split
    into its cases. *)
Ltac split_answer :=
  match goal with
  | |- context [VideoStorage.save_video ?o ?p ?f ?w ?h] =>
      destruct (VideoStorage.save_video o p f w h) eqn:?
  | |- context [analyze_video ?e ?p ?q] => destruct (analyze_video e p q) eqn:?
  | |- context [move ?e ?p ?q] => destruct (move e p q) as [[]|] eqn:?
  | |- context [add_text_overlay ?e ?p ?q ?c] =>
      destruct (add_text_overlay e p q c) as [[]|] eqn:?
  | |- context [CritiqueGenerator.contains ?w ?s] =>
      destruct (CritiqueGenerator.contains w s) eqn:?
  end.

Ltac step_task :=
  cbv [try_except mbind M_bind mret M_ret emit lift get_shot_made
       set_shot_made update_files negb andb Bool.eqb from_option id
       ShotAnalyzer.session_id ShotAnalyzer.shot_number ShotAnalyzer.frames
       ShotAnalyzer.width ShotAnalyzer.height ShotAnalyzer.arg_shot_made
       ShotAnalyzer.analysis_callback
       Task.trace Task.files Task.shot_made app snd].

Ltac run_task :=
  unfold ShotAnalyzer.run_thread, ShotAnalyzer._analyze_shot_sync,
    ShotAnalyzer.body, ShotAnalyzer.handler, ShotAnalyzer.finish,
    CritiqueGenerator.determine_shot_result,
    CritiqueGenerator.generate_shot_critique;
  step_task; repeat (split_answer; step_task).

Ltac unfold_vocabulary :=
  cbv [ShotAnalyzer.saved ShotAnalyzer.clip_path ShotAnalyzer.reports
       ShotAnalyzer.callbacks ShotAnalyzer.labelled
       ShotAnalyzer.session_id ShotAnalyzer.shot_number ShotAnalyzer.frames
       ShotAnalyzer.width ShotAnalyzer.height ShotAnalyzer.arg_shot_made
       ShotAnalyzer.analysis_callback from_option id
       Task.trace Task.files Task.shot_made].

Ltac close_ending :=
  lazymatch goal with
  | |- ShotAnalyzer.ending _ _ _ _ (State _ ?tr ?sm) =>
      lazymatch tr with
      | context [AddShotMetadata _ _ ?made
                   (VideoStorage.get_shot_video_path _ _ _ _ ?with_critique)
                   ?critique] =>
          apply (ShotAnalyzer.completed _ _ _ _ _ made critique with_critique)
      | context [Print ("Error analyzing shot " +:+ _ +:+ ": " +:+ str ?e)] =>
          apply (ShotAnalyzer.failed _ _ _ _ _ e sm)
      | _ => apply ShotAnalyzer.not_saved
      end
  end;
  unfold_vocabulary; first [assumption | reflexivity | congruence].

Lemma task_ending self env a files :
  ShotAnalyzer.ending self env a files (ShotAnalyzer.run_thread self env a files).
Proof.
  destruct self as [[callback|]], a as [sid n fr w h [made|]].
  all: run_task.
  all: close_ending.
Qed.

Lemma task_labelled self env a files :
  Forall (ShotAnalyzer.labelled env a)
         (Task.trace (ShotAnalyzer.run_thread self env a files)).
Proof.
  destruct self as [[callback|]], a as [sid n fr w h [made|]].
  all: run_task.
  all: repeat (apply Forall_cons; split; [unfold_vocabulary; eauto 6|]).
  all: apply Forall_nil_2.
Qed.

End TaskEndings.

(** X15.  Every analysis task ends in one of three ways.  The clip could
    not be saved: no callback, no record.  An exception reached the
    [except] clause: no record, and the callback stored on the analyzer
    (if any) is invoked once, with the text of the error and no clip.
    Or the task completed: the record appended to the session file and
    the one invocation of the callback carry the same outcome, critique
    and clip; the clip is the raw or the annotated file labelled with
    that outcome; the critique is Gemini's answer for the raw file of
    that outcome; and a supplied outcome is the one recorded. *)
Theorem X15_task_endings :
  forall (self : ShotAnalyzer.t) (env : services) (a : ShotAnalyzer.thread_args)
         (files : gmap string MetadataManager.session_metadata),
    ShotAnalyzer.ending self env a files (ShotAnalyzer.run_thread self env a files).
Proof. exact task_ending. Qed.

(** X16.  In everything a task does, the made-or-missed label of a file
    name agrees with the outcome the file is processed under: the
    critique is requested for the raw clip of the outcome named in the
    prompt, the overlay reads the raw and writes the annotated clip of
    one outcome, the record names a clip of the recorded outcome.  The
    made-or-missed question and the rename from missed to made occur
    only when no outcome was supplied. *)
Theorem X16_file_labels_follow_the_outcome :
  forall (self : ShotAnalyzer.t) (env : services) (a : ShotAnalyzer.thread_args)
         (files : gmap string MetadataManager.session_metadata),
    Forall (ShotAnalyzer.labelled env a)
           (Task.trace (ShotAnalyzer.run_thread self env a files)).
Proof. exact task_labelled. Qed.

(** ** The overlay text *)

Section OverlayFacts.

Import VideoOverlay.

Lemma string_length_app (a b : string) :
  String.length (a +:+ b) = (String.length a + String.length b)%nat.
Proof.
  induction a as [|x a IH]; [reflexivity|].
  rewrite string_app_cons. cbn [String.length]. now rewrite IH.
Qed.

Lemma join_app (a b : list string) :
  a <> [] -> b <> [] -> join (a ++ b) = join a +:+ " " +:+ join b.
Proof.
  unfold join. intros Ha Hb. induction a as [|x a IH]; [congruence|].
  destruct a as [|x' a].
  - destruct b as [|y b]; [congruence|]. reflexivity.
  - change (String.concat " " ((x :: x' :: a) ++ b))
      with (x +:+ " " +:+ String.concat " " ((x' :: a) ++ b)).
    rewrite IH by discriminate.
    change (String.concat " " (x :: x' :: a))
      with (x +:+ " " +:+ String.concat " " (x' :: a)).
    now rewrite !string_app_assoc.
Qed.

Lemma join_groups (groups : list (list string)) :
  Forall (fun g => g <> []) groups ->
  join (map join groups) = join (List.concat groups).
Proof.
  induction 1 as [|g groups Hg Hgs IH]; [reflexivity|].
  destruct groups as [|g' groups].
  - cbn. now rewrite app_nil_r.
  - change (join (map join (g :: g' :: groups)))
      with (join g +:+ " " +:+ join (map join (g' :: groups))).
    rewrite IH. cbn [List.concat]. rewrite (join_app g); [reflexivity|exact Hg|].
    inversion Hgs as [|? ? Hg' _]; subst. destruct g'; [congruence|discriminate].
Qed.

Lemma len_join_snoc (ws : list string) (w : string) :
  ws <> [] -> len (join (ws ++ [w])) = len (join ws) + 1 + len w.
Proof.
  intros Hws. rewrite join_app by (auto; discriminate).
  unfold len. rewrite !string_length_app. cbn [join String.concat String.length]. lia.
Qed.

Lemma fits_more max_chars seen w line :
  fits max_chars seen line -> fits max_chars (seen ++ [w]) line.
Proof. intros [H|H]; [now left|right]. apply in_or_app. now left. Qed.

Lemma wrapped_init max_chars : wrapped max_chars [] (Wrap [] [] 0) [].
Proof.
  unfold wrapped. cbn. repeat split; auto; try lia; try congruence.
  all: congruence.
Qed.

Lemma wrapped_step max_chars seen st groups w :
  wrapped max_chars seen st groups ->
  exists groups',
    wrapped max_chars (seen ++ [w]) (wrap_word max_chars st w) groups' /\
    current_line (wrap_word max_chars st w) <> [].
Proof.
  intros (Hlines & Hne & Hseen & Hfits & Hpos & Hempty & Hcur).
  assert (Hfits' : Forall (fits max_chars (seen ++ [w])) (lines st)).
  { eapply Forall_impl; [exact Hfits|]. intros line. apply fits_more. }
  unfold wrap_word.
  destruct (current_line st) as [|w0 cur] eqn:Ecur.
  - (* the first word *)
    rewrite andb_false_r. exists groups. split; [|cbn; discriminate].
    unfold wrapped. cbn [lines current_line current_length app].
    repeat split.
    + exact Hlines.
    + exact Hne.
    + rewrite <- Hseen. now rewrite <- app_assoc.
    + exact Hfits'.
    + unfold len. lia.
    + discriminate.
    + cbn. unfold len. lia.
    + right. now exists w.
  - destruct Hcur as [Hlen Hmax]; [discriminate|].
    cbn [truthy]. rewrite andb_true_r.
    destruct (Z.ltb_spec max_chars (current_length st + (len w + 1))) as [Hflush|Hroom].
    + (* the line is closed and [w] starts the next one *)
      exists (groups ++ [w0 :: cur]). split; [|cbn; discriminate].
      unfold wrapped. cbn [lines current_line current_length].
      repeat split.
      * rewrite map_app, Hlines. reflexivity.
      * apply Forall_app. split; [exact Hne|]. constructor; [discriminate|constructor].
      * rewrite concat_app. cbn [List.concat]. rewrite app_nil_r, <- Hseen.
        reflexivity.
      * apply Forall_app. split; [exact Hfits'|].
        constructor; [|constructor]. destruct Hmax as [Hmax|[w1 Hw1]].
        -- left. lia.
        -- right. injection Hw1 as -> ->. cbn [join String.concat].
           rewrite <- Hseen. apply in_or_app. left. apply in_or_app. right.
           now left.
      * unfold len. lia.
      * discriminate.
      * cbn. lia.
      * right. now exists w.
    + (* [w] joins the line *)
      exists groups. split; [|cbn; discriminate].
      unfold wrapped. cbn [lines current_line current_length].
      repeat split.
      * exact Hlines.
      * exact Hne.
      * rewrite <- Hseen. now rewrite <- app_assoc.
      * exact Hfits'.
      * unfold len in *. lia.
      * discriminate.
      * rewrite (len_join_snoc (w0 :: cur)) by discriminate. lia.
      * left. lia.
Qed.

Lemma wrapped_fold max_chars words : forall seen st groups,
  wrapped max_chars seen st groups ->
  exists groups',
    wrapped max_chars (seen ++ words) (fold_left (wrap_word max_chars) words st) groups' /\
    (words <> [] -> current_line (fold_left (wrap_word max_chars) words st) <> []).
Proof.
  induction words as [|w words IH]; intros seen st groups H.
  - exists groups. rewrite app_nil_r. split; [exact H|congruence].
  - destruct (wrapped_step max_chars seen st groups w H) as (g1 & H1 & Hne1).
    destruct (IH _ _ _ H1) as (g2 & H2 & Hne2).
    exists g2. cbn [fold_left]. rewrite <- app_assoc in H2. split; [exact H2|].
    intros _. destruct words as [|w' words]; [exact Hne1|].
    apply Hne2. discriminate.
Qed.

Lemma replace_app old new (a b : string) :
  replace old new (a +:+ b) = replace old new a +:+ replace old new b.
Proof.
  induction a as [|c a IH]; [reflexivity|].
  rewrite string_app_cons. cbn [replace]. rewrite IH.
  destruct (Ascii.eqb c old); [now rewrite string_app_assoc|reflexivity].
Qed.

Lemma escaped_line_cons (c : ascii) (line : string) :
  escaped_line (String c line) = escaped_char c +:+ escaped_line line.
Proof.
  unfold escaped_line, escaped_char. cbn [replace].
  destruct (Ascii.eqb c "'") eqn:E1.
  { rewrite !replace_app. reflexivity. }
  cbn [replace].
  destruct (Ascii.eqb c ":") eqn:E2.
  { rewrite !replace_app. reflexivity. }
  cbn [replace].
  destruct (Ascii.eqb c backslash) eqn:E3; reflexivity.
Qed.

End OverlayFacts.

(** X17.  On ASCII text, [_split_text_into_lines] never returns an
    empty list.  A text without a word comes back as the one line
    [text].  Otherwise the lines, joined by single spaces, are the words
    of the text joined by single spaces: no word is lost, repeated or
    reordered; and each line is at most [max_chars] characters long
    unless it consists of a single word of the text. *)
Theorem X17_lines_keep_the_words_and_fit :
  forall (text : string) (max_chars : Z),
    CritiqueGenerator.ascii_text text = true ->
    let lines := VideoOverlay._split_text_into_lines text max_chars in
    lines <> [] /\
    match VideoOverlay.split text with
    | [] => lines = [text]
    | words =>
        VideoOverlay.join lines = VideoOverlay.join words /\
        Forall (fun line =>
                  VideoOverlay.len line <= max_chars \/ In line words) lines
    end.
Proof.
  intros text max_chars _ lines. subst lines.
  unfold VideoOverlay._split_text_into_lines.
  destruct (wrapped_fold max_chars (VideoOverlay.split text) [] _ []
              (wrapped_init max_chars))
    as (groups & (Hlines & Hne & Hseen & Hfits & Hpos & Hempty & Hcur) & Hlast).
  cbn [app] in *.
  destruct (VideoOverlay.split text) as [|w words] eqn:Ewords.
  - cbn. split; [discriminate|reflexivity].
  - set (st := fold_left (VideoOverlay.wrap_word max_chars) (w :: words)
                 (VideoOverlay.Wrap [] [] 0)) in *.
    destruct (VideoOverlay.current_line st) as [|w0 cur] eqn:Ecur.
    { exfalso. apply Hlast; [discriminate|reflexivity]. }
    cbn [VideoOverlay.truthy].
    assert (Htruthy : VideoOverlay.truthy
                        (VideoOverlay.lines st ++ [VideoOverlay.join (w0 :: cur)]) = true).
    { destruct (VideoOverlay.lines st); reflexivity. }
    rewrite Htruthy. split; [|split].
    + destruct (VideoOverlay.lines st); discriminate.
    + rewrite Hlines.
      change [VideoOverlay.join (w0 :: cur)] with (map VideoOverlay.join [w0 :: cur]).
      rewrite <- map_app, join_groups.
      * rewrite concat_app. cbn [List.concat]. now rewrite app_nil_r, Hseen.
      * apply Forall_app. split; [exact Hne|].
        constructor; [discriminate|constructor].
    + apply Forall_app. split; [exact Hfits|]. constructor; [|constructor].
      destruct Hcur as [Hlen Hmax]; [discriminate|].
      destruct Hmax as [Hmax|[w1 Hw1]].
      * left. lia.
      * right. injection Hw1 as -> ->. cbn [VideoOverlay.join String.concat].
        rewrite <- Hseen. apply in_or_app. right. now left.
Qed.

(** Five words wrapped at ten characters. *)
Lemma X17_witness :
  CritiqueGenerator.ascii_text "Nice  arc on that shot" = true /\
  VideoOverlay._split_text_into_lines "Nice  arc on that shot" 10
  = ["Nice arc"; "on that"; "shot"]%string /\
  VideoOverlay._split_text_into_lines "Nice  arc on that shot" 10 <> [].
Proof.
  split; [reflexivity|]. split; [reflexivity|].
  exact (proj1 (X17_lines_keep_the_words_and_fit "Nice  arc on that shot" 10
                  eq_refl)).
Defined.

(** X18.  The three replacements applied to an overlay line act on each
    character separately, and the third undoes the first two: an
    apostrophe and a colon each come out preceded by two backslashes
    (the backslash just put before them is doubled), a backslash comes
    out doubled, every other character is unchanged. *)
Theorem X18_escape_doubles_its_own_backslashes :
  forall line : string,
    VideoOverlay.escaped_line line
    = VideoOverlay.each VideoOverlay.escaped_char line.
Proof.
  induction line as [|c line IH]; [reflexivity|].
  rewrite escaped_line_cons. cbn [VideoOverlay.each]. now rewrite IH.
Qed.

(** ** The video thread and the shot handlers *)

Section ThreadFacts.

Lemma deque_append_last {A : Type} (d : deque A) (a : A) :
  0 < maxlen d -> exists ring, items (deque_append d a) = ring ++ [a].
Proof.
  intros Hmax. unfold deque_append.
  destruct (maxlen d <? Z.of_nat (length (items d ++ [a]))) eqn:E; cbn [items].
  - destruct (items d) as [|x l]; cbn in *.
    + apply Z.ltb_lt in E. lia.
    + now exists l.
  - now exists (items d).
Qed.

Lemma deliver_callback w out :
  In ShotDetector.CallShotCallback out ->
  (length out <= 2)%nat ->
  ShotDetector.count_calls out = 1%nat ->
  MainWindow.deliver w out = MainWindow.on_shot_detected w.
Proof.
  intros _ Hlen Hcount.
  destruct out as [|[] [|[] [|ev out]]]; cbn in *; try lia; try discriminate;
    reflexivity.
Qed.

Lemma callback_events self frame lms :
  In ShotDetector.CallShotCallback
     (ShotDetector.events (ShotDetector.process_frame self frame lms)) ->
  ShotDetector.events (ShotDetector.process_frame self frame lms)
  = [ShotDetector.CallShotCallback; ShotDetector.PrintReleaseConfirmed].
Proof.
  intros Hin.
  destruct (step_summary self frame lms)
    as [(E & _) | [(_ & (side & vv & above & E) & _) | (_ & _ & E & _)]];
    rewrite E in *.
  - destruct Hin.
  - destruct Hin as [H|[]]. discriminate.
  - unfold ShotDetector._trigger_shot in *.
    destruct (ShotDetector.shot_callback self); [reflexivity|].
    destruct Hin as [H|[]]. discriminate.
Qed.

Lemma run_feeds_is_recording calls : forall r,
  Forall VideoRecorder.feeds calls ->
  VideoRecorder.is_recording (VideoRecorder.run r calls) = VideoRecorder.is_recording r.
Proof.
  unfold VideoRecorder.run.
  induction calls as [|c calls IH]; intros r Hf; [reflexivity|].
  inversion Hf as [|? ? Hc Hcs]; subst. cbn [fold_left]. rewrite IH by exact Hcs.
  destruct c as [[f|]| |[f|]|]; cbn in Hc; try contradiction; cbn;
    unfold VideoRecorder.add_recording_frame;
    destruct (VideoRecorder.is_recording r) eqn:E; cbn; rewrite ?E; reflexivity.
Qed.

Lemma process_shot_closed w :
  VideoRecorder.current_video_frames (MainWindow.video_recorder w) = [] ->
  MainWindow.threads (MainWindow.process_shot w) = MainWindow.threads w /\
  MainWindow.shot_analyzer (MainWindow.process_shot w) = MainWindow.shot_analyzer w /\
  MainWindow.current_shot_number (MainWindow.process_shot w)
  = MainWindow.current_shot_number w /\
  VideoRecorder.is_recording (MainWindow.video_recorder (MainWindow.process_shot w))
  = false.
Proof.
  intros H. unfold MainWindow.process_shot, VideoRecorder.stop_recording.
  rewrite H. cbn. repeat split.
Qed.

End ThreadFacts.

(** X19.  On the pass of the video thread in which the detector calls
    back, with a session active, the clip is opened from the ring, which
    already ends with the frame of this pass as it was read, and the
    same frame, now with the overlays drawn on it, is appended to the
    clip: the frame of the detection is in the clip twice.  The shot
    counter goes up by one. *)
Theorem X19_detection_frame_recorded_twice :
  forall (self : VideoThread.t) (frame drawn : ndarray)
         (landmarks : option (gmap Z ShotDetector.landmark)),
    nd_height frame <> 0 -> nd_width frame <> 0 ->
    MainWindow.session_is_active (VideoThread.window self) = true ->
    0 < maxlen (VideoRecorder.frame_buffer
                  (MainWindow.video_recorder (VideoThread.window self))) ->
    In ShotDetector.CallShotCallback
       (ShotDetector.events
          (ShotDetector.process_frame (VideoThread.shot_detector self)
             (Some frame) landmarks)) ->
    let self' := VideoThread.iteration self frame landmarks drawn in
    let recorder := MainWindow.video_recorder (VideoThread.window self') in
    exists ring,
      items (VideoRecorder.frame_buffer recorder) = ring ++ [frame] /\
      VideoRecorder.current_video_frames recorder = ring ++ [frame; drawn] /\
      VideoRecorder.is_recording recorder = true /\
      MainWindow.current_shot_number (VideoThread.window self')
      = MainWindow.current_shot_number (VideoThread.window self) + 1.
Proof.
  intros self frame drawn landmarks Hh Hw Hactive Hmax Hin self' recorder.
  subst recorder self'. unfold VideoThread.iteration.
  destruct (Z.eqb_spec (nd_height frame) 0) as [|_]; [contradiction|].
  destruct (Z.eqb_spec (nd_width frame) 0) as [|_]; [contradiction|].
  cbn [orb]. rewrite (callback_events _ _ _ Hin).
  cbn [MainWindow.deliver fold_left]. unfold MainWindow.on_shot_detected.
  cbn [VideoThread.with_recorder MainWindow.session_is_active].
  rewrite Hactive. cbn [negb MainWindow.video_recorder VideoRecorder.start_recording
                        VideoRecorder.is_recording VideoThread.window
                        VideoThread.with_recorder VideoRecorder.add_recording_frame
                        VideoRecorder.frame_buffer VideoRecorder.current_video_frames
                        VideoRecorder.add_frame MainWindow.current_shot_number].
  destruct (deque_append_last
              (VideoRecorder.frame_buffer
                 (MainWindow.video_recorder (VideoThread.window self)))
              (copy frame) Hmax) as (ring & Hring).
  exists ring. rewrite Hring. unfold copy. rewrite <- app_assoc.
  repeat split.
Qed.

Lemma X19_witness :
  let self := VideoThread.Build Scenario.window0 Scenario.armed7 in
  let self' :=
    VideoThread.iteration self Scenario.frame100
      (Some (Scenario.pose 0.6 0.6 0.7)) (Scenario.numbered 9) in
  In ShotDetector.CallShotCallback
     (ShotDetector.events
        (ShotDetector.process_frame Scenario.armed7 (Some Scenario.frame100)
           (Some (Scenario.pose 0.6 0.6 0.7)))) /\
  exists ring,
    VideoRecorder.current_video_frames
      (MainWindow.video_recorder (VideoThread.window self'))
    = ring ++ [Scenario.frame100; Scenario.numbered 9].
Proof.
  intros self self'.
  assert (Hin : In ShotDetector.CallShotCallback
                   (ShotDetector.events
                      (ShotDetector.process_frame Scenario.armed7
                         (Some Scenario.frame100)
                         (Some (Scenario.pose 0.6 0.6 0.7))))).
  { vm_compute. left. reflexivity. }
  split; [exact Hin|].
  destruct (X19_detection_frame_recorded_twice self Scenario.frame100
              (Scenario.numbered 9) (Some (Scenario.pose 0.6 0.6 0.7)))
    as (ring & _ & Hclip & _); [cbn; lia|cbn; lia|reflexivity|cbn; lia|exact Hin|].
  exists ring. exact Hclip.
Defined.

(** X20.  When the detector calls back a second time before the timer
    of the first call has fired, the two runs of [process_shot] submit
    one analysis only: the first submits the clip opened at the second
    call, under the number of the second shot, and the second finds no
    recording and submits nothing.  No clip is submitted under the
    number of the first shot. *)
Theorem X20_second_detection_supersedes_the_first :
  forall (w : MainWindow.t) (calls1 calls2 calls3 : list VideoRecorder.call)
         (first : ndarray) (rest : list ndarray),
    MainWindow.session_is_active w = true ->
    Forall VideoRecorder.feeds calls1 ->
    Forall VideoRecorder.feeds calls2 ->
    Forall VideoRecorder.feeds calls3 ->
    let second := VideoThread.feed (MainWindow.on_shot_detected w) calls1 in
    items (VideoRecorder.frame_buffer (MainWindow.video_recorder second))
      ++ VideoRecorder.appended calls2 = first :: rest ->
    let w' :=
      MainWindow.process_shot
        (VideoThread.feed
           (MainWindow.process_shot
              (VideoThread.feed (MainWindow.on_shot_detected second) calls2))
           calls3) in
    MainWindow.threads w'
    = MainWindow.threads w
      ++ [ShotAnalyzer.Args (default "None"%string (MainWindow.session_id w))
            (MainWindow.current_shot_number w + 2) (first :: rest)
            (nd_width first) (nd_height first) None] /\
    MainWindow.current_shot_number w' = MainWindow.current_shot_number w + 2 /\
    VideoRecorder.is_recording (MainWindow.video_recorder w') = false.
Proof.
  intros w calls1 calls2 calls3 first rest Hactive H1 H2 H3 second Hclip w'.
  set (armed := VideoThread.feed (MainWindow.on_shot_detected second) calls2) in *.
  assert (Hsecond : MainWindow.session_is_active second = true /\
                    MainWindow.session_id second = MainWindow.session_id w /\
                    MainWindow.current_shot_number second
                    = MainWindow.current_shot_number w + 1 /\
                    MainWindow.threads second = MainWindow.threads w).
  { subst second. unfold MainWindow.on_shot_detected. rewrite Hactive.
    cbn. repeat split; try reflexivity; exact Hactive. }
  destruct Hsecond as (Hact2 & Hid2 & Hn2 & Hth2).
  assert (Harmed : VideoRecorder.current_video_frames (MainWindow.video_recorder armed)
                   = first :: rest /\
                   MainWindow.session_id armed = MainWindow.session_id w /\
                   MainWindow.current_shot_number armed
                   = MainWindow.current_shot_number w + 2 /\
                   MainWindow.threads armed = MainWindow.threads w).
  { subst armed. unfold MainWindow.on_shot_detected. rewrite Hact2.
    cbn [negb VideoThread.feed VideoThread.with_recorder MainWindow.video_recorder
         MainWindow.session_id MainWindow.current_shot_number MainWindow.threads].
    rewrite run_recording by (auto; reflexivity).
    cbn [VideoRecorder.start_recording VideoRecorder.current_video_frames].
    rewrite Hclip, Hid2, Hn2, Hth2. repeat split. lia. }
  destruct Harmed as (Hfr & Hid3 & Hn3 & Hth3). clearbody armed.
  set (submitted := MainWindow.process_shot armed) in *.
  assert (Hsub : MainWindow.threads submitted
                 = MainWindow.threads w
                   ++ [ShotAnalyzer.Args (default "None"%string (MainWindow.session_id w))
                         (MainWindow.current_shot_number w + 2) (first :: rest)
                         (nd_width first) (nd_height first) None] /\
                 MainWindow.current_shot_number submitted
                 = MainWindow.current_shot_number w + 2 /\
                 VideoRecorder.is_recording (MainWindow.video_recorder submitted) = false /\
                 VideoRecorder.current_video_frames (MainWindow.video_recorder submitted)
                 = []).
  { subst submitted. unfold MainWindow.process_shot, VideoRecorder.stop_recording.
    rewrite Hfr. cbn. rewrite Hid3, Hn3, Hth3. repeat split. }
  destruct Hsub as (Hth4 & Hn4 & Hrec4 & Hcur4).
  destruct (run_closed calls3 (MainWindow.video_recorder submitted) H3 Hrec4)
    as [Hrec5 Hcur5].
  rewrite Hcur4 in Hcur5.
  destruct (process_shot_closed (VideoThread.feed submitted calls3) Hcur5)
    as (Hth6 & _ & Hn6 & Hrec6).
  subst w'. rewrite Hth6, Hn6, Hrec6. cbn [VideoThread.feed VideoThread.with_recorder
    MainWindow.threads MainWindow.current_shot_number].
  rewrite Hth4, Hn4. repeat split.
Qed.

Lemma X20_witness :
  let calls := [VideoRecorder.AddFrame (Some (Scenario.numbered 3));
                VideoRecorder.AddRecordingFrame (Some (Scenario.numbered 3))] in
  let w' :=
    MainWindow.process_shot
      (VideoThread.feed
         (MainWindow.process_shot
            (VideoThread.feed
               (MainWindow.on_shot_detected
                  (VideoThread.feed (MainWindow.on_shot_detected Scenario.window0)
                     calls))
               calls))
         calls) in
  Forall VideoRecorder.feeds calls /\
  MainWindow.threads w'
  = [ShotAnalyzer.Args "s" 2
       [Scenario.numbered 1; Scenario.numbered 2; Scenario.numbered 3;
        Scenario.numbered 3] 2 2 None].
Proof.
  intros calls w'.
  assert (Hf : Forall VideoRecorder.feeds calls) by (repeat constructor).
  split; [exact Hf|].
  exact (proj1 (X20_second_detection_supersedes_the_first Scenario.window0
                  calls calls calls (Scenario.numbered 1)
                  [Scenario.numbered 2; Scenario.numbered 3; Scenario.numbered 3]
                  eq_refl Hf Hf Hf eq_refl)).
Defined.

(** ** Division by zero in the detector *)

Section DetectorDivision.

Import ShotDetector.

Lemma bind_raise {A B : Type} (m : outcome A) (f : A -> outcome B) (e : exception) :
  (m ≫= f) = Raise e -> m = Raise e \/ exists a, m = Return a /\ f a = Raise e.
Proof.
  destruct m as [a|e']; cbn; intros H; [right; eauto|left; congruence].
Qed.

Lemma float_of_int_raise n e : float_of_int n = Raise e -> e <> ZeroDivisionError.
Proof. unfold float_of_int. destruct (is_inf _); intros [= <-]; discriminate. Qed.

Lemma int_raise f e : Py.int f = Raise e -> e <> ZeroDivisionError.
Proof. unfold Py.int. destruct (Prim2SF f); intros [= <-]; discriminate. Qed.

Lemma float_mul_int_raise f n e : float_mul_int f n = Raise e -> e <> ZeroDivisionError.
Proof.
  unfold float_mul_int. intros H.
  apply bind_raise in H as [H|(g & _ & H)]; [now apply float_of_int_raise in H|].
  discriminate.
Qed.

Lemma pixel_raise lm h w e : pixel lm h w = Raise e -> e <> ZeroDivisionError.
Proof.
  unfold pixel. intros H.
  apply bind_raise in H as [H|(fx & _ & H)]; [now apply float_mul_int_raise in H|].
  apply bind_raise in H as [H|(px & _ & H)]; [now apply int_raise in H|].
  apply bind_raise in H as [H|(fy & _ & H)]; [now apply float_mul_int_raise in H|].
  apply bind_raise in H as [H|(py & _ & H)]; [now apply int_raise in H|].
  discriminate.
Qed.

Lemma arm_positions_raise wes h w e :
  arm_positions wes h w = Raise e -> e <> ZeroDivisionError.
Proof.
  destruct wes as [[lw le] ls]. unfold arm_positions. intros H.
  apply bind_raise in H as [H|(a & _ & H)]; [now apply pixel_raise in H|].
  apply bind_raise in H as [H|(b & _ & H)]; [now apply pixel_raise in H|].
  apply bind_raise in H as [H|(c & _ & H)]; [now apply pixel_raise in H|].
  discriminate.
Qed.

Lemma get_arm_raise g h w e :
  _get_shooting_arm_landmarks g h w = Raise e -> e <> ZeroDivisionError.
Proof.
  unfold _get_shooting_arm_landmarks. intros H.
  destruct (arm_visible _ _ _) as [wes|].
  - apply bind_raise in H as [H|(p & _ & H)]; [now apply arm_positions_raise in H|].
    discriminate.
  - destruct (arm_visible _ _ _) as [wes|]; [|discriminate].
    apply bind_raise in H as [H|(p & _ & H)]; [now apply arm_positions_raise in H|].
    discriminate.
Qed.

Lemma np_sqrt_raise n e : np_sqrt n = Raise e -> e <> ZeroDivisionError.
Proof. unfold np_sqrt. destruct (n <? 2 ^ 64); intros [= <-]; discriminate. Qed.

Lemma truediv_raise a b e : b <> 0 -> truediv a b = Raise e -> e <> ZeroDivisionError.
Proof.
  intros Hb. unfold truediv. destruct (Z.eqb_spec b 0); [contradiction|].
  destruct (is_inf _); intros [= <-]; discriminate.
Qed.

Lemma calculate_velocity_raise positions e :
  _calculate_velocity positions = Raise e -> e <> ZeroDivisionError.
Proof.
  unfold _calculate_velocity. destruct (deque_len positions <? 5); [discriminate|].
  destruct (head (items positions)) as [first|]; [|intros [= <-]; discriminate].
  destruct (last (items positions)) as [final|]; [|intros [= <-]; discriminate].
  destruct (Z.eqb_spec (Z.of_nat (length (items positions)) - 1) 0) as [|Hdt];
    [discriminate|].
  intros H.
  apply bind_raise in H as [H|(vx & _ & H)]; [now apply truediv_raise in H|].
  apply bind_raise in H as [H|(vy & _ & H)]; [now apply truediv_raise in H|].
  discriminate.
Qed.

Lemma process_frame_division self fr lms e :
  nd_height fr <> 0 ->
  raised (process_frame self (Some fr) lms) = Some e -> e <> ZeroDivisionError.
Proof.
  intros Hh. unfold process_frame.
  destruct lms as [g|]; [|discriminate].
  destruct (_get_shooting_arm_landmarks g (nd_height fr) (nd_width fr))
    as [[[[[wp ep] sp] side]|]|e0] eqn:Earm; cbn [raised]; try discriminate.
  2: { intros [= <-]. now apply get_arm_raise in Earm. }
  destruct (np_sqrt _) as [ext|e0] eqn:Esqrt; cbn [raised].
  2: { intros [= <-]. now apply np_sqrt_raise in Esqrt. }
  destruct (truediv (snd wp) (nd_height fr)) as [nwy|e0] eqn:Ewy; cbn [raised].
  2: { intros [= <-]. now apply truediv_raise in Ewy. }
  destruct (truediv (snd sp) (nd_height fr)) as [nsy|e0] eqn:Esy; cbn [raised].
  2: { intros [= <-]. now apply truediv_raise in Esy. }
  destruct (7 <=? _); [|discriminate].
  destruct (_calculate_velocity _) as [[v|]|e0] eqn:Ev; cbn [raised]; try discriminate.
  - now destruct (detect _ _ _ _ _).
  - intros [= <-]. now apply calculate_velocity_raise in Ev.
Qed.

End DetectorDivision.

(** X21.  On a frame whose height is not zero, [process_frame] never
    raises ZeroDivisionError, whatever the landmarks: the normalisation
    divides by the height, and the velocity is computed only when the
    history spans at least one frame interval. *)
Theorem X21_no_division_by_zero :
  forall (self : ShotDetector.t) (frame : ndarray)
         (landmarks : option (gmap Z ShotDetector.landmark)),
    nd_height frame <> 0 ->
    ShotDetector.raised (ShotDetector.process_frame self (Some frame) landmarks)
    <> Some ZeroDivisionError.
Proof.
  intros self frame landmarks Hh H.
  now apply (process_frame_division self frame landmarks ZeroDivisionError Hh H).
Qed.

Lemma X21_witness :
  nd_height Scenario.frame100 <> 0 /\
  ShotDetector.raised
    (ShotDetector.process_frame Scenario.idle6 (Some Scenario.frame100)
       (Some (Scenario.pose 0.5 0.6 0.7)))
  <> Some ZeroDivisionError.
Proof.
  assert (Hh : nd_height Scenario.frame100 <> 0) by (cbn; lia).
  split; [exact Hh|].
  exact (X21_no_division_by_zero Scenario.idle6 Scenario.frame100
           (Some (Scenario.pose 0.5 0.6 0.7)) Hh).
Defined.

(** X22.  On a frame of height zero whose landmarks resolve to an arm,
    [process_frame] raises ZeroDivisionError at the normalisation, after
    the three positions and the arm extension have been appended to the
    histories: the histories have grown although the call failed; the
    flags and the counter are unchanged and nothing is printed or
    called. *)
Theorem X22_zero_height_raises_after_storing :
  forall (self : ShotDetector.t) (frame : ndarray)
         (landmarks : gmap Z ShotDetector.landmark)
         (wrist_pos elbow_pos shoulder_pos : ShotDetector.position)
         (side : ShotDetector.arm) (arm_extension : float),
    nd_height frame = 0 ->
    ShotDetector._get_shooting_arm_landmarks landmarks 0 (nd_width frame)
    = Return (Some (wrist_pos, elbow_pos, shoulder_pos, side)) ->
    np_sqrt ((fst wrist_pos - fst elbow_pos) ^ 2 + (snd wrist_pos - snd elbow_pos) ^ 2)
    = Return arm_extension ->
    ShotDetector.process_frame self (Some frame) (Some landmarks)
    = ShotDetector.Result
        (ShotDetector.stored self wrist_pos elbow_pos shoulder_pos arm_extension)
        [] (Some ZeroDivisionError).
Proof.
  intros self frame landmarks wrist_pos elbow_pos shoulder_pos side arm_extension
         Hh Harm Hsqrt.
  unfold ShotDetector.process_frame. rewrite Hh, Harm. cbv zeta. rewrite Hsqrt.
  reflexivity.
Qed.

Lemma X22_witness :
  let flat := NdArray 0 100 [] in
  nd_height flat = 0 /\
  ShotDetector.raised
    (ShotDetector.process_frame Scenario.idle6 (Some flat)
       (Some (Scenario.pose 0.5 0.6 0.7)))
  = Some ZeroDivisionError /\
  deque_len (ShotDetector.wrist_positions
               (ShotDetector.after
                  (ShotDetector.process_frame Scenario.idle6 (Some flat)
                     (Some (Scenario.pose 0.5 0.6 0.7)))))
  = deque_len (ShotDetector.wrist_positions Scenario.idle6) + 1.
Proof.
  intros flat. split; [reflexivity|].
  rewrite (X22_zero_height_raises_after_storing Scenario.idle6 flat
             (Scenario.pose 0.5 0.6 0.7) (50, 0) (50, 0) (50, 0)
             ShotDetector.right 0%float eq_refl);
    [split; vm_compute; reflexivity|vm_compute; reflexivity|vm_compute; reflexivity].
Defined.

(** ** Failures of the Gemini API *)

Section ClientFacts.

Import CritiqueGenerator.

Lemma contains_skip (m : ascii) (w a s : string) :
  VideoStorage.free m a ->
  contains (String m w) (a +:+ s) = contains (String m w) s.
Proof.
  induction a as [|c a IH]; [reflexivity|]. intros [Hc Ha].
  rewrite string_app_cons. cbn [contains String.prefix].
  destruct (ascii_dec m c) as [->|_]; [congruence|]. now apply IH.
Qed.

Lemma verdict_of_error (m : string) :
  contains "MADE" (upper ("Error analyzing video: " +:+ m)) = contains "MADE" (upper m) /\
  contains "MISSED" (upper ("Error analyzing video: " +:+ m))
  = contains "MISSED" (upper m).
Proof.
  rewrite upper_app.
  change (upper "Error analyzing video: ") with "ERROR ANALYZING VIDEO: "%string.
  split; apply contains_skip; cbn; repeat split; discriminate.
Qed.

End ClientFacts.

(** X23.  When the made-or-missed question goes through [GeminiClient]
    and the API call fails with an error whose text is ASCII, no
    exception reaches [determine_shot_result]: the client answers with
    the text of the error, and the shot counts as made exactly when that
    text, in upper case, contains MADE and not MISSED. *)
Theorem X23_api_failure_is_classified_as_a_reply :
  forall (env : services) (video_path : string) (s : state) (e : exception),
    CritiqueGenerator.ascii_text (str e) = true ->
    analyze_video env video_path ShotResultPrompt
    = GeminiClient.analyze_video (Raise e) ->
    fst (CritiqueGenerator.determine_shot_result env video_path s)
    = Return (CritiqueGenerator.contains "MADE" (CritiqueGenerator.upper (str e))
              && negb (CritiqueGenerator.contains "MISSED"
                         (CritiqueGenerator.upper (str e)))).
Proof.
  intros env video_path s e _ Hclient.
  unfold CritiqueGenerator.determine_shot_result.
  cbv [mbind M_bind mret M_ret emit]. rewrite Hclient.
  cbn [GeminiClient.analyze_video].
  destruct (verdict_unstripped ("Error analyzing video: " +:+ str e)) as [-> ->].
  destruct (verdict_of_error (str e)) as [-> ->].
  destruct (CritiqueGenerator.contains "MADE" _);
    destruct (CritiqueGenerator.contains "MISSED" _); reflexivity.
Qed.

Lemma X23_witness :
  CritiqueGenerator.ascii_text "request made no progress" = true /\
  analyze_video Scenario.api_down "clip.mp4" ShotResultPrompt
  = GeminiClient.analyze_video
      (Raise (Exception "DeadlineExceeded" "request made no progress")) /\
  fst (CritiqueGenerator.determine_shot_result Scenario.api_down "clip.mp4"
         (State ∅ [] None))
  = Return true.
Proof.
  split; [reflexivity|]. split; [reflexivity|].
  exact (X23_api_failure_is_classified_as_a_reply Scenario.api_down "clip.mp4"
           (State ∅ [] None)
           (Exception "DeadlineExceeded" "request made no progress")
           eq_refl eq_refl).
Defined.

(** ** The playback speed *)

Section SpeedFacts.

Lemma ltb_leb (x y : float) : PrimFloat.ltb x y = true -> PrimFloat.leb x y = true.
Proof.
  intros H. rewrite ltb_spec in H. rewrite leb_spec. unfold SFltb, SFleb in *.
  destruct (SFcompare _ _) as [[]|]; congruence.
Qed.

Lemma eqb_nan (x : float) : PrimFloat.eqb x x = false -> Prim2SF x = S754_nan.
Proof.
  rewrite FloatAxioms.eqb_spec. unfold SFeqb, SFcompare.
  destruct (Prim2SF x) as [s|s| |s m e]; try reflexivity.
  - destruct s; discriminate.
  - destruct s; discriminate.
  - rewrite Z.compare_refl.
    change (Pos.compare_cont Eq m m) with (Pos.compare m m).
    rewrite Pos.compare_refl. destruct s; discriminate.
Qed.

End SpeedFacts.

(** X24.  Whatever float is passed to [set_playback_speed], infinities
    and NaN included, and whether or not the delay can be computed, the
    speed stored lies between 0.1 and 5.0; a NaN selects 5.0.  The frame
    delay changes only on a connected manager whose capture reports a
    positive frame rate. *)
Theorem X24_speed_is_clamped :
  forall (self : VideoFileManager.t) (speed : float),
    let r := VideoFileManager.set_playback_speed self speed in
    PrimFloat.leb 0.1 (VideoFileManager.playback_speed (fst r)) = true /\
    PrimFloat.leb (VideoFileManager.playback_speed (fst r)) 5 = true /\
    (PrimFloat.eqb speed speed = false ->
     VideoFileManager.playback_speed (fst r) = 5%float) /\
    (VideoFileManager.is_connected self = false ->
     VideoFileManager.frame_delay_ms (fst r) = VideoFileManager.frame_delay_ms self).
Proof.
  intros self speed r.
  assert (Hspeed : VideoFileManager.playback_speed (fst r)
                   = VideoFileManager.py_max 0.1 (VideoFileManager.py_min 5 speed)).
  { subst r. unfold VideoFileManager.set_playback_speed. cbv zeta.
    cbn [VideoFileManager.is_connected VideoFileManager.cap].
    destruct (VideoFileManager.is_connected self); [|reflexivity].
    destruct (VideoFileManager.cap self) as [fps|]; [|reflexivity].
    destruct (PrimFloat.ltb 0 fps); [|reflexivity].
    destruct (_ ≫= _); reflexivity. }
  rewrite Hspeed. unfold VideoFileManager.py_max, VideoFileManager.py_min.
  repeat split.
  - destruct (PrimFloat.ltb speed 5) eqn:E5.
    + destruct (PrimFloat.ltb 0.1 speed) eqn:E1; [now apply ltb_leb|reflexivity].
    + reflexivity.
  - destruct (PrimFloat.ltb speed 5) eqn:E5.
    + destruct (PrimFloat.ltb 0.1 speed) eqn:E1; [now apply ltb_leb|reflexivity].
    + reflexivity.
  - intros Hnan. assert (E5 : PrimFloat.ltb speed 5 = false).
    { rewrite ltb_spec, (eqb_nan speed Hnan). reflexivity. }
    rewrite E5. reflexivity.
  - intros Hcon. subst r. unfold VideoFileManager.set_playback_speed. cbv zeta.
    cbn [VideoFileManager.is_connected]. rewrite Hcon. reflexivity.
Qed.

Lemma X24_witness :
  PrimFloat.eqb nan nan = false /\
  VideoFileManager.is_connected VideoFileManager.__init__ = false /\
  VideoFileManager.playback_speed
    (fst (VideoFileManager.set_playback_speed VideoFileManager.__init__ nan))
  = 5%float /\
  VideoFileManager.frame_delay_ms
    (fst (VideoFileManager.set_playback_speed VideoFileManager.__init__ nan))
  = 33.
Proof.
  split; [reflexivity|]. split; [reflexivity|].
  destruct (X24_speed_is_clamped VideoFileManager.__init__ nan)
    as (_ & _ & Hnan & Hcon).
  split; [exact (Hnan eq_refl)|exact (Hcon eq_refl)].
Defined.

Lemma X9_witness :
  let c := MetadataManager.ShotCall 1 true "a.mp4" "Good." "t1" "t2" in
  let files :=
    MetadataManager.save_session_metadata ∅ "other"
      (MetadataManager.create_session_metadata "other" "t0") in
  "other"%string <> "s"%string /\
  MetadataManager.load_session_metadata
    (MetadataManager.add_shots files "s" [c; c]) "other"
  = Some (MetadataManager.create_session_metadata "other" "t0") /\
  option_map MetadataManager.total_shots
    (MetadataManager.load_session_metadata
       (MetadataManager.add_shots files "s" [c; c]) "s")
  = Some 2.
Proof.
  intros c files.
  assert (Hne : "other"%string <> "s"%string) by discriminate.
  destruct (X9_shots_accumulate_in_call_order files "s" c [c]) as [Hs Ho].
  split; [exact Hne|]. split.
  - rewrite (Ho "other"%string Hne). reflexivity.
  - rewrite Hs. reflexivity.
Defined.

(** ** The callback slot and the session copy *)

Section SharedState.

Lemma reports_shape self n sm critique path :
  ShotAnalyzer.reports self n sm critique path = [] \/
  exists callback,
    ShotAnalyzer.analysis_callback self = Some callback /\
    ShotAnalyzer.reports self n sm critique path
    = [Callback callback n sm critique path].
Proof.
  unfold ShotAnalyzer.reports.
  destruct (ShotAnalyzer.analysis_callback self) as [callback|]; [right|left];
    eauto.
Qed.

End SharedState.

(** X25.  The callback is a slot on the analyzer, not part of a task:
    when a second [analyze_shot] is made before the first task has
    reported, the first task reports, at most once, to the callback of
    the second call, and reports nothing when the second call passed no
    callback.  The callback passed with the first call plays no role. *)
Theorem X25_task_reports_to_the_latest_callback :
  forall (self : ShotAnalyzer.t) (env : services)
         (files : gmap string MetadataManager.session_metadata)
         (sid1 sid2 : string) (n1 n2 w1 h1 w2 h2 : Z)
         (frames1 frames2 : list ndarray) (made1 made2 : option bool)
         (callback1 callback2 : option string),
    let first := ShotAnalyzer.analyze_shot self sid1 n1 frames1 w1 h1 made1 callback1 in
    let second :=
      ShotAnalyzer.analyze_shot (fst first) sid2 n2 frames2 w2 h2 made2 callback2 in
    let reported :=
      ShotAnalyzer.callbacks
        (Task.trace (ShotAnalyzer.run_thread (fst second) env (snd first) files)) in
    reported = [] \/
    exists callback made critique path,
      callback2 = Some callback /\
      reported = [Callback callback n1 made critique path].
Proof.
  intros self env files sid1 sid2 n1 n2 w1 h1 w2 h2 frames1 frames2 made1 made2
         callback1 callback2 first second reported.
  subst reported.
  destruct (task_ending (fst second) env (snd first) files)
    as [_ Hcb _ | e made _ Hcb _ _ | made critique wc _ Hcb _ _ _];
    rewrite Hcb; [now left| |].
  - destruct (reports_shape (fst second) (ShotAnalyzer.shot_number (snd first)) made
                ("Error: " +:+ str e) None) as [->|(cb & Hslot & ->)]; [now left|].
    right. exists cb, made, ("Error: " +:+ str e)%string, None. split; [exact Hslot|].
    reflexivity.
  - destruct (reports_shape (fst second) (ShotAnalyzer.shot_number (snd first))
                (Some made) critique
                (Some (ShotAnalyzer.clip_path env (snd first) made wc)))
      as [->|(cb & Hslot & ->)]; [now left|].
    right. exists cb, (Some made), critique,
             (Some (ShotAnalyzer.clip_path env (snd first) made wc)).
    split; [exact Hslot|reflexivity].
Qed.

(** X26.  The session manager of the window never writes a shot: the
    analyzer appends the records to the session file and the window
    reloads its copy in [on_shot_analyzed].  [end_session] then writes
    that copy over the file.  So, for a session started under a fresh,
    non-empty identifier, the file left by [end_session] holds the records that
    were in the file at the last reload, in order, and not the records
    appended since; and when the reload found no file, [end_session]
    writes nothing and returns [None]. *)
Theorem X26_end_session_writes_the_reloaded_copy :
  forall (self : SessionManager.t)
         (files : gmap string MetadataManager.session_metadata)
         (now_end now now' : string) (c0 : ascii) (uuid0 : string)
         (calls late : list MetadataManager.shot_call),
    let uuid := String c0 uuid0 in
    let started := SessionManager.start_session self files now_end uuid now in
    MetadataManager.load_session_metadata (snd (fst started)) uuid = None ->
    let files1 := MetadataManager.add_shots (snd (fst started)) uuid calls in
    let reloaded := SessionView.on_shot_analyzed (fst (fst started)) files1 in
    let files2 := MetadataManager.add_shots files1 uuid late in
    SessionManager.end_session reloaded files2 now'
    = match calls with
      | [] => (SessionManager.Build (Some uuid) None false, files2, None)
      | c :: _ =>
          let final :=
            MetadataManager.set_end_time
              (MetadataManager.with_shots
                 (MetadataManager.create_session_metadata uuid
                    (MetadataManager.call_created c))
                 (map MetadataManager.recorded calls)) now' in
          (SessionManager.Build (Some uuid) (Some final) false,
           MetadataManager.save_session_metadata files2 uuid final,
           Some final)
      end.
Proof.
  intros self files now_end now now' c0 uuid0 calls late uuid started Hfresh
         files1 reloaded files2.
  subst reloaded. unfold SessionView.on_shot_analyzed, SessionManager.get_session_id.
  subst started. rewrite (start_session_state self files now_end uuid now) in *.
  cbn [SessionManager.current_session_id SessionManager.is_active].
  subst uuid. cbv iota beta.
  destruct calls as [|c calls].
  - subst files1. cbn [MetadataManager.add_shots fold_left]. rewrite Hfresh.
    reflexivity.
  - subst files1. rewrite add_shots_load, Hfresh. reflexivity.
Qed.

Lemma X26_witness :
  let c1 := MetadataManager.ShotCall 1 true "a.mp4" "Good." "t1" "t2" in
  let c2 := MetadataManager.ShotCall 2 false "b.mp4" "Short." "t3" "t4" in
  let started := SessionManager.start_session SessionManager.__init__ ∅ "" "u" "t0" in
  let files1 := MetadataManager.add_shots (snd (fst started)) "u" [c1] in
  let reloaded := SessionView.on_shot_analyzed (fst (fst started)) files1 in
  let files2 := MetadataManager.add_shots files1 "u" [c2] in
  MetadataManager.load_session_metadata (snd (fst started)) "u" = None /\
  option_map MetadataManager.shots
    (MetadataManager.load_session_metadata files2 "u")
  = Some [MetadataManager.recorded c1; MetadataManager.recorded c2] /\
  option_map MetadataManager.shots
    (MetadataManager.load_session_metadata
       (snd (fst (SessionManager.end_session reloaded files2 "t5"))) "u")
  = Some [MetadataManager.recorded c1].
Proof.
  intros c1 c2 started files1 reloaded files2.
  assert (Hfresh : MetadataManager.load_session_metadata (snd (fst started)) "u"
                   = None) by reflexivity.
  split; [exact Hfresh|]. split; [reflexivity|].
  subst reloaded files2 files1 started.
  rewrite (X26_end_session_writes_the_reloaded_copy SessionManager.__init__ ∅
             "" "t0" "t5" "u" "" [c1] [c2] Hfresh).
  reflexivity.
Defined.
